(** * Pruning of TypeScript declaration files (prune-dts)

    A shallow embedding of the declaration pruner of the Firestore package:
    [pruneDts], [dropPrivateApiTransformer] and the helpers they call
    ([hasPrivatePrefix], [isExported], [maybeHideConstructor],
    [prunePrivateImports], [convertPropertiesForEnclosingClass],
    [extractJSDocComment], [extractExportedSymbol]).

    The TypeScript compiler API the tool is written against (syntax tree,
    type checker, node factory, [visitEachChild]) is not part of the
    repository.  The syntax tree is modelled by the inductive types below,
    restricted to the node kinds the pruner tests for; the type checker is
    a record of functions, so that every theorem holds for whatever the
    checker answers. *)

From Stdlib Require Import String Ascii List Bool ZArith Lia PeanoNat.
Import ListNotations.
Open Scope string_scope.
Open Scope list_scope.


Set Warnings "-register-all".

(* ================================================================== *)
(** ** Strings as JavaScript uses them here *)

(** [s.startsWith(p)] *)
Definition startsWith (p s : string) : bool := String.prefix p s.

(** [s.indexOf(p) != -1] *)
Definition includes (p s : string) : bool :=
  match String.index 0 p s with Some _ => true | None => false end.

Fixpoint dropChars (n : nat) (s : string) : string :=
  match n, s with
  | S n', String _ s' => dropChars n' s'
  | _, _ => s
  end.

(** [s.replace(pat, rep)] with a string pattern: only the first occurrence
    is replaced. *)
Fixpoint replace (pat rep s : string) : string :=
  if String.prefix pat s then String.append rep (dropChars (String.length pat) s)
  else match s with
       | EmptyString => EmptyString
       | String c s' => String c (replace pat rep s')
       end.

(** A string is the UTF-8 encoding of the JavaScript string it stands
    for.  A pattern of ASCII characters occurs in the encoding where it
    occurs in the string, so that [startsWith], [indexOf], [replace] and
    [===] with the ASCII patterns of the source are comparisons of bytes;
    strings with a lone surrogate have no encoding and are outside the
    model. *)
Definition ofBytes (bytes : list nat) : string :=
  fold_right (fun n s => String (ascii_of_nat n) s) EmptyString bytes.

(** The white space and line terminators [trim] removes, each by its
    encoding: U+0009 to U+000D, U+0020, U+00A0, U+1680, U+2000 to U+200A,
    U+2028, U+2029, U+202F, U+205F, U+3000 and U+FEFF. *)
Definition whiteSpaceBytes : list (list nat) :=
  [[9]; [10]; [11]; [12]; [13]; [32];
   [194; 160];
   [225; 154; 128];
   [226; 128; 128]; [226; 128; 129]; [226; 128; 130]; [226; 128; 131];
   [226; 128; 132]; [226; 128; 133]; [226; 128; 134]; [226; 128; 135];
   [226; 128; 136]; [226; 128; 137]; [226; 128; 138];
   [226; 128; 168]; [226; 128; 169]; [226; 128; 175];
   [226; 129; 159];
   [227; 128; 128];
   [239; 187; 191]]%nat.

(** Removes, [fuel] times at most, one of [spaces] from the front. *)
Fixpoint dropLeading (spaces : list string) (fuel : nat) (s : string) : string :=
  match fuel with
  | O => s
  | S fuel' =>
      match find (fun w => String.prefix w s) spaces with
      | Some w => dropLeading spaces fuel' (dropChars (String.length w) s)
      | None => s
      end
  end.

Fixpoint reverseOnto (s acc : string) : string :=
  match s with
  | EmptyString => acc
  | String c s' => reverseOnto s' (String c acc)
  end.

Definition reverseString (s : string) : string := reverseOnto s EmptyString.

(** [s.trimStart()]: every removal takes a byte at least, so the length
    of the string is fuel enough. *)
Definition trimStart (s : string) : string :=
  dropLeading (map ofBytes whiteSpaceBytes) (String.length s) s.

(** [s.trimEnd()], on the reversed string with the reversed encodings. *)
Definition trimEnd (s : string) : string :=
  reverseString
    (dropLeading (map (fun bytes => ofBytes (rev bytes)) whiteSpaceBytes)
                 (String.length s) (reverseString s)).

Definition trim (s : string) : string := trimEnd (trimStart s).

(** [parts.join('')] *)
Definition join (parts : list string) : string := String.concat "" parts.

Definition newline : string := String (ascii_of_nat 10) EmptyString.

(* ================================================================== *)
(** ** Errors *)

(** The two ways a pruning run can throw: the explicit [throw] of
    [prunePrivateImports], and the [TypeError] raised when
    [ts.getJSDocTags] is handed [undefined] (an out-of-range read of
    [symbol.declarations]). *)
Inductive Error : Type :=
| OnlyClassesOrInterfaces
| TypeErrorUndefined.

Inductive result (A : Type) : Type :=
| Ok (a : A)
| Throw (e : Error).

Arguments Ok {A} a.
Arguments Throw {A} e.

Definition bind {A B : Type} (r : result A) (k : A -> result B) : result B :=
  match r with
  | Ok a => k a
  | Throw e => Throw e
  end.

Notation "x <- c ;; k" := (bind c (fun x => k))
  (at level 61, c at next level, right associativity).

Fixpoint mapM {A B : Type} (f : A -> result B) (l : list A) : result (list B) :=
  match l with
  | [] => Ok []
  | x :: r => y <- f x ;; ys <- mapM f r ;; Ok (y :: ys)
  end.

(* ================================================================== *)
(** ** Syntax tree *)

(** An identifier node.  [pos] is the node's position in the source text;
    nodes created by the factory have position [-1].  Names beginning
    with two underscores, which TypeScript stores escaped, are outside the
    model: [escapedText], [escapedName] and [name] are the same string. *)
Record Identifier : Type := mkIdentifier {
  escapedText : string;
  pos : Z
}.

(** [factory.createIdentifier(text)] *)
Definition createIdentifier (text : string) : Identifier :=
  {| escapedText := text; pos := (-1)%Z |}.

(** [EntityName]: the [typeName] of a type reference. *)
Inductive EntityName : Type :=
| EntityIdentifier (i : Identifier)
| QualifiedName (left : EntityName) (right : Identifier).

(** Type nodes.  [typeArguments] is [[]] where the node has none. *)
Inductive TypeNode : Type :=
| TypeReferenceNode (typeName : EntityName) (typeArguments : list TypeNode)
| KeywordTypeNode (keyword : string)
| ArrayTypeNode (elementType : TypeNode)
| UnionTypeNode (types : list TypeNode).

Inductive Modifier : Type :=
| ExportKeyword | DeclareKeyword | DefaultKeyword | AbstractKeyword
| PrivateKeyword | ProtectedKeyword | PublicKeyword
| ReadonlyKeyword | StaticKeyword.

Definition isExportKeyword (m : Modifier) : bool :=
  match m with ExportKeyword => true | _ => false end.

Record JSDocTag : Type := mkTag {
  tagName : string;
  tagComment : option string
}.

Record ParameterDeclaration : Type := mkParameter {
  param_name : string;
  param_type : option TypeNode
}.

Record TypeParameterDeclaration : Type := mkTypeParameter {
  tp_name : string;
  tp_constraint : option TypeNode
}.

(** The name of a class or interface member.  Only identifiers carry an
    [escapedText]. *)
Inductive PropertyName : Type :=
| IdentifierName (i : Identifier)
| StringLiteralName (text : string).

Inductive MemberKind : Type :=
| PropertyDeclaration | MethodDeclaration | GetAccessor | SetAccessor
| PropertySignature | MethodSignature.

Record NamedMember : Type := mkNamedMember {
  m_kind : MemberKind;
  m_modifiers : list Modifier;
  m_name : PropertyName;
  m_typeParameters : list TypeParameterDeclaration;
  m_parameters : list ParameterDeclaration;
  m_type : option TypeNode;
  m_jsDoc : list JSDocTag
}.

(** What a member list of a class or interface can hold: constructors,
    named members, the JSDoc nodes the pruner pushes in front of copied
    members, and the placeholder [factory.createNotEmittedStatement(node)].
    A body is kept as its text; declaration files have none. *)
Inductive Member : Type :=
| ConstructorDeclaration (decorators : list string) (modifiers : list Modifier)
    (parameters : list ParameterDeclaration) (body : option string)
    (jsDoc : list JSDocTag)
| Named (m : NamedMember)
| JSDocComment (text : string) (tags : list JSDocTag)
| NotEmittedMember (original : Member).

Inductive Expression : Type :=
| IdentifierExpression (i : Identifier)
| PropertyAccessExpression (object : Expression) (name : Identifier).

Record ExpressionWithTypeArguments : Type := mkHeritageType {
  expression : Expression;
  h_typeArguments : list TypeNode
}.

Inductive HeritageToken : Type := ExtendsKeyword | ImplementsKeyword.

Record HeritageClause : Type := mkHeritageClause {
  token : HeritageToken;
  h_types : list ExpressionWithTypeArguments
}.

(** The fields a class declaration and an interface declaration share.
    [cl_heritageClauses] is [[]] both for [undefined] and for an empty
    array: the source reads it as [node.heritageClauses || []]. *)
Record ClassLike : Type := mkClassLike {
  cl_decorators : list string;
  cl_modifiers : list Modifier;
  cl_name : option Identifier;
  cl_typeParameters : list TypeParameterDeclaration;
  cl_heritageClauses : list HeritageClause;
  cl_members : list Member
}.

Record VariableDeclaration : Type := mkVariable {
  var_name : string;
  var_type : option TypeNode
}.

(** Statements of a source file or of a namespace body. *)
Inductive Statement : Type :=
| ClassDeclaration (c : ClassLike)
| InterfaceDeclaration (c : ClassLike)
| FunctionDeclaration (modifiers : list Modifier) (name : option Identifier)
    (typeParameters : list TypeParameterDeclaration)
    (parameters : list ParameterDeclaration) (type : option TypeNode)
| VariableStatement (modifiers : list Modifier)
    (declarations : list VariableDeclaration)
| TypeAliasDeclaration (modifiers : list Modifier) (name : Identifier)
    (typeParameters : list TypeParameterDeclaration) (type : TypeNode)
| ModuleDeclaration (modifiers : list Modifier) (name : string)
    (body : list Statement)
| EnumDeclaration (modifiers : list Modifier) (name : Identifier)
    (members : list string)
| ImportDeclaration (text : string)
| ExportDeclaration (text : string)
| NotEmittedStatement (original : Statement).

Record SourceFile : Type := mkSourceFile {
  fileName : string;
  statements : list Statement
}.

(* ================================================================== *)
(** ** Symbols and the type checker *)

Inductive DeclarationNode : Type :=
| DeclStatement (s : Statement)
| DeclMember (m : NamedMember)
| DeclImportSpecifier
| DeclTypeParameter
| DeclOther.

(** A declaration of a symbol, with [getSourceFile().fileName]. *)
Record Declaration : Type := mkDeclaration {
  decl_node : DeclarationNode;
  decl_fileName : string
}.

Record SymbolDisplayPart : Type := mkPart {
  part_kind : string;
  part_text : string
}.

(** [ts.Symbol]: [declarations] may be [undefined];
    [sym_documentation] is [getDocumentationComment(undefined)]. *)
Record Symbol : Type := mkSymbol {
  sym_name : string;
  sym_declarations : option (list Declaration);
  sym_documentation : list SymbolDisplayPart
}.

(** The queries the pruner makes.  [getExportsOfModule] stands for
    [getExportsOfModule(getSymbolAtLocation(sourceFile))], and
    [getPropertiesAtLocation type] for
    [getTypeAtLocation(type).getProperties()]. *)
Record TypeChecker : Type := mkTypeChecker {
  getSymbolAtLocation : Identifier -> option Symbol;
  getExportsOfModule : list Symbol;
  getPropertiesAtLocation : ExpressionWithTypeArguments -> list Symbol
}.

(* ================================================================== *)
(** ** hasPrivatePrefix, isExported *)

(** [!!name.escapedText?.toString().startsWith('_')] on [node.name as
    ts.Identifier]: a name that is not an identifier has no
    [escapedText]. *)
Definition hasPrivatePrefix (name : PropertyName) : bool :=
  match name with
  | IdentifierName i => startsWith "_" (escapedText i)
  | StringLiteralName _ => false
  end.

Definition isImportSpecifier (d : Declaration) : bool :=
  match decl_node d with DeclImportSpecifier => true | _ => false end.

Definition declarationsAt (typeChecker : TypeChecker) (name : Identifier)
  : list Declaration :=
  match getSymbolAtLocation typeChecker name with
  | Some s => match sym_declarations s with Some ds => ds | None => [] end
  | None => []
  end.

Definition isExported (typeChecker : TypeChecker) (name : Identifier) : bool :=
  let declarations := declarationsAt typeChecker name in
  let isTypescriptType :=
    existsb (fun d => includes "typescript/lib" (decl_fileName d)) declarations in
  let isImported := existsb isImportSpecifier declarations in
  if isTypescriptType || isImported then true
  else existsb (fun s => String.eqb (sym_name s) (escapedText name))
               (getExportsOfModule typeChecker).

(* ================================================================== *)
(** ** maybeHideConstructor *)

Definition maybeHideConstructor (node : Member) : Member :=
  match node with
  | ConstructorDeclaration decorators _ _ _ jsDoc =>
      match find (fun t => String.eqb (tagName t) "hideconstructor") jsDoc with
      | Some hideConstructorTag =>
          let modifier :=
            match tagComment hideConstructorTag with
            | Some c => if String.eqb c "protected" then ProtectedKeyword
                        else PrivateKeyword
            | None => PrivateKeyword
            end in
          ConstructorDeclaration decorators [modifier] [] None []
      | None => node
      end
  | _ => node
  end.

(* ================================================================== *)
(** ** Copying the members of a hidden supertype *)

Definition memberNameText (n : PropertyName) : string :=
  match n with
  | IdentifierName i => escapedText i
  | StringLiteralName t => t
  end.

(** The names the class or interface declares itself. *)
Definition declaredMemberNames (c : ClassLike) : list string :=
  flat_map (fun m => match m with
                     | Named d => [memberNameText (m_name d)]
                     | _ => []
                     end) (cl_members c).

(** The callback of [createMissingMemberNodes] receives class elements:
    a signature of an interface comes back as the declaration of the same
    shape. *)
Definition asClassElementKind (k : MemberKind) : MemberKind :=
  match k with
  | PropertySignature => PropertyDeclaration
  | MethodSignature => MethodDeclaration
  | _ => k
  end.

(** The node synthesized for one declaration of a member: same name and
    signature; a synthesized node carries no JSDoc of its own. *)
Definition synthesizeMember (d : NamedMember) : NamedMember :=
  {| m_kind := asClassElementKind (m_kind d);
     m_modifiers := m_modifiers d;
     m_name := m_name d;
     m_typeParameters := m_typeParameters d;
     m_parameters := m_parameters d;
     m_type := m_type d;
     m_jsDoc := [] |}.

Definition memberDeclarations (symbol : Symbol) : list NamedMember :=
  match sym_declarations symbol with
  | Some ds => flat_map (fun d => match decl_node d with
                                  | DeclMember m => [m]
                                  | _ => []
                                  end) ds
  | None => []
  end.

(** Modelled from the spec: [codefix.createMissingMemberNodes], a helper
    of the TypeScript compiler that is not part of the repository.  The
    spec (Heritage Resolver) has it enumerate the members of the hidden
    supertype and, for every member whose name is not already present on
    the subtype, synthesize a member with the same signature, one per
    overload; the result is the sequence of nodes handed to the callback
    of [convertPropertiesForEnclosingClass]. *)
Definition createMissingMemberNodes (currentClass : ClassLike)
    (parentClassSymbols : list Symbol) : list NamedMember :=
  flat_map (fun symbol =>
              if existsb (String.eqb (sym_name symbol))
                         (declaredMemberNames currentClass)
              then []
              else map synthesizeMember (memberDeclarations symbol))
           parentClassSymbols.

(** [ts.isClassElement(node)] *)
Definition isClassElement (node : Member) : bool :=
  match node with
  | ConstructorDeclaration _ _ _ _ _ => true
  | Named m => match m_kind m with
               | PropertySignature | MethodSignature => false
               | _ => true
               end
  | _ => false
  end.

(** [(node.name as ts.Identifier).escapedText == text].  The lists this
    is applied to hold only JSDoc nodes and named members. *)
Definition memberNameIs (text : string) (node : Member) : bool :=
  match node with
  | Named m => match m_name m with
               | IdentifierName i => String.eqb (escapedText i) text
               | StringLiteralName _ => false
               end
  | _ => false
  end.

(** The filter of [extractJSDocComment]: [targetIndex] counts the line
    breaks seen so far, and the parts of block [overloadCount] are kept. *)
Fixpoint overloadComments (overloadCount targetIndex : nat)
    (parts : list SymbolDisplayPart) : list SymbolDisplayPart :=
  match parts with
  | [] => []
  | p :: rest =>
      if String.eqb (part_kind p) "lineBreak"
      then overloadComments overloadCount (S targetIndex) rest
      else if Nat.eqb overloadCount targetIndex
           then p :: overloadComments overloadCount targetIndex rest
           else overloadComments overloadCount targetIndex rest
  end.

(** [ts.getJSDocTags(declaration)] *)
Definition getJSDocTags (d : Declaration) : list JSDocTag :=
  match decl_node d with
  | DeclMember m => m_jsDoc m
  | _ => []
  end.

Definition formatComments (comments : list SymbolDisplayPart) : string :=
  let joinedComments :=
    join (map (fun c => if String.eqb (part_kind c) "linkText"
                        then trim (part_text c) else part_text c) comments) in
  replace (String.append newline " ") newline
    (replace (String.append " " newline) newline
       (replace "*" newline joinedComments)).

(** The overload index: how many class elements named like [symbol] were
    added before. *)
Definition overloadCountOf (symbol : Symbol)
    (alreadyAddedMembers : list Member) : nat :=
  List.length (filter (fun node => isClassElement node
                                   && memberNameIs (sym_name symbol) node)
                      alreadyAddedMembers).

(** Extracts the JSDoc comment from [symbol]. *)
Definition extractJSDocComment (symbol : Symbol)
    (alreadyAddedMembers : list Member) : result (option Member) :=
  let overloadCount := overloadCountOf symbol alreadyAddedMembers in
  let comments := overloadComments overloadCount 0 (sym_documentation symbol) in
  match comments, sym_declarations symbol with
  | _ :: _, Some declarations =>
      match nth_error declarations overloadCount with
      | None => Throw TypeErrorUndefined
      | Some declaration =>
          let jsDocTags := getJSDocTags declaration in
          let maybeNewline :=
            match jsDocTags with [] => "" | _ :: _ => newline end in
          Ok (Some (JSDocComment
                      (String.append (formatComments comments) maybeNewline)
                      jsDocTags))
      end
  | _, _ => Ok None
  end.

Fixpoint foldM {A B : Type} (f : A -> B -> result A) (l : list B) (a : A)
  : result A :=
  match l with
  | [] => Ok a
  | x :: r => a' <- f a x ;; foldM f r a'
  end.

(** The callback of [convertPropertiesForEnclosingClass]. *)
Definition addMissingMember (parentClassSymbols : list Symbol)
    (newMembers : list Member) (missingMember : NamedMember)
  : result (list Member) :=
  let originalSymbol :=
    find (fun symbol => memberNameIs (sym_name symbol) (Named missingMember))
         parentClassSymbols in
  jsDocComment <- match originalSymbol with
                  | Some symbol => extractJSDocComment symbol newMembers
                  | None => Ok None
                  end ;;
  match jsDocComment with
  | Some c => Ok (newMembers ++ [c; Named missingMember])
  | None => Ok (newMembers ++ [Named missingMember])
  end.

Definition convertPropertiesForEnclosingClass
    (parentClassSymbols : list Symbol) (currentClass : ClassLike)
  : result (list Member) :=
  foldM (addMissingMember parentClassSymbols)
        (createMissingMemberNodes currentClass parentClassSymbols) [].

(* ================================================================== *)
(** ** prunePrivateImports *)

(** The test of the inner loop: the heritage type is kept. *)
Definition isExportedHeritage (typeChecker : TypeChecker)
    (type : ExpressionWithTypeArguments) : bool :=
  match expression type with
  | IdentifierExpression i => isExported typeChecker i
  | PropertyAccessExpression _ _ => false
  end.

(** The inner loop over [heritageClause.types]: the exported types, and
    the members copied from the others. *)
Fixpoint pruneHeritageTypes (typeChecker : TypeChecker) (node : ClassLike)
    (types : list ExpressionWithTypeArguments)
  : result (list ExpressionWithTypeArguments * list Member) :=
  match types with
  | [] => Ok ([], [])
  | type :: rest =>
      if isExportedHeritage typeChecker type then
        r <- pruneHeritageTypes typeChecker node rest ;;
        Ok (type :: fst r, snd r)
      else
        copied <- convertPropertiesForEnclosingClass
                    (getPropertiesAtLocation typeChecker type) node ;;
        r <- pruneHeritageTypes typeChecker node rest ;;
        Ok (fst r, copied ++ snd r)
  end.

(** The outer loop over [node.heritageClauses]: [prunedHeritageClauses]
    and [additionalMembers]. *)
Fixpoint pruneHeritageClauses (typeChecker : TypeChecker) (node : ClassLike)
    (clauses : list HeritageClause)
  : result (list HeritageClause * list Member) :=
  match clauses with
  | [] => Ok ([], [])
  | heritageClause :: rest =>
      p <- pruneHeritageTypes typeChecker node (h_types heritageClause) ;;
      r <- pruneHeritageClauses typeChecker node rest ;;
      let exportedTypes := fst p in
      Ok (match exportedTypes with
          | [] => fst r
          | _ :: _ => {| token := token heritageClause;
                         h_types := exportedTypes |} :: fst r
          end,
          snd p ++ snd r)
  end.

Definition updateClassLike (node : ClassLike)
    (prunedHeritageClauses : list HeritageClause)
    (additionalMembers : list Member) : ClassLike :=
  {| cl_decorators := cl_decorators node;
     cl_modifiers := cl_modifiers node;
     cl_name := cl_name node;
     cl_typeParameters := cl_typeParameters node;
     cl_heritageClauses := prunedHeritageClauses;
     cl_members := cl_members node ++ additionalMembers |}.

Definition prunePrivateImports (typeChecker : TypeChecker) (node : Statement)
  : result Statement :=
  match node with
  | ClassDeclaration c =>
      r <- pruneHeritageClauses typeChecker c (cl_heritageClauses c) ;;
      Ok (ClassDeclaration (updateClassLike c (fst r) (snd r)))
  | InterfaceDeclaration c =>
      r <- pruneHeritageClauses typeChecker c (cl_heritageClauses c) ;;
      Ok (InterfaceDeclaration (updateClassLike c (fst r) (snd r)))
  | _ => Throw OnlyClassesOrInterfaces
  end.

(* ================================================================== *)
(** ** extractExportedSymbol *)

Definition heritageIdentifiers (c : ClassLike) : list Identifier :=
  flat_map (fun heritageClause =>
              flat_map (fun type => match expression type with
                                    | IdentifierExpression i => [i]
                                    | PropertyAccessExpression _ _ => []
                                    end) (h_types heritageClause))
           (cl_heritageClauses c).

(** The heritage identifiers of the class and interface declarations of a
    symbol, in the order the nested loops reach them. *)
Definition heritageIdentifiersOf (symbol : Symbol) : list Identifier :=
  match sym_declarations symbol with
  | Some ds =>
      flat_map (fun d => match decl_node d with
                         | DeclStatement (ClassDeclaration c)
                         | DeclStatement (InterfaceDeclaration c) =>
                             heritageIdentifiers c
                         | _ => []
                         end) ds
  | None => []
  end.

Definition extendsLocal (localSymbolName : string) (symbol : Symbol) : bool :=
  existsb (fun subclass => String.eqb (escapedText subclass) localSymbolName)
          (heritageIdentifiersOf symbol).

Definition extractExportedSymbol (typeChecker : TypeChecker)
    (typeName : EntityName) : option Symbol :=
  match typeName with
  | QualifiedName _ _ => None
  | EntityIdentifier typeName =>
      if isExported typeChecker typeName then None
      else
        let localSymbolName := escapedText typeName in
        let allExportedSymbols := getExportsOfModule typeChecker in
        match find (fun symbol => String.eqb (sym_name symbol) localSymbolName)
                   allExportedSymbols with
        | Some symbol => Some symbol
        | None =>
            match find (extendsLocal localSymbolName) allExportedSymbols with
            | Some symbol => Some symbol
            | None =>
                match getSymbolAtLocation typeChecker typeName with
                | Some localSymbol =>
                    match find (isExported typeChecker)
                               (heritageIdentifiersOf localSymbol) with
                    | Some type => getSymbolAtLocation typeChecker type
                    | None => None
                    end
                | None => None
                end
            end
        end
  end.

(* ================================================================== *)
(** ** The visitor of dropPrivateApiTransformer

    [visit] branches on the kind of the node; the three functions below
    are its branches for statements, for members and for type nodes, and
    [visitNodeAndChildren] is [visitEachChild (visit node)] at each of the
    three. *)

Section Transformer.

Variable typeChecker : TypeChecker.

(** [visit] at a type node. *)
Definition visit_type (node : TypeNode) : TypeNode :=
  match node with
  | TypeReferenceNode typeName typeArguments =>
      match extractExportedSymbol typeChecker typeName with
      | Some publicName =>
          TypeReferenceNode
            (EntityIdentifier (createIdentifier (sym_name publicName)))
            typeArguments
      | None => node
      end
  | _ => node
  end.

Definition visitEachChild_type (visitor : TypeNode -> TypeNode)
    (node : TypeNode) : TypeNode :=
  match node with
  | TypeReferenceNode typeName typeArguments =>
      TypeReferenceNode typeName (map visitor typeArguments)
  | KeywordTypeNode _ => node
  | ArrayTypeNode elementType => ArrayTypeNode (visitor elementType)
  | UnionTypeNode types => UnionTypeNode (map visitor types)
  end.

Fixpoint visitNodeAndChildren_type (node : TypeNode) : TypeNode :=
  match node with
  | TypeReferenceNode typeName typeArguments =>
      let visitedArguments := map visitNodeAndChildren_type typeArguments in
      match extractExportedSymbol typeChecker typeName with
      | Some publicName =>
          TypeReferenceNode
            (EntityIdentifier (createIdentifier (sym_name publicName)))
            visitedArguments
      | None => TypeReferenceNode typeName visitedArguments
      end
  | KeywordTypeNode _ => node
  | ArrayTypeNode elementType =>
      ArrayTypeNode (visitNodeAndChildren_type elementType)
  | UnionTypeNode types => UnionTypeNode (map visitNodeAndChildren_type types)
  end.

Definition visitParameter (p : ParameterDeclaration) : ParameterDeclaration :=
  {| param_name := param_name p;
     param_type := option_map visitNodeAndChildren_type (param_type p) |}.

Definition visitTypeParameter (p : TypeParameterDeclaration)
  : TypeParameterDeclaration :=
  {| tp_name := tp_name p;
     tp_constraint := option_map visitNodeAndChildren_type (tp_constraint p) |}.

(** The member kinds the underscore test is applied to:
    [isPropertyDeclaration], [isMethodDeclaration], [isGetAccessor]. *)
Definition isPrunableMemberKind (k : MemberKind) : bool :=
  match k with
  | PropertyDeclaration | MethodDeclaration | GetAccessor => true
  | _ => false
  end.

(** [visit] at a member. *)
Definition visit_member (node : Member) : Member :=
  match node with
  | ConstructorDeclaration _ _ _ _ _ => maybeHideConstructor node
  | Named m =>
      if isPrunableMemberKind (m_kind m) && hasPrivatePrefix (m_name m)
      then NotEmittedMember node
      else node
  | _ => node
  end.

Definition visitEachChild_member (node : Member) : Member :=
  match node with
  | ConstructorDeclaration decorators modifiers parameters body jsDoc =>
      ConstructorDeclaration decorators modifiers
        (map visitParameter parameters) body jsDoc
  | Named m =>
      Named {| m_kind := m_kind m;
               m_modifiers := m_modifiers m;
               m_name := m_name m;
               m_typeParameters := map visitTypeParameter (m_typeParameters m);
               m_parameters := map visitParameter (m_parameters m);
               m_type := option_map visitNodeAndChildren_type (m_type m);
               m_jsDoc := m_jsDoc m |}
  | _ => node
  end.

Definition visitNodeAndChildren_member (node : Member) : Member :=
  visitEachChild_member (visit_member node).

Definition visitHeritageType (t : ExpressionWithTypeArguments)
  : ExpressionWithTypeArguments :=
  {| expression := expression t;
     h_typeArguments := map visitNodeAndChildren_type (h_typeArguments t) |}.

Definition visitHeritageClause (c : HeritageClause) : HeritageClause :=
  {| token := token c; h_types := map visitHeritageType (h_types c) |}.

Definition visitEachChild_classLike (c : ClassLike) : ClassLike :=
  {| cl_decorators := cl_decorators c;
     cl_modifiers := cl_modifiers c;
     cl_name := cl_name c;
     cl_typeParameters := map visitTypeParameter (cl_typeParameters c);
     cl_heritageClauses := map visitHeritageClause (cl_heritageClauses c);
     cl_members := map visitNodeAndChildren_member (cl_members c) |}.

Definition visitVariable (v : VariableDeclaration) : VariableDeclaration :=
  {| var_name := var_name v;
     var_type := option_map visitNodeAndChildren_type (var_type v) |}.

(** The seven kinds of the first test of [visit]. *)
Definition isDeclaration (node : Statement) : bool :=
  match node with
  | ClassDeclaration _ | InterfaceDeclaration _
  | FunctionDeclaration _ _ _ _ _ | VariableStatement _ _
  | TypeAliasDeclaration _ _ _ _ | ModuleDeclaration _ _ _
  | EnumDeclaration _ _ _ => true
  | _ => false
  end.

Definition modifiersOf (node : Statement) : list Modifier :=
  match node with
  | ClassDeclaration c | InterfaceDeclaration c => cl_modifiers c
  | FunctionDeclaration ms _ _ _ _ | VariableStatement ms _
  | TypeAliasDeclaration ms _ _ _ | ModuleDeclaration ms _ _
  | EnumDeclaration ms _ _ => ms
  | _ => []
  end.

Definition hasExportKeyword (modifiers : list Modifier) : bool :=
  existsb isExportKeyword modifiers.

(** [visit] at a statement. *)
Definition visit_statement (node : Statement) : result Statement :=
  if isDeclaration node && negb (hasExportKeyword (modifiersOf node))
  then Ok (NotEmittedStatement node)
  else match node with
       | ClassDeclaration _ | InterfaceDeclaration _ =>
           prunePrivateImports typeChecker node
       | _ => Ok node
       end.

Definition visitEachChild_statement
    (visitStatements : list Statement -> result (list Statement))
    (node : Statement) : result Statement :=
  match node with
  | ClassDeclaration c => Ok (ClassDeclaration (visitEachChild_classLike c))
  | InterfaceDeclaration c =>
      Ok (InterfaceDeclaration (visitEachChild_classLike c))
  | FunctionDeclaration modifiers name typeParameters parameters type =>
      Ok (FunctionDeclaration modifiers name
            (map visitTypeParameter typeParameters)
            (map visitParameter parameters)
            (option_map visitNodeAndChildren_type type))
  | VariableStatement modifiers declarations =>
      Ok (VariableStatement modifiers (map visitVariable declarations))
  | TypeAliasDeclaration modifiers name typeParameters type =>
      Ok (TypeAliasDeclaration modifiers name
            (map visitTypeParameter typeParameters)
            (visitNodeAndChildren_type type))
  | ModuleDeclaration modifiers name body =>
      body' <- visitStatements body ;;
      Ok (ModuleDeclaration modifiers name body')
  | _ => Ok node
  end.

(** [visitNodeAndChildren] at a statement.  The recursion is written on
    the body of a namespace, the only statement with statements beneath;
    [visitNodeAndChildren_statement_eq] below gives it the shape of the
    source. *)
Fixpoint visitNodeAndChildren_statement (node : Statement) : result Statement :=
  match node with
  | ModuleDeclaration modifiers name body =>
      if hasExportKeyword modifiers then
        body' <- (fix visitStatements (l : list Statement) :=
                    match l with
                    | [] => Ok []
                    | x :: r =>
                        y <- visitNodeAndChildren_statement x ;;
                        ys <- visitStatements r ;;
                        Ok (y :: ys)
                    end) body ;;
        Ok (ModuleDeclaration modifiers name body')
      else Ok (NotEmittedStatement node)
  | _ =>
      visited <- visit_statement node ;;
      visitEachChild_statement (fun l => Ok l) visited
  end.

(** The transformer applied to the source file. *)
Definition dropPrivateApiTransformer (sourceFile : SourceFile)
  : result SourceFile :=
  stmts <- mapM visitNodeAndChildren_statement (statements sourceFile) ;;
  Ok {| fileName := fileName sourceFile; statements := stmts |}.

End Transformer.

(* ================================================================== *)
(** ** pruneDts and the command line *)

(** What [ts.createProgram] makes of the input location. *)
Record Program : Type := mkProgram {
  getSourceFile : SourceFile;
  getTypeChecker : TypeChecker
}.

(** What a run does to the outside world.  [WriteFile] carries the tree
    whose printed text is written; [LintFiles] is the ESLint pass of
    [removeUnusedImports]. *)
Inductive Effect : Type :=
| ConsoleLog (message : string)
| WriteFile (path : string) (content : SourceFile)
| LintFiles (path : string).

Record Run : Type := mkRun {
  effects : list Effect;
  thrown : option Error
}.

Definition pruneDts (program : Program) (outputLocation : string) : Run :=
  match dropPrivateApiTransformer (getTypeChecker program)
                                  (getSourceFile program) with
  | Ok transformedSourceFile =>
      {| effects := [WriteFile outputLocation transformedSourceFile];
         thrown := None |}
  | Throw e => {| effects := []; thrown := Some e |}
  end.

(** A string is truthy unless it is empty. *)
Definition truthy (o : option string) : bool :=
  match o with
  | Some EmptyString => false
  | Some _ => true
  | None => false
  end.

(** The body of the script: [createProgram] is the compiler reading the
    input file. *)
Definition main (createProgram : string -> Program)
    (input output : option string) : Run :=
  match input, output with
  | Some i, Some o =>
      if truthy input && truthy output then
        let r := pruneDts (createProgram i) o in
        match thrown r with
        | Some e =>
            {| effects := ConsoleLog "Removing private exports..." :: effects r;
               thrown := Some e |}
        | None =>
            {| effects := ConsoleLog "Removing private exports..." :: effects r
                          ++ [ConsoleLog "Removing unused imports...";
                              LintFiles o;
                              ConsoleLog "Done."];
               thrown := None |}
        end
      else {| effects := []; thrown := None |}
  | _, _ => {| effects := []; thrown := None |}
  end.

(* ================================================================== *)
(** ** Notions used by the statements below *)

(** The three lines the script prints on every run, whatever the input. *)
Definition progressMessages : list string :=
  ["Removing private exports..."; "Removing unused imports..."; "Done."].

(** A run emits a diagnostic when it prints anything besides its progress
    lines. *)
Definition emitsDiagnostic (r : Run) : Prop :=
  exists message,
    In (ConsoleLog message) (effects r) /\ ~ In message progressMessages.

Definition lineBreaks (parts : list SymbolDisplayPart) : nat :=
  List.length (filter (fun p => String.eqb (part_kind p) "lineBreak") parts).

(** The documentation of a symbol has at most one block per declaration:
    every block index [extractJSDocComment] can select is an index of
    [symbol.declarations]. *)
Definition coversDocumentation (symbol : Symbol) : bool :=
  match sym_documentation symbol, sym_declarations symbol with
  | [], _ => true
  | _, None => true
  | parts, Some ds => Nat.ltb (lineBreaks parts) (List.length ds)
  end.

(** The checker hands out only such symbols as members of a supertype. *)
Definition documentedPerDeclaration (typeChecker : TypeChecker) : Prop :=
  forall type symbol,
    In symbol (getPropertiesAtLocation typeChecker type) ->
    coversDocumentation symbol = true.

(** The substitute search in the words of the specification: the
    candidates of each priority, in the order of the exports. *)
Definition sameNamedExports (typeChecker : TypeChecker) (name : string)
  : list Symbol :=
  filter (fun s => String.eqb (sym_name s) name) (getExportsOfModule typeChecker).

Definition derivedExports (typeChecker : TypeChecker) (name : string)
  : list Symbol :=
  filter (extendsLocal name) (getExportsOfModule typeChecker).

Definition exportedAncestors (typeChecker : TypeChecker) (typeName : Identifier)
  : list Identifier :=
  match getSymbolAtLocation typeChecker typeName with
  | Some localSymbol =>
      filter (isExported typeChecker) (heritageIdentifiersOf localSymbol)
  | None => []
  end.

Definition substituteSearch (typeChecker : TypeChecker) (typeName : Identifier)
  : option Symbol :=
  match sameNamedExports typeChecker (escapedText typeName)
        ++ derivedExports typeChecker (escapedText typeName) with
  | symbol :: _ => Some symbol
  | [] =>
      match exportedAncestors typeChecker typeName with
      | type :: _ => getSymbolAtLocation typeChecker type
      | [] => None
      end
  end.

(** The heritage clauses after pruning, as the specification words them:
    the exported types of each clause in their order, a clause without
    any left out. *)
Definition keptHeritageClauses (typeChecker : TypeChecker)
    (clauses : list HeritageClause) : list HeritageClause :=
  flat_map (fun c =>
              match filter (isExportedHeritage typeChecker) (h_types c) with
              | [] => []
              | kept => [{| token := token c; h_types := kept |}]
              end) clauses.

(** The heritage types that are dropped, in their order. *)
Definition hiddenHeritageTypes (typeChecker : TypeChecker)
    (clauses : list HeritageClause) : list ExpressionWithTypeArguments :=
  flat_map (fun c => filter (fun t => negb (isExportedHeritage typeChecker t))
                            (h_types c)) clauses.

Definition hasMemberNamed (name : string) (members : list Member) : bool :=
  existsb (fun m => match m with
                    | Named d => String.eqb (memberNameText (m_name d)) name
                    | _ => false
                    end) members.

Definition isClassOrInterface (node : Statement) : bool :=
  match node with
  | ClassDeclaration _ | InterfaceDeclaration _ => true
  | _ => false
  end.

(** *** Trees that are already pruned *)

Section AlreadyPruned.

(** What is asked of a reference with a simple name, and of a heritage
    type. *)
Variable referenceOk : Identifier -> bool.
Variable heritageOk : ExpressionWithTypeArguments -> bool.

(** Every reference with a simple name passes [referenceOk]. *)
Fixpoint typeIsPublic (t : TypeNode) : bool :=
  match t with
  | TypeReferenceNode (EntityIdentifier i) typeArguments =>
      referenceOk i && forallb typeIsPublic typeArguments
  | TypeReferenceNode (QualifiedName _ _) typeArguments =>
      forallb typeIsPublic typeArguments
  | KeywordTypeNode _ => true
  | ArrayTypeNode elementType => typeIsPublic elementType
  | UnionTypeNode types => forallb typeIsPublic types
  end.

Definition optionalTypeIsPublic (o : option TypeNode) : bool :=
  match o with Some t => typeIsPublic t | None => true end.

Definition parametersArePublic (ps : list ParameterDeclaration) : bool :=
  forallb (fun p => optionalTypeIsPublic (param_type p)) ps.

Definition typeParametersArePublic (ps : list TypeParameterDeclaration) : bool :=
  forallb (fun p => optionalTypeIsPublic (tp_constraint p)) ps.

Definition isHideConstructorTag (t : JSDocTag) : bool :=
  String.eqb (tagName t) "hideconstructor".

(** No hidden name, no hide tag, only references that pass. *)
Definition memberIsPruned (m : Member) : bool :=
  match m with
  | ConstructorDeclaration _ _ parameters _ jsDoc =>
      negb (existsb isHideConstructorTag jsDoc) && parametersArePublic parameters
  | Named d =>
      negb (hasPrivatePrefix (m_name d))
      && typeParametersArePublic (m_typeParameters d)
      && parametersArePublic (m_parameters d)
      && optionalTypeIsPublic (m_type d)
  | JSDocComment _ _ => true
  | NotEmittedMember _ => true
  end.

(** A heritage clause names at least one type, and each passes
    [heritageOk]. *)
Definition heritageClauseIsPublic (c : HeritageClause) : bool :=
  match h_types c with
  | [] => false
  | types =>
      forallb (fun t => heritageOk t
                        && forallb typeIsPublic (h_typeArguments t)) types
  end.

Definition classLikeIsPruned (c : ClassLike) : bool :=
  typeParametersArePublic (cl_typeParameters c)
  && forallb heritageClauseIsPublic (cl_heritageClauses c)
  && forallb memberIsPruned (cl_members c).

(** [alreadyPruned nested top node]: the declaration [node] needs the
    export modifier when it is at top level ([top]) or when [nested] asks
    it of the declarations inside namespaces too. *)
Fixpoint alreadyPruned (nested top : bool) (node : Statement) : bool :=
  let exported := fun modifiers =>
    negb (top || nested) || hasExportKeyword modifiers in
  match node with
  | ClassDeclaration c | InterfaceDeclaration c =>
      exported (cl_modifiers c) && classLikeIsPruned c
  | FunctionDeclaration modifiers _ typeParameters parameters type =>
      exported modifiers && typeParametersArePublic typeParameters
      && parametersArePublic parameters && optionalTypeIsPublic type
  | VariableStatement modifiers declarations =>
      exported modifiers
      && forallb (fun v => optionalTypeIsPublic (var_type v)) declarations
  | TypeAliasDeclaration modifiers _ typeParameters type =>
      exported modifiers && typeParametersArePublic typeParameters
      && typeIsPublic type
  | ModuleDeclaration modifiers _ body =>
      exported modifiers && forallb (alreadyPruned nested false) body
  | EnumDeclaration modifiers _ _ => exported modifiers
  | ImportDeclaration _ | ExportDeclaration _ | NotEmittedStatement _ => true
  end.

End AlreadyPruned.

(** A simple-named reference the rewriter has nothing to do with:
    [isExported] accepts the name, or the name has no substitute
    candidate, no exported class or interface deriving from it and no
    exported heritage type on its own declarations.  A reference to a type
    parameter is of the second kind. *)
Definition isEmpty {A : Type} (l : list A) : bool :=
  match l with [] => true | _ :: _ => false end.

Definition referenceIsSettled (typeChecker : TypeChecker) (name : Identifier)
  : bool :=
  isExported typeChecker name
  || (isEmpty (derivedExports typeChecker (escapedText name))
      && isEmpty (exportedAncestors typeChecker name)).

(** The tree is pruned throughout: every declaration, inside namespaces
    too, has the [export] modifier; every heritage type is one
    [isExported] accepts; every simple-named reference is settled. *)
Definition prunedThroughout (typeChecker : TypeChecker) (node : Statement)
  : bool :=
  alreadyPruned (referenceIsSettled typeChecker)
                (isExportedHeritage typeChecker) true true node.

Definition isStatementDeclaration (d : Declaration) : bool :=
  match decl_node d with DeclStatement _ => true | _ => false end.

(** The name resolves to a type declared in the source file being pruned
    that [isExported] does not accept: a non-exported in-tree type. *)
Definition targetsHiddenInTree (sourceFile : SourceFile)
    (typeChecker : TypeChecker) (name : Identifier) : bool :=
  negb (isExported typeChecker name)
  && existsb (fun d => isStatementDeclaration d
                       && String.eqb (decl_fileName d) (fileName sourceFile))
             (declarationsAt typeChecker name).

(** The name a heritage expression ends in. *)
Definition heritageName (e : Expression) : Identifier :=
  match e with
  | IdentifierExpression i => i
  | PropertyAccessExpression _ name => name
  end.

(** The conditions as the specification lists them: the top-level
    declarations exported, no hidden member, no hide tag, no heritage type
    and no reference to a non-exported in-tree type (and no heritage
    clause without a type). *)
Definition prunedAsListed (sourceFile : SourceFile) (typeChecker : TypeChecker)
    (node : Statement) : bool :=
  alreadyPruned
    (fun name => negb (targetsHiddenInTree sourceFile typeChecker name))
    (fun type => negb (targetsHiddenInTree sourceFile typeChecker
                         (heritageName (expression type))))
    false true node.

(** Every declaration of the name lies in another file than the source
    file: the name resolves outside the tree. *)
Definition declaredOutside (sourceFile : SourceFile) (typeChecker : TypeChecker)
    (name : Identifier) : bool :=
  negb (isEmpty (declarationsAt typeChecker name))
  && forallb (fun d => negb (String.eqb (decl_fileName d) (fileName sourceFile)))
             (declarationsAt typeChecker name).

(* ================================================================== *)
(** ** Example programs *)

(** A checker that resolves identifiers by their text in a table of
    symbols. *)
Definition tableChecker (symbols exports : list Symbol)
    (properties : list (string * list Symbol)) : TypeChecker :=
  {| getSymbolAtLocation := fun i =>
       find (fun s => String.eqb (sym_name s) (escapedText i)) symbols;
     getExportsOfModule := exports;
     getPropertiesAtLocation := fun type =>
       match expression type with
       | IdentifierExpression i =>
           match find (fun p => String.eqb (fst p) (escapedText i)) properties with
           | Some p => snd p
           | None => []
           end
       | PropertyAccessExpression _ _ => []
       end |}.

Definition ident (text : string) : Identifier :=
  {| escapedText := text; pos := 0%Z |}.

Definition reference (text : string) : TypeNode :=
  TypeReferenceNode (EntityIdentifier (ident text)) [].

Definition declaredIn (file : string) (node : DeclarationNode) : Declaration :=
  {| decl_node := node; decl_fileName := file |}.

Definition extending (text : string) : list HeritageClause :=
  [{| token := ExtendsKeyword;
      h_types := [{| expression := IdentifierExpression (ident text);
                     h_typeArguments := [] |}] |}].

Definition classNamed (modifiers : list Modifier) (text : string)
    (heritage : list HeritageClause) (members : list Member) : ClassLike :=
  {| cl_decorators := []; cl_modifiers := modifiers;
     cl_name := Some (ident text); cl_typeParameters := [];
     cl_heritageClauses := heritage; cl_members := members |}.

Definition member (kind : MemberKind) (text : string)
    (parameters : list ParameterDeclaration) (type : option TypeNode)
  : NamedMember :=
  {| m_kind := kind; m_modifiers := []; m_name := IdentifierName (ident text);
     m_typeParameters := []; m_parameters := parameters; m_type := type;
     m_jsDoc := [] |}.

Definition classSymbol (file : string) (c : Statement) (text : string) : Symbol :=
  {| sym_name := text;
     sym_declarations := Some [declaredIn file (DeclStatement c)];
     sym_documentation := [] |}.

(** *** A hidden base class
<<
    class Base { _secret: number; ok(): void; }
    export class Derived extends Base {}
>> *)
Module BaseDerived.
Definition secret : NamedMember :=
  member PropertyDeclaration "_secret" [] (Some (KeywordTypeNode "number")).
Definition ok : NamedMember :=
  member MethodDeclaration "ok" [] (Some (KeywordTypeNode "void")).
Definition Base : ClassLike := classNamed [] "Base" [] [Named secret; Named ok].
Definition Derived : ClassLike :=
  classNamed [ExportKeyword] "Derived" (extending "Base") [].
Definition sourceFile : SourceFile :=
  {| fileName := "index.d.ts";
     statements := [ClassDeclaration Base; ClassDeclaration Derived] |}.
Definition secretSymbol : Symbol :=
  {| sym_name := "_secret";
     sym_declarations := Some [declaredIn "index.d.ts" (DeclMember secret)];
     sym_documentation := [] |}.
Definition okSymbol : Symbol :=
  {| sym_name := "ok";
     sym_declarations := Some [declaredIn "index.d.ts" (DeclMember ok)];
     sym_documentation := [{| part_kind := "text"; part_text := "Does ok." |}] |}.
Definition BaseSymbol := classSymbol "index.d.ts" (ClassDeclaration Base) "Base".
Definition DerivedSymbol :=
  classSymbol "index.d.ts" (ClassDeclaration Derived) "Derived".
Definition typeChecker : TypeChecker :=
  tableChecker [BaseSymbol; DerivedSymbol] [DerivedSymbol]
               [("Base", [secretSymbol; okSymbol])].
Definition program : Program :=
  {| getSourceFile := sourceFile; getTypeChecker := typeChecker |}.
End BaseDerived.

(** *** A reference without a substitute
<<
    interface Hidden {}
    export function f(x: Hidden): void;
>> *)
Module HiddenParameter.
Definition Hidden : ClassLike := classNamed [] "Hidden" [] [].
Definition f : Statement :=
  FunctionDeclaration [ExportKeyword] (Some (ident "f")) []
    [{| param_name := "x"; param_type := Some (reference "Hidden") |}]
    (Some (KeywordTypeNode "void")).
Definition sourceFile : SourceFile :=
  {| fileName := "index.d.ts";
     statements := [InterfaceDeclaration Hidden; f] |}.
Definition HiddenSymbol :=
  classSymbol "index.d.ts" (InterfaceDeclaration Hidden) "Hidden".
Definition fSymbol : Symbol :=
  {| sym_name := "f";
     sym_declarations := Some [declaredIn "index.d.ts" (DeclStatement f)];
     sym_documentation := [] |}.
Definition typeChecker : TypeChecker :=
  tableChecker [HiddenSymbol; fSymbol] [fSymbol] [].
Definition program : Program :=
  {| getSourceFile := sourceFile; getTypeChecker := typeChecker |}.
Definition run : Run :=
  main (fun _ => program) (Some "index.d.ts") (Some "pruned.d.ts").
End HiddenParameter.

(** *** A public subclass of a hidden class
<<
    class PrivateFoo {}
    export class PublicFoo extends PrivateFoo {}
    export function doFoo(foo: PrivateFoo);
>> *)
Module PublicFoo.
Definition PrivateFoo : ClassLike := classNamed [] "PrivateFoo" [] [].
Definition PublicFoo : ClassLike :=
  classNamed [ExportKeyword] "PublicFoo" (extending "PrivateFoo") [].
Definition doFoo : Statement :=
  FunctionDeclaration [ExportKeyword] (Some (ident "doFoo")) []
    [{| param_name := "foo"; param_type := Some (reference "PrivateFoo") |}]
    None.
Definition sourceFile : SourceFile :=
  {| fileName := "index.d.ts";
     statements := [ClassDeclaration PrivateFoo; ClassDeclaration PublicFoo;
                    doFoo] |}.
Definition PrivateFooSymbol :=
  classSymbol "index.d.ts" (ClassDeclaration PrivateFoo) "PrivateFoo".
Definition PublicFooSymbol :=
  classSymbol "index.d.ts" (ClassDeclaration PublicFoo) "PublicFoo".
Definition doFooSymbol : Symbol :=
  {| sym_name := "doFoo";
     sym_declarations := Some [declaredIn "index.d.ts" (DeclStatement doFoo)];
     sym_documentation := [] |}.
Definition typeChecker : TypeChecker :=
  tableChecker [PrivateFooSymbol; PublicFooSymbol; doFooSymbol]
               [PublicFooSymbol; doFooSymbol] [("PrivateFoo", [])].
Definition program : Program :=
  {| getSourceFile := sourceFile; getTypeChecker := typeChecker |}.
End PublicFoo.

(** *** Underscore members the filter does not reach
<<
    export class Box { get _value(): number; set _value(v: number); }
    export interface Options { _internal: string; }
>> *)
Module UnderscoreMembers.
Definition getter : NamedMember :=
  member GetAccessor "_value" [] (Some (KeywordTypeNode "number")).
Definition setter : NamedMember :=
  member SetAccessor "_value"
    [{| param_name := "v"; param_type := Some (KeywordTypeNode "number") |}]
    None.
Definition internal : NamedMember :=
  member PropertySignature "_internal" [] (Some (KeywordTypeNode "string")).
Definition Box : ClassLike :=
  classNamed [ExportKeyword] "Box" [] [Named getter; Named setter].
Definition Options : ClassLike :=
  classNamed [ExportKeyword] "Options" [] [Named internal].
Definition sourceFile : SourceFile :=
  {| fileName := "index.d.ts";
     statements := [ClassDeclaration Box; InterfaceDeclaration Options] |}.
Definition BoxSymbol := classSymbol "index.d.ts" (ClassDeclaration Box) "Box".
Definition OptionsSymbol :=
  classSymbol "index.d.ts" (InterfaceDeclaration Options) "Options".
Definition typeChecker : TypeChecker :=
  tableChecker [BoxSymbol; OptionsSymbol] [BoxSymbol; OptionsSymbol] [].
Definition program : Program :=
  {| getSourceFile := sourceFile; getTypeChecker := typeChecker |}.
End UnderscoreMembers.

(** *** Two overloads, one documentation block
<<
    class Reader { /** Reads one. */ read(a: string): void; read(a: number): void; }
    export class FileReader extends Reader {}
>> *)
Module Overloads.
Definition readString : NamedMember :=
  member MethodDeclaration "read"
    [{| param_name := "a"; param_type := Some (KeywordTypeNode "string") |}]
    (Some (KeywordTypeNode "void")).
Definition readNumber : NamedMember :=
  member MethodDeclaration "read"
    [{| param_name := "a"; param_type := Some (KeywordTypeNode "number") |}]
    (Some (KeywordTypeNode "void")).
Definition Reader : ClassLike :=
  classNamed [] "Reader" [] [Named readString; Named readNumber].
Definition FileReader : ClassLike :=
  classNamed [ExportKeyword] "FileReader" (extending "Reader") [].
Definition sourceFile : SourceFile :=
  {| fileName := "index.d.ts";
     statements := [ClassDeclaration Reader; ClassDeclaration FileReader] |}.
Definition readSymbol : Symbol :=
  {| sym_name := "read";
     sym_declarations :=
       Some [declaredIn "index.d.ts" (DeclMember readString);
             declaredIn "index.d.ts" (DeclMember readNumber)];
     sym_documentation :=
       [{| part_kind := "text"; part_text := "Reads one." |}] |}.
Definition ReaderSymbol :=
  classSymbol "index.d.ts" (ClassDeclaration Reader) "Reader".
Definition FileReaderSymbol :=
  classSymbol "index.d.ts" (ClassDeclaration FileReader) "FileReader".
Definition typeChecker : TypeChecker :=
  tableChecker [ReaderSymbol; FileReaderSymbol] [FileReaderSymbol]
               [("Reader", [readSymbol])].
Definition program : Program :=
  {| getSourceFile := sourceFile; getTypeChecker := typeChecker |}.
Definition run : Run :=
  main (fun _ => program) (Some "index.d.ts") (Some "pruned.d.ts").
End Overloads.

(** *** A declaration inside an exported namespace
<<
    export namespace util { interface Helper {} }
>> *)
Module NestedDeclaration.
Definition Helper : ClassLike := classNamed [] "Helper" [] [].
Definition util : Statement :=
  ModuleDeclaration [ExportKeyword] "util" [InterfaceDeclaration Helper].
Definition sourceFile : SourceFile :=
  {| fileName := "index.d.ts"; statements := [util] |}.
Definition utilSymbol : Symbol :=
  {| sym_name := "util";
     sym_declarations := Some [declaredIn "index.d.ts" (DeclStatement util)];
     sym_documentation := [] |}.
Definition typeChecker : TypeChecker := tableChecker [utilSymbol] [utilSymbol] [].
End NestedDeclaration.

(** *** A file with nothing to prune
<<
    export class Node { next(): Node; }
    export function first(): Node;
>> *)
Module Pruned.
Definition next : NamedMember :=
  member MethodDeclaration "next" [] (Some (reference "Node")).
Definition Node : ClassLike := classNamed [ExportKeyword] "Node" [] [Named next].
Definition first : Statement :=
  FunctionDeclaration [ExportKeyword] (Some (ident "first")) [] []
    (Some (reference "Node")).
Definition sourceFile : SourceFile :=
  {| fileName := "index.d.ts"; statements := [ClassDeclaration Node; first] |}.
Definition NodeSymbol := classSymbol "index.d.ts" (ClassDeclaration Node) "Node".
Definition firstSymbol : Symbol :=
  {| sym_name := "first";
     sym_declarations := Some [declaredIn "index.d.ts" (DeclStatement first)];
     sym_documentation := [] |}.
Definition typeChecker : TypeChecker :=
  tableChecker [NodeSymbol; firstSymbol] [NodeSymbol; firstSymbol] [].
End Pruned.

(** *** Outcomes *)

(** The computation ends in the error of [prunePrivateImports]. *)
Definition throwsUnsupported {A : Type} (r : result A) : bool :=
  match r with
  | Throw OnlyClassesOrInterfaces => true
  | _ => false
  end.

Definition supported {A : Type} (r : result A) : Prop :=
  r <> Throw OnlyClassesOrInterfaces.

Definition runThrowsUnsupported (r : Run) : bool :=
  match thrown r with
  | Some OnlyClassesOrInterfaces => true
  | _ => false
  end.

(** *** The words of the reference rewriter *)

(** The module exports a symbol of this name. *)
Definition exportedByName (typeChecker : TypeChecker) (name : Identifier)
  : Prop :=
  exists symbol,
    In symbol (getExportsOfModule typeChecker)
    /\ sym_name symbol = escapedText name.

(** The name has a declaration in a file of the TypeScript library, or
    one that is an import specifier.  No other symbol from outside the
    tree is covered: not an ambient type of another package, not a
    default import. *)
Definition libraryOrImportSpecifier (typeChecker : TypeChecker)
    (name : Identifier) : Prop :=
  exists d,
    In d (declarationsAt typeChecker name)
    /\ (includes "typescript/lib" (decl_fileName d) = true
        \/ isImportSpecifier d = true).

(** A reference to the symbol [publicName], with the arguments kept. *)
Definition referenceTo (publicName : Symbol) (typeArguments : list TypeNode)
  : TypeNode :=
  TypeReferenceNode (EntityIdentifier (createIdentifier (sym_name publicName)))
                    typeArguments.

(** The rewriting of a type in the words of the specification: every
    reference with a simple name that [isExported] does not accept
    becomes a reference to the first substitute, when there is one; the
    type arguments, the element type of an array and the members of a
    union are rewritten in the same way. *)
Fixpoint substituteReferences (typeChecker : TypeChecker) (t : TypeNode)
  : TypeNode :=
  match t with
  | TypeReferenceNode (EntityIdentifier name) typeArguments =>
      let rewritten := map (substituteReferences typeChecker) typeArguments in
      if isExported typeChecker name
      then TypeReferenceNode (EntityIdentifier name) rewritten
      else match substituteSearch typeChecker name with
           | Some publicName => referenceTo publicName rewritten
           | None => TypeReferenceNode (EntityIdentifier name) rewritten
           end
  | TypeReferenceNode (QualifiedName qualifier name) typeArguments =>
      TypeReferenceNode (QualifiedName qualifier name)
                        (map (substituteReferences typeChecker) typeArguments)
  | KeywordTypeNode keyword => KeywordTypeNode keyword
  | ArrayTypeNode elementType =>
      ArrayTypeNode (substituteReferences typeChecker elementType)
  | UnionTypeNode types =>
      UnionTypeNode (map (substituteReferences typeChecker) types)
  end.

Definition substituteInParameter (typeChecker : TypeChecker)
    (p : ParameterDeclaration) : ParameterDeclaration :=
  {| param_name := param_name p;
     param_type := option_map (substituteReferences typeChecker) (param_type p) |}.

Definition substituteInTypeParameter (typeChecker : TypeChecker)
    (p : TypeParameterDeclaration) : TypeParameterDeclaration :=
  {| tp_name := tp_name p;
     tp_constraint :=
       option_map (substituteReferences typeChecker) (tp_constraint p) |}.

(** *** The words of the documentation copy *)

(** The documentation of a symbol cut into its blocks at the line
    breaks. *)
Fixpoint documentationBlocks (parts : list SymbolDisplayPart)
  : list (list SymbolDisplayPart) :=
  match parts with
  | [] => [[]]
  | p :: rest =>
      if String.eqb (part_kind p) "lineBreak"
      then [] :: documentationBlocks rest
      else match documentationBlocks rest with
           | block :: blocks => (p :: block) :: blocks
           | [] => [[p]]
           end
  end.

(** The members in a list of copied nodes. *)
Definition namedMembers (nodes : list Member) : list NamedMember :=
  flat_map (fun node => match node with Named m => [m] | _ => [] end) nodes.

(** How many members named [name] were copied before. *)
Definition copiedBefore (name : string) (nodes : list Member) : nat :=
  List.length
    (filter (fun m => match m_name m with
                      | IdentifierName i => String.eqb (escapedText i) name
                      | StringLiteralName _ => false
                      end) (namedMembers nodes)).

(** What the callback pushes: JSDoc nodes and class elements with a
    name. *)
Definition isCopiedNode (node : Member) : bool :=
  match node with
  | JSDocComment _ _ => true
  | Named m => isClassElement node
  | _ => false
  end.

(** *** The words of the heritage resolver *)

(** The nodes copied onto [node] for one dropped heritage type. *)
Definition copiedFrom (typeChecker : TypeChecker) (node : ClassLike)
    (type : ExpressionWithTypeArguments) : result (list Member) :=
  convertPropertiesForEnclosingClass
    (getPropertiesAtLocation typeChecker type) node.

(** The members to copy onto [node]: for each dropped heritage type in
    order, the missing members of the type. *)
Definition copiedMembers (typeChecker : TypeChecker) (node : ClassLike)
  : list NamedMember :=
  flat_map (fun type =>
              createMissingMemberNodes node
                (getPropertiesAtLocation typeChecker type))
           (hiddenHeritageTypes typeChecker (cl_heritageClauses node)).

(** The class or interface [node] after the heritage resolver and the
    visit of its children, when [additionalMembers] are the nodes
    copied onto it. *)
Definition resolvedClassLike (typeChecker : TypeChecker) (node : ClassLike)
    (additionalMembers : list Member) : ClassLike :=
  {| cl_decorators := cl_decorators node;
     cl_modifiers := cl_modifiers node;
     cl_name := cl_name node;
     cl_typeParameters :=
       map (visitTypeParameter typeChecker) (cl_typeParameters node);
     cl_heritageClauses :=
       map (visitHeritageClause typeChecker)
           (keptHeritageClauses typeChecker (cl_heritageClauses node));
     cl_members :=
       map (visitNodeAndChildren_member typeChecker) (cl_members node)
       ++ map (visitNodeAndChildren_member typeChecker) additionalMembers |}.

(** A member with the type nodes of its signature visited. *)
Definition withVisitedSignature (typeChecker : TypeChecker) (m : NamedMember)
  : NamedMember :=
  {| m_kind := m_kind m;
     m_modifiers := m_modifiers m;
     m_name := m_name m;
     m_typeParameters :=
       map (visitTypeParameter typeChecker) (m_typeParameters m);
     m_parameters := map (visitParameter typeChecker) (m_parameters m);
     m_type := option_map (visitNodeAndChildren_type typeChecker) (m_type m);
     m_jsDoc := m_jsDoc m |}.

(** What the export filter leaves of a statement that lacks the modifier. *)
Definition placeholderFor (node : Statement) : Statement :=
  if isDeclaration node then NotEmittedStatement node else node.

(** No statement of the source file carries the [export] modifier. *)
Definition noExports (sourceFile : SourceFile) : bool :=
  forallb (fun node => negb (hasExportKeyword (modifiersOf node)))
          (statements sourceFile).

(** *** An ambient type of another package
<<
    // node_modules/typescript/lib/lib.es5.d.ts
    interface Uint8Array {}
    // node_modules/@types/node/buffer.d.ts
    interface Buffer extends Uint8Array {}
    // index.d.ts
    export function send(data: Buffer): void;
>> *)
Module AmbientBuffer.
Definition Uint8Array : ClassLike := classNamed [] "Uint8Array" [] [].
Definition Buffer : ClassLike :=
  classNamed [] "Buffer" (extending "Uint8Array") [].
Definition send : Statement :=
  FunctionDeclaration [ExportKeyword] (Some (ident "send")) []
    [{| param_name := "data"; param_type := Some (reference "Buffer") |}]
    (Some (KeywordTypeNode "void")).
Definition sourceFile : SourceFile :=
  {| fileName := "index.d.ts"; statements := [send] |}.
Definition Uint8ArraySymbol :=
  classSymbol "node_modules/typescript/lib/lib.es5.d.ts"
              (InterfaceDeclaration Uint8Array) "Uint8Array".
Definition BufferSymbol :=
  classSymbol "node_modules/@types/node/buffer.d.ts"
              (InterfaceDeclaration Buffer) "Buffer".
Definition sendSymbol : Symbol :=
  {| sym_name := "send";
     sym_declarations := Some [declaredIn "index.d.ts" (DeclStatement send)];
     sym_documentation := [] |}.
Definition typeChecker : TypeChecker :=
  tableChecker [Uint8ArraySymbol; BufferSymbol; sendSymbol] [sendSymbol] [].
End AmbientBuffer.

(** *** A class deriving from an ambient type of another package
<<
    // node_modules/@types/node/buffer.d.ts
    interface Buffer extends Uint8Array {}
    // index.d.ts
    export class Packet extends Buffer {}
>> *)
Module AmbientHeritage.
Definition Packet : ClassLike :=
  classNamed [ExportKeyword] "Packet" (extending "Buffer") [].
Definition sourceFile : SourceFile :=
  {| fileName := "index.d.ts"; statements := [ClassDeclaration Packet] |}.
Definition PacketSymbol :=
  classSymbol "index.d.ts" (ClassDeclaration Packet) "Packet".
Definition typeChecker : TypeChecker :=
  tableChecker [AmbientBuffer.Uint8ArraySymbol; AmbientBuffer.BufferSymbol;
                PacketSymbol]
               [PacketSymbol] [("Buffer", [])].
End AmbientHeritage.

(** *** A generic class
<<
    export class Box<T> { value: T; }
>> *)
Module GenericBox.
Definition value : NamedMember :=
  member PropertyDeclaration "value" [] (Some (reference "T")).
Definition Box : ClassLike :=
  {| cl_decorators := []; cl_modifiers := [ExportKeyword];
     cl_name := Some (ident "Box");
     cl_typeParameters := [{| tp_name := "T"; tp_constraint := None |}];
     cl_heritageClauses := []; cl_members := [Named value] |}.
Definition sourceFile : SourceFile :=
  {| fileName := "index.d.ts"; statements := [ClassDeclaration Box] |}.
Definition BoxSymbol := classSymbol "index.d.ts" (ClassDeclaration Box) "Box".
Definition TSymbol : Symbol :=
  {| sym_name := "T";
     sym_declarations := Some [declaredIn "index.d.ts" DeclTypeParameter];
     sym_documentation := [] |}.
Definition typeChecker : TypeChecker :=
  tableChecker [BoxSymbol; TSymbol] [BoxSymbol] [].
End GenericBox.

(** *** Notions for the further properties *)

(** A type node with every type name replaced by the same identifier:
    what is left is the structure of the node. *)
Fixpoint eraseTypeNames (t : TypeNode) : TypeNode :=
  match t with
  | TypeReferenceNode _ typeArguments =>
      TypeReferenceNode (EntityIdentifier (createIdentifier ""))
                        (map eraseTypeNames typeArguments)
  | KeywordTypeNode k => KeywordTypeNode k
  | ArrayTypeNode elementType => ArrayTypeNode (eraseTypeNames elementType)
  | UnionTypeNode types => UnionTypeNode (map eraseTypeNames types)
  end.

(** A list of copied nodes in which every JSDoc node is directly followed
    by a member, and which holds nothing but JSDoc nodes and members. *)
Fixpoint docsPrecedeMembers (nodes : list Member) : bool :=
  match nodes with
  | [] => true
  | Named _ :: rest => docsPrecedeMembers rest
  | JSDocComment _ _ :: rest =>
      match rest with
      | Named _ :: rest' => docsPrecedeMembers rest'
      | _ => false
      end
  | _ => false
  end.

Definition isJSDocComment (node : Member) : bool :=
  match node with JSDocComment _ _ => true | _ => false end.

(** [pat] occurs somewhere in [s]. *)
Fixpoint occursIn (pat s : string) : bool :=
  String.prefix pat s
  || match s with
     | EmptyString => false
     | String _ s' => occursIn pat s'
     end.

(** The text [formatComments] starts from: the parts joined, link texts
    trimmed. *)
Definition joinedComments (comments : list SymbolDisplayPart) : string :=
  join (map (fun c => if String.eqb (part_kind c) "linkText"
                      then trim (part_text c) else part_text c) comments).

Definition isLineBreak (p : SymbolDisplayPart) : bool :=
  String.eqb (part_kind p) "lineBreak".

(** [p] holds of the statement and of every statement inside it, through
    the bodies of namespaces. *)
Fixpoint everyStatement (p : Statement -> bool) (node : Statement) : bool :=
  p node
  && match node with
     | ModuleDeclaration _ _ body => forallb (everyStatement p) body
     | _ => true
     end.

(** A declaration of one of the seven kinds has the [export] modifier. *)
Definition declarationIsExported (node : Statement) : bool :=
  negb (isDeclaration node) || hasExportKeyword (modifiersOf node).



(** Every heritage clause names at least one type, and every heritage
    type is an identifier that [isExported] accepts. *)
Definition heritageIsExported (typeChecker : TypeChecker) (node : Statement)
  : bool :=
  match node with
  | ClassDeclaration c | InterfaceDeclaration c =>
      forallb (fun clause =>
                 match h_types clause with
                 | [] => false
                 | types => forallb (isExportedHeritage typeChecker) types
                 end) (cl_heritageClauses c)
  | _ => true
  end.

(** The members of a dropped heritage type hold a symbol whose
    documentation has more blocks than the symbol has declarations. *)
Definition overDocumentedHeritage (typeChecker : TypeChecker) : Prop :=
  exists type symbol,
    isExportedHeritage typeChecker type = false
    /\ In symbol (getPropertiesAtLocation typeChecker type)
    /\ coversDocumentation symbol = false.

(** Every substitute the search finds has a name that [isExported]
    accepts on the identifier the factory creates for it. *)
Definition substitutesAccepted (typeChecker : TypeChecker) : Prop :=
  forall typeName publicName,
    extractExportedSymbol typeChecker (EntityIdentifier typeName)
    = Some publicName ->
    isExported typeChecker (createIdentifier (sym_name publicName)) = true.

(** *** A program on which pruning throws

    Two symbols named [read] among the members of the hidden class: the
    second copy looks up the first symbol, whose documentation has a
    second block and whose declarations have no second entry. *)
Module OutOfRange.
Definition read : NamedMember :=
  member MethodDeclaration "read" [] (Some (KeywordTypeNode "void")).
Definition Reader : ClassLike := classNamed [] "Reader" [] [Named read].
Definition FileReader : ClassLike :=
  classNamed [ExportKeyword] "FileReader" (extending "Reader") [].
Definition sourceFile : SourceFile :=
  {| fileName := "index.d.ts";
     statements := [ClassDeclaration Reader; ClassDeclaration FileReader] |}.
Definition readSymbol : Symbol :=
  {| sym_name := "read";
     sym_declarations := Some [declaredIn "index.d.ts" (DeclMember read)];
     sym_documentation :=
       [{| part_kind := "text"; part_text := "Reads." |};
        {| part_kind := "lineBreak"; part_text := "" |};
        {| part_kind := "text"; part_text := "Reads again." |}] |}.
Definition ReaderSymbol :=
  classSymbol "index.d.ts" (ClassDeclaration Reader) "Reader".
Definition FileReaderSymbol :=
  classSymbol "index.d.ts" (ClassDeclaration FileReader) "FileReader".
Definition typeChecker : TypeChecker :=
  tableChecker [ReaderSymbol; FileReaderSymbol] [FileReaderSymbol]
               [("Reader", [readSymbol; readSymbol])].
Definition program : Program :=
  {| getSourceFile := sourceFile; getTypeChecker := typeChecker |}.
End OutOfRange.

(* ================================================================== *)
(** * Properties *)

(* ================================================================== *)
(** ** Trimming

    The fuel of [trimStart] and [trimEnd] is enough: no white space is
    left at the front of the one and at the end of the other. *)

Lemma dropChars_length n s :
  String.length (dropChars n s) = String.length s - n.
Proof.
  revert s. induction n as [|n IH]; intros [|c s]; simpl; try reflexivity.
  - apply IH.
Qed.

Lemma prefix_length w s :
  String.prefix w s = true -> String.length w <= String.length s.
Proof.
  revert s. induction w as [|c w IH]; intros [|d s]; simpl; intros H;
    try lia; try discriminate H.
  destruct (Ascii.ascii_dec c d); [|discriminate H].
  specialize (IH _ H). lia.
Qed.

Lemma dropLeading_done spaces fuel s :
  forallb (fun w => Nat.ltb 0 (String.length w)) spaces = true ->
  String.length s <= fuel ->
  find (fun w => String.prefix w (dropLeading spaces fuel s)) spaces = None.
Proof.
  intros Hspaces. revert s. induction fuel as [|fuel IH]; intros s Hlen.
  - simpl. destruct (find _ spaces) as [w|] eqn:E; [|reflexivity].
    apply find_some in E. destruct E as (Hin & Hp).
    rewrite forallb_forall in Hspaces. specialize (Hspaces _ Hin).
    apply Nat.ltb_lt in Hspaces. apply prefix_length in Hp. lia.
  - simpl. destruct (find (fun w => String.prefix w s) spaces) as [w|] eqn:E.
    + apply IH. apply find_some in E. destruct E as (Hin & Hp).
      rewrite forallb_forall in Hspaces. specialize (Hspaces _ Hin).
      apply Nat.ltb_lt in Hspaces. rewrite dropChars_length. lia.
    + exact E.
Qed.

Lemma trimStart_done s :
  find (fun w => String.prefix w (trimStart s)) (map ofBytes whiteSpaceBytes)
  = None.
Proof.
  apply dropLeading_done; [reflexivity|apply le_n].
Qed.

Lemma reverseOnto_length s acc :
  String.length (reverseOnto s acc) = String.length s + String.length acc.
Proof.
  revert acc. induction s as [|c s IH]; intros acc; simpl; [reflexivity|].
  rewrite IH. simpl. lia.
Qed.

Lemma reverseOnto_involutive s acc :
  reverseOnto (reverseOnto s acc) EmptyString = reverseOnto acc s.
Proof.
  revert acc. induction s as [|c s IH]; intros acc; simpl.
  - reflexivity.
  - rewrite IH. reflexivity.
Qed.

Lemma reverseString_involutive s : reverseString (reverseString s) = s.
Proof.
  unfold reverseString. rewrite reverseOnto_involutive. reflexivity.
Qed.

Lemma trimEnd_done s :
  find (fun w => String.prefix w (reverseString (trimEnd s)))
       (map (fun bytes => ofBytes (rev bytes)) whiteSpaceBytes)
  = None.
Proof.
  unfold trimEnd. rewrite reverseString_involutive.
  apply dropLeading_done; [reflexivity|].
  unfold reverseString. rewrite reverseOnto_length. simpl. lia.
Qed.


(** ** The error monad and the traversal *)

Lemma bind_Ok_inv {A B : Type} (r : result A) (k : A -> result B) (b : B) :
  bind r k = Ok b -> exists a, r = Ok a /\ k a = Ok b.
Proof.
  destruct r as [a|e]; simpl; intros H.
  - exists a. split; [reflexivity | exact H].
  - discriminate H.
Qed.

Lemma mapM_Forall2 {A B : Type} (f : A -> result B) (l : list A) (l' : list B) :
  mapM f l = Ok l' -> Forall2 (fun x y => f x = Ok y) l l'.
Proof.
  revert l'. induction l as [|x r IH]; simpl; intros l' H.
  - injection H as <-. constructor.
  - apply bind_Ok_inv in H. destruct H as (y & Hy & H).
    apply bind_Ok_inv in H. destruct H as (ys & Hys & H).
    injection H as <-. constructor; [exact Hy | apply IH; exact Hys].
Qed.

Lemma mapM_total {A B : Type} (f : A -> result B) (l : list A) :
  Forall (fun x => exists y, f x = Ok y) l -> exists l', mapM f l = Ok l'.
Proof.
  induction 1 as [|x r (y & Hy) _ (ys & Hys)]; simpl.
  - eexists. reflexivity.
  - rewrite Hy, Hys. simpl. eexists. reflexivity.
Qed.

Lemma mapM_fixed {A : Type} (f : A -> result A) (l : list A) :
  Forall (fun x => f x = Ok x) l -> mapM f l = Ok l.
Proof.
  induction 1 as [|x r Hx _ IH]; simpl.
  - reflexivity.
  - rewrite Hx, IH. reflexivity.
Qed.

Lemma Forall2_length_eq {A B : Type} (R : A -> B -> Prop) l l' :
  Forall2 R l l' -> List.length l = List.length l'.
Proof. induction 1; simpl; congruence. Qed.

Lemma Forall2_nth_error_l {A B : Type} (R : A -> B -> Prop) l l' i x :
  Forall2 R l l' -> nth_error l i = Some x ->
  exists y, nth_error l' i = Some y /\ R x y.
Proof.
  intros H. revert i. induction H as [|a b l l' Hab _ IH]; intros [|i] Hi;
    simpl in *; try discriminate.
  - injection Hi as <-. exists b. split; [reflexivity | exact Hab].
  - apply IH. exact Hi.
Qed.

Lemma Forall2_nth_error_r {A B : Type} (R : A -> B -> Prop) l l' i y :
  Forall2 R l l' -> nth_error l' i = Some y ->
  exists x, nth_error l i = Some x /\ R x y.
Proof.
  intros H. revert i. induction H as [|a b l l' Hab _ IH]; intros [|i] Hi;
    simpl in *; try discriminate.
  - injection Hi as <-. exists a. split; [reflexivity | exact Hab].
  - apply IH. exact Hi.
Qed.

(** Induction on type nodes, with the arguments of a reference and the
    members of a union covered by [Forall]. *)
Section TypeNodeInduction.

Variable P : TypeNode -> Prop.
Hypothesis P_reference : forall typeName typeArguments,
  Forall P typeArguments -> P (TypeReferenceNode typeName typeArguments).
Hypothesis P_keyword : forall k, P (KeywordTypeNode k).
Hypothesis P_array : forall t, P t -> P (ArrayTypeNode t).
Hypothesis P_union : forall types, Forall P types -> P (UnionTypeNode types).

Fixpoint TypeNode_nested_ind (t : TypeNode) : P t :=
  let all := fix all (l : list TypeNode) : Forall P l :=
    match l with
    | [] => Forall_nil P
    | x :: r => Forall_cons x (TypeNode_nested_ind x) (all r)
    end in
  match t with
  | TypeReferenceNode typeName typeArguments =>
      P_reference typeName typeArguments (all typeArguments)
  | KeywordTypeNode k => P_keyword k
  | ArrayTypeNode e => P_array e (TypeNode_nested_ind e)
  | UnionTypeNode types => P_union types (all types)
  end.

End TypeNodeInduction.

(** Induction on statements, with the body of a namespace covered by
    [Forall]. *)
Section StatementInduction.

Variable P : Statement -> Prop.
Hypothesis P_module : forall modifiers name body,
  Forall P body -> P (ModuleDeclaration modifiers name body).
Hypothesis P_other : forall node,
  (forall modifiers name body, node <> ModuleDeclaration modifiers name body) ->
  P node.

Fixpoint Statement_nested_ind (node : Statement) : P node.
Proof.
  destruct node as [c|c|ms n tps ps t|ms ds|ms n tps t|ms n body|ms n es|t|t|o].
  6: { apply P_module. induction body as [|x r IH].
       - constructor.
       - constructor; [apply Statement_nested_ind | exact IH]. }
  all: apply P_other; intros; discriminate.
Defined.

End StatementInduction.

Section TraversalFacts.

Variable typeChecker : TypeChecker.

(** The traversal of a type node has the shape of the source:
    [visitEachChild(visit(node), visitNodeAndChildren)]. *)
Lemma visitNodeAndChildren_type_eq (node : TypeNode) :
  visitNodeAndChildren_type typeChecker node
  = visitEachChild_type (visitNodeAndChildren_type typeChecker)
                        (visit_type typeChecker node).
Proof.
  destruct node as [typeName typeArguments|k|e|types]; simpl; try reflexivity.
  destruct (extractExportedSymbol typeChecker typeName); reflexivity.
Qed.

Lemma visitStatements_mapM (body : list Statement) :
  (fix visitStatements (l : list Statement) : result (list Statement) :=
     match l with
     | [] => Ok []
     | x :: r =>
         y <- visitNodeAndChildren_statement typeChecker x ;;
         ys <- visitStatements r ;;
         Ok (y :: ys)
     end) body
  = mapM (visitNodeAndChildren_statement typeChecker) body.
Proof.
  induction body as [|x r IH]; simpl.
  - reflexivity.
  - rewrite IH. reflexivity.
Qed.

Lemma visit_statement_not_module (node visited : Statement) :
  (forall modifiers name body, node <> ModuleDeclaration modifiers name body) ->
  visit_statement typeChecker node = Ok visited ->
  forall modifiers name body, visited <> ModuleDeclaration modifiers name body.
Proof.
  intros Hnode H ms n b ->. unfold visit_statement in H.
  destruct (isDeclaration node && negb (hasExportKeyword (modifiersOf node))).
  - discriminate H.
  - destruct node as [c|c|? ? ? ? ?|? ?|? ? ? ?|? ? ?|? ? ?|?|?|?];
      simpl in H; try congruence;
      try (eapply Hnode; reflexivity);
      destruct (pruneHeritageClauses typeChecker c (cl_heritageClauses c));
      discriminate H.
Qed.

Lemma visitEachChild_statement_not_module f g (node : Statement) :
  (forall modifiers name body, node <> ModuleDeclaration modifiers name body) ->
  visitEachChild_statement typeChecker f node
  = visitEachChild_statement typeChecker g node.
Proof.
  intros H. destruct node; try reflexivity. exfalso. eapply H. reflexivity.
Qed.

(** The traversal of a statement has the shape of the source. *)
Lemma visitNodeAndChildren_statement_eq (node : Statement) :
  visitNodeAndChildren_statement typeChecker node
  = (visited <- visit_statement typeChecker node ;;
     visitEachChild_statement typeChecker
       (mapM (visitNodeAndChildren_statement typeChecker)) visited).
Proof.
  destruct node as [c|c|ms n tps ps t|ms ds|ms n tps t|ms n body|ms n es|t|t|o].
  6: { simpl. rewrite visitStatements_mapM. unfold visit_statement. simpl.
       destruct (hasExportKeyword ms); reflexivity. }
  all: cbn [visitNodeAndChildren_statement];
    match goal with
    | |- bind ?r _ = _ => destruct r as [visited|e] eqn:Hv; simpl; [|reflexivity]
    end;
    apply visitEachChild_statement_not_module;
    eapply visit_statement_not_module; [|exact Hv]; intros; discriminate.
Qed.

End TraversalFacts.

(* ================================================================== *)
(** ** The "only classes or interfaces" error *)

Lemma supported_Ok {A : Type} (a : A) : supported (Ok a).
Proof. discriminate. Qed.

Lemma supported_bind {A B : Type} (r : result A) (k : A -> result B) :
  supported r -> (forall a, supported (k a)) -> supported (bind r k).
Proof.
  intros Hr Hk. destruct r as [a|e]; simpl.
  - apply Hk.
  - intros H. apply Hr. injection H as ->. reflexivity.
Qed.

Lemma supported_foldM {A B : Type} (f : A -> B -> result A) l a :
  (forall a x, supported (f a x)) -> supported (foldM f l a).
Proof.
  intros Hf. revert a. induction l as [|x r IH]; intros a; simpl.
  - apply supported_Ok.
  - apply supported_bind; [apply Hf | exact IH].
Qed.

Lemma supported_mapM {A B : Type} (f : A -> result B) l :
  Forall (fun x => supported (f x)) l -> supported (mapM f l).
Proof.
  induction 1 as [|x r Hx _ IH]; simpl.
  - apply supported_Ok.
  - apply supported_bind; [exact Hx|]. intros y.
    apply supported_bind; [exact IH|]. intros ys. apply supported_Ok.
Qed.

Lemma supported_extractJSDocComment symbol alreadyAddedMembers :
  supported (extractJSDocComment symbol alreadyAddedMembers).
Proof.
  unfold extractJSDocComment.
  destruct (overloadComments _ 0 (sym_documentation symbol)); [apply supported_Ok|].
  destruct (sym_declarations symbol) as [ds|]; [|apply supported_Ok].
  destruct (nth_error ds _); [apply supported_Ok | discriminate].
Qed.

Lemma supported_convertPropertiesForEnclosingClass symbols currentClass :
  supported (convertPropertiesForEnclosingClass symbols currentClass).
Proof.
  apply supported_foldM. intros newMembers missingMember.
  unfold addMissingMember. apply supported_bind.
  - destruct (find _ symbols); [apply supported_extractJSDocComment | apply supported_Ok].
  - intros [c|]; apply supported_Ok.
Qed.

Lemma supported_pruneHeritageTypes typeChecker node types :
  supported (pruneHeritageTypes typeChecker node types).
Proof.
  induction types as [|type rest IH]; simpl; [apply supported_Ok|].
  destruct (isExportedHeritage typeChecker type).
  - apply supported_bind; [exact IH | intros; apply supported_Ok].
  - apply supported_bind; [apply supported_convertPropertiesForEnclosingClass|].
    intros copied. apply supported_bind; [exact IH | intros; apply supported_Ok].
Qed.

Lemma supported_pruneHeritageClauses typeChecker node clauses :
  supported (pruneHeritageClauses typeChecker node clauses).
Proof.
  induction clauses as [|c rest IH]; simpl; [apply supported_Ok|].
  apply supported_bind; [apply supported_pruneHeritageTypes|]. intros p.
  apply supported_bind; [exact IH | intros; apply supported_Ok].
Qed.

Lemma prunePrivateImports_supported typeChecker node :
  isClassOrInterface node = true ->
  supported (prunePrivateImports typeChecker node).
Proof.
  destruct node; simpl; try discriminate; intros _;
    (apply supported_bind;
     [apply supported_pruneHeritageClauses | intros; apply supported_Ok]).
Qed.

Lemma supported_visit_statement typeChecker node :
  supported (visit_statement typeChecker node).
Proof.
  unfold visit_statement.
  destruct (isDeclaration node && negb (hasExportKeyword (modifiersOf node)));
    [apply supported_Ok|].
  destruct node; try apply supported_Ok;
    apply prunePrivateImports_supported; reflexivity.
Qed.

Lemma supported_visitEachChild_statement typeChecker f node :
  (forall l, supported (f l)) ->
  supported (visitEachChild_statement typeChecker f node).
Proof.
  intros Hf. destruct node; simpl; try apply supported_Ok.
  apply supported_bind; [apply Hf | intros; apply supported_Ok].
Qed.

Lemma supported_visitNodeAndChildren_statement typeChecker node :
  supported (visitNodeAndChildren_statement typeChecker node).
Proof.
  induction node as [modifiers name body IH|node Hnode]
    using Statement_nested_ind.
  - simpl. rewrite visitStatements_mapM.
    destruct (hasExportKeyword modifiers); simpl; [|apply supported_Ok].
    apply supported_bind; [|intros; apply supported_Ok].
    apply supported_mapM. exact IH.
  - assert (Hstep : supported
              (visited <- visit_statement typeChecker node ;;
               visitEachChild_statement typeChecker (fun l => Ok l) visited)).
    { apply supported_bind; [apply supported_visit_statement|].
      intros visited. apply supported_visitEachChild_statement.
      intros l. apply supported_Ok. }
    destruct node; try exact Hstep.
    exfalso. eapply Hnode. reflexivity.
Qed.

Lemma supported_dropPrivateApiTransformer typeChecker sourceFile :
  supported (dropPrivateApiTransformer typeChecker sourceFile).
Proof.
  unfold dropPrivateApiTransformer.
  apply supported_bind; [|intros; apply supported_Ok].
  apply supported_mapM. apply Forall_forall. intros node _.
  apply supported_visitNodeAndChildren_statement.
Qed.

Lemma supported_throwsUnsupported {A : Type} (r : result A) :
  supported r -> throwsUnsupported r = false.
Proof.
  intros H. destruct r as [a|[|]]; try reflexivity. exfalso. apply H. reflexivity.
Qed.

(** C9. [prunePrivateImports] throws "Only classes or interfaces are
    supported" exactly on a node that is neither a class nor an interface
    declaration; [visit] calls it on class and interface declarations
    only, so that neither [visit], nor the traversal of a statement, nor
    the transformer on a whole source file, nor a run of [pruneDts] ever
    ends in this error. *)
Theorem only_classes_or_interfaces_unreachable (typeChecker : TypeChecker) :
  (forall node,
      throwsUnsupported (prunePrivateImports typeChecker node)
      = negb (isClassOrInterface node))
  /\ (forall node,
         throwsUnsupported (visit_statement typeChecker node) = false)
  /\ (forall node,
         throwsUnsupported (visitNodeAndChildren_statement typeChecker node)
         = false)
  /\ (forall sourceFile,
         throwsUnsupported (dropPrivateApiTransformer typeChecker sourceFile)
         = false)
  /\ (forall sourceFile outputLocation,
         runThrowsUnsupported
           (pruneDts {| getSourceFile := sourceFile;
                        getTypeChecker := typeChecker |} outputLocation)
         = false).
Proof.
  split; [|split; [|split; [|split]]].
  - intros node. destruct node; try reflexivity;
      apply supported_throwsUnsupported;
      apply prunePrivateImports_supported; reflexivity.
  - intros node. apply supported_throwsUnsupported, supported_visit_statement.
  - intros node. apply supported_throwsUnsupported,
      supported_visitNodeAndChildren_statement.
  - intros sourceFile. apply supported_throwsUnsupported,
      supported_dropPrivateApiTransformer.
  - intros sourceFile outputLocation. unfold pruneDts, runThrowsUnsupported.
    simpl.
    pose proof (supported_dropPrivateApiTransformer typeChecker sourceFile) as H.
    destruct (dropPrivateApiTransformer typeChecker sourceFile) as [t|[|]];
      try reflexivity.
    exfalso. apply H. reflexivity.
Qed.

(* ================================================================== *)
(** ** References with a qualified name *)

(** C10. The substitute search answers only for a type name that is a
    single identifier.  For a reference whose name is qualified,
    [extractExportedSymbol] finds nothing whatever the checker knows about
    the name, [visit] returns the reference as it is, and the traversal
    changes nothing but what it finds inside the type arguments. *)
Theorem qualified_reference_left_unchanged (typeChecker : TypeChecker)
    (left : EntityName) (right : Identifier) (typeArguments : list TypeNode) :
  extractExportedSymbol typeChecker (QualifiedName left right) = None
  /\ visit_type typeChecker
       (TypeReferenceNode (QualifiedName left right) typeArguments)
     = TypeReferenceNode (QualifiedName left right) typeArguments
  /\ visitNodeAndChildren_type typeChecker
       (TypeReferenceNode (QualifiedName left right) typeArguments)
     = TypeReferenceNode (QualifiedName left right)
         (map (visitNodeAndChildren_type typeChecker) typeArguments).
Proof.
  split; [reflexivity | split; reflexivity].
Qed.

(** In the [PublicFoo] program the hidden [PrivateFoo] has the exported
    substitute [PublicFoo]; the reference [ns.PrivateFoo] keeps its name
    all the same. *)
Example qualified_reference_with_substitute :
  extractExportedSymbol PublicFoo.typeChecker
    (EntityIdentifier (ident "PrivateFoo")) = Some PublicFoo.PublicFooSymbol
  /\ visitNodeAndChildren_type PublicFoo.typeChecker
       (TypeReferenceNode
          (QualifiedName (EntityIdentifier (ident "ns")) (ident "PrivateFoo")) [])
     = TypeReferenceNode
         (QualifiedName (EntityIdentifier (ident "ns")) (ident "PrivateFoo")) [].
Proof.
  split; reflexivity.
Qed.

(* ================================================================== *)
(** ** Constructors marked hideconstructor *)

(** C6. A constructor whose JSDoc has a [hideconstructor] tag is replaced,
    by [visit] and in the output of the traversal alike, by a constructor
    with the same decorators, no parameter, no body and the single
    modifier [private], or [protected] when the comment of the tag is
    the string "protected".  Without the tag [visit] returns the
    constructor itself, and the traversal changes nothing in it but the
    type nodes of its parameters, which it visits as it visits every type
    node.  The rewrite touches no other kind of member, and each member
    of a list is visited on its own. *)
Theorem hideconstructor_rewrite (typeChecker : TypeChecker)
    (decorators : list string) (modifiers : list Modifier)
    (parameters : list ParameterDeclaration) (body : option string)
    (jsDoc : list JSDocTag) :
  let node := ConstructorDeclaration decorators modifiers parameters body jsDoc in
  match find isHideConstructorTag jsDoc with
  | Some hideConstructorTag =>
      let visibility :=
        match tagComment hideConstructorTag with
        | Some payload =>
            if String.eqb payload "protected" then ProtectedKeyword
            else PrivateKeyword
        | None => PrivateKeyword
        end in
      visit_member node
      = ConstructorDeclaration decorators [visibility] [] None []
      /\ visitNodeAndChildren_member typeChecker node
         = ConstructorDeclaration decorators [visibility] [] None []
  | None =>
      visit_member node = node
      /\ visitNodeAndChildren_member typeChecker node
         = ConstructorDeclaration decorators modifiers
             (map (visitParameter typeChecker) parameters) body jsDoc
  end
  /\ (forall m, maybeHideConstructor (Named m) = Named m)
  /\ (forall text tags,
         maybeHideConstructor (JSDocComment text tags) = JSDocComment text tags)
  /\ (forall before after,
         map (visitNodeAndChildren_member typeChecker) (before ++ node :: after)
         = map (visitNodeAndChildren_member typeChecker) before
           ++ visitNodeAndChildren_member typeChecker node
              :: map (visitNodeAndChildren_member typeChecker) after).
Proof.
  intros node. split; [|split; [|split]].
  - unfold node, visitNodeAndChildren_member, visit_member, maybeHideConstructor.
    change (fun t : JSDocTag => String.eqb (tagName t) "hideconstructor")
      with isHideConstructorTag.
    destruct (find isHideConstructorTag jsDoc) as [tag|]; split; reflexivity.
  - reflexivity.
  - reflexivity.
  - intros before after. rewrite map_app. reflexivity.
Qed.

(** The scenario of the specification: a "protected" payload. *)
Example hideconstructor_protected :
  visitNodeAndChildren_member HiddenParameter.typeChecker
    (ConstructorDeclaration [] []
       [{| param_name := "x"; param_type := Some (reference "Hidden") |}] None
       [{| tagName := "hideconstructor"; tagComment := Some "protected" |}])
  = ConstructorDeclaration [] [ProtectedKeyword] [] None [].
Proof. reflexivity. Qed.

(* ================================================================== *)
(** ** Totality of the traversal *)

Lemma overloadComments_bound overloadCount targetIndex parts :
  overloadComments overloadCount targetIndex parts <> [] ->
  overloadCount <= targetIndex + lineBreaks parts.
Proof.
  revert targetIndex. induction parts as [|p rest IH]; intros k H; simpl in *.
  - contradiction.
  - unfold lineBreaks in *. simpl.
    destruct (String.eqb (part_kind p) "lineBreak"); simpl.
    + apply IH in H. lia.
    + destruct (Nat.eqb overloadCount k) eqn:E.
      * apply Nat.eqb_eq in E. lia.
      * apply IH in H. exact H.
Qed.

Lemma extractJSDocComment_total symbol alreadyAddedMembers :
  coversDocumentation symbol = true ->
  exists r, extractJSDocComment symbol alreadyAddedMembers = Ok r.
Proof.
  intros Hcover. unfold extractJSDocComment.
  destruct (overloadComments _ 0 (sym_documentation symbol)) as [|c cs] eqn:Hc;
    [eexists; reflexivity|].
  destruct (sym_declarations symbol) as [ds|] eqn:Hds; [|eexists; reflexivity].
  assert (Hb : overloadCountOf symbol alreadyAddedMembers
               <= 0 + lineBreaks (sym_documentation symbol)).
  { apply overloadComments_bound. rewrite Hc. discriminate. }
  unfold coversDocumentation in Hcover. rewrite Hds in Hcover.
  destruct (sym_documentation symbol) as [|p ps] eqn:Hdoc; [discriminate Hc|].
  apply Nat.ltb_lt in Hcover.
  destruct (nth_error ds (overloadCountOf symbol alreadyAddedMembers)) eqn:Hn.
  - eexists. reflexivity.
  - apply nth_error_None in Hn. lia.
Qed.

Lemma foldM_total {A B : Type} (f : A -> B -> result A) l a :
  (forall a x, exists a', f a x = Ok a') -> exists r, foldM f l a = Ok r.
Proof.
  intros Hf. revert a. induction l as [|x r IH]; intros a; simpl.
  - eexists. reflexivity.
  - destruct (Hf a x) as (a' & ->). simpl. apply IH.
Qed.

Lemma convertPropertiesForEnclosingClass_total symbols currentClass :
  Forall (fun s => coversDocumentation s = true) symbols ->
  exists r, convertPropertiesForEnclosingClass symbols currentClass = Ok r.
Proof.
  intros Hs. apply foldM_total. intros newMembers missingMember.
  unfold addMissingMember.
  destruct (find _ symbols) as [symbol|] eqn:Hfind; simpl.
  - apply find_some in Hfind. destruct Hfind as (Hin & _).
    rewrite Forall_forall in Hs.
    destruct (extractJSDocComment_total symbol newMembers (Hs _ Hin))
      as ([c|] & ->); simpl; eexists; reflexivity.
  - eexists. reflexivity.
Qed.

Section Totality.

Variable typeChecker : TypeChecker.
Hypothesis documented : documentedPerDeclaration typeChecker.

Lemma pruneHeritageTypes_total node types :
  exists r, pruneHeritageTypes typeChecker node types = Ok r.
Proof.
  induction types as [|type rest (r & IH)]; simpl; [eexists; reflexivity|].
  destruct (isExportedHeritage typeChecker type).
  - rewrite IH. simpl. eexists. reflexivity.
  - destruct (@convertPropertiesForEnclosingClass_total
                (getPropertiesAtLocation typeChecker type) node) as (ms & ->).
    + apply Forall_forall. intros s Hs. eapply documented. exact Hs.
    + simpl. rewrite IH. simpl. eexists. reflexivity.
Qed.

Lemma pruneHeritageClauses_total node clauses :
  exists r, pruneHeritageClauses typeChecker node clauses = Ok r.
Proof.
  induction clauses as [|c rest (r & IH)]; simpl; [eexists; reflexivity|].
  destruct (pruneHeritageTypes_total node (h_types c)) as (p & ->). simpl.
  rewrite IH. simpl. eexists. reflexivity.
Qed.

Lemma visit_statement_total node :
  exists visited, visit_statement typeChecker node = Ok visited.
Proof.
  unfold visit_statement.
  destruct (isDeclaration node && negb (hasExportKeyword (modifiersOf node)));
    [eexists; reflexivity|].
  destruct node as [c|c|? ? ? ? ?|? ?|? ? ? ?|? ? ?|? ? ?|?|?|?];
    try (eexists; reflexivity); simpl;
    destruct (pruneHeritageClauses_total c (cl_heritageClauses c)) as (r & ->);
    simpl; eexists; reflexivity.
Qed.

Lemma visitNodeAndChildren_statement_total node :
  exists out, visitNodeAndChildren_statement typeChecker node = Ok out.
Proof.
  induction node as [modifiers name body IH|node Hnode]
    using Statement_nested_ind;
    rewrite visitNodeAndChildren_statement_eq.
  - unfold visit_statement. simpl.
    destruct (hasExportKeyword modifiers); simpl; [|eexists; reflexivity].
    destruct (mapM_total _ _ IH) as (body' & ->). simpl. eexists. reflexivity.
  - destruct (visit_statement_total node) as (visited & Hv). rewrite Hv. simpl.
    pose proof (@visit_statement_not_module typeChecker _ _ Hnode Hv) as Hnm.
    destruct visited; simpl; try (eexists; reflexivity).
    exfalso. eapply Hnm. reflexivity.
Qed.

Lemma dropPrivateApiTransformer_total sourceFile :
  exists out, dropPrivateApiTransformer typeChecker sourceFile = Ok out.
Proof.
  unfold dropPrivateApiTransformer.
  destruct (mapM_total (visitNodeAndChildren_statement typeChecker)
              (statements sourceFile)) as (stmts & ->).
  - apply Forall_forall. intros node _. apply visitNodeAndChildren_statement_total.
  - simpl. eexists. reflexivity.
Qed.

End Totality.

(** The checkers of the example programs. *)
Lemma tableChecker_documented symbols exports properties :
  forallb (fun p => forallb coversDocumentation (snd p)) properties = true ->
  documentedPerDeclaration (tableChecker symbols exports properties).
Proof.
  intros H type symbol Hin. simpl in Hin.
  destruct (expression type) as [i|]; [|contradiction].
  destruct (find _ properties) as [p|] eqn:Hfind; [|contradiction].
  apply find_some in Hfind. destruct Hfind as (Hp & _).
  rewrite forallb_forall in H. specialize (H _ Hp).
  rewrite forallb_forall in H. apply H. exact Hin.
Qed.

(* ================================================================== *)
(** ** The export filter *)

Ltac run_bind H :=
  simpl in H;
  try (destruct (pruneHeritageClauses _ _ _); simpl in H);
  try (destruct (mapM _ _); simpl in H);
  try discriminate H.

Lemma visitNodeAndChildren_statement_cases typeChecker node out :
  visitNodeAndChildren_statement typeChecker node = Ok out ->
  if isDeclaration node && negb (hasExportKeyword (modifiersOf node))
  then out = NotEmittedStatement node
  else isDeclaration out = isDeclaration node
       /\ modifiersOf out = modifiersOf node.
Proof.
  intros H. rewrite visitNodeAndChildren_statement_eq in H.
  unfold visit_statement in H.
  destruct (isDeclaration node && negb (hasExportKeyword (modifiersOf node))).
  - simpl in H. injection H as <-. reflexivity.
  - destruct node; run_bind H; injection H as <-; split; reflexivity.
Qed.

Lemma visitNodeAndChildren_statement_unexported typeChecker node :
  hasExportKeyword (modifiersOf node) = false ->
  visitNodeAndChildren_statement typeChecker node = Ok (placeholderFor node).
Proof.
  intros H. rewrite visitNodeAndChildren_statement_eq. unfold visit_statement.
  rewrite H. destruct node; reflexivity.
Qed.

Lemma mapM_map {A B : Type} (f : A -> result B) (g : A -> B) l :
  Forall (fun x => f x = Ok (g x)) l -> mapM f l = Ok (map g l).
Proof.
  induction 1 as [|x r Hx _ IH]; simpl.
  - reflexivity.
  - rewrite Hx, IH. reflexivity.
Qed.

(** C4. The transformer returns a source file with as many statements as
    the input.  A class, interface, function, variable statement, type
    alias, namespace or enum of the input without the [export] modifier
    stands in the output, at the same position, as the placeholder
    [NotEmittedStatement]; every declaration of these kinds that the
    output holds carries the [export] modifier.  A source file without
    any exported declaration is transformed without error into one that
    holds placeholders and no declaration. *)
Theorem export_filter_in_position (typeChecker : TypeChecker)
    (sourceFile : SourceFile) :
  documentedPerDeclaration typeChecker \/ noExports sourceFile = true ->
  exists out,
    dropPrivateApiTransformer typeChecker sourceFile = Ok out
    /\ List.length (statements out) = List.length (statements sourceFile)
    /\ (forall i node,
           nth_error (statements sourceFile) i = Some node ->
           isDeclaration node = true ->
           hasExportKeyword (modifiersOf node) = false ->
           nth_error (statements out) i = Some (NotEmittedStatement node))
    /\ (forall i node,
           nth_error (statements out) i = Some node ->
           isDeclaration node = true ->
           hasExportKeyword (modifiersOf node) = true)
    /\ (noExports sourceFile = true ->
        statements out = map placeholderFor (statements sourceFile)
        /\ forall node, In node (statements out) -> isDeclaration node = false).
Proof.
  intros Hcase.
  assert (Hout : exists out,
             dropPrivateApiTransformer typeChecker sourceFile = Ok out).
  { destruct Hcase as [Hdoc|Hno].
    - apply dropPrivateApiTransformer_total. exact Hdoc.
    - unfold dropPrivateApiTransformer.
      rewrite (@mapM_map _ _ _ placeholderFor); [simpl; eexists; reflexivity|].
      apply Forall_forall. intros node Hin.
      apply visitNodeAndChildren_statement_unexported.
      unfold noExports in Hno. rewrite forallb_forall in Hno.
      apply Hno in Hin. apply negb_true_iff in Hin. exact Hin. }
  destruct Hout as (out & Hout). exists out. split; [exact Hout|].
  unfold dropPrivateApiTransformer in Hout.
  apply bind_Ok_inv in Hout. destruct Hout as (stmts & Hmap & Hout).
  injection Hout as <-. simpl.
  pose proof (mapM_Forall2 _ _ _ Hmap) as Hall.
  split; [symmetry; eapply Forall2_length_eq; exact Hall|].
  split; [|split].
  - intros i node Hi Hdecl Hexp.
    destruct (Forall2_nth_error_l _ _ _ _ _ Hall Hi) as (y & Hy & Hv).
    apply visitNodeAndChildren_statement_cases in Hv.
    rewrite Hdecl, Hexp in Hv. simpl in Hv. subst y. exact Hy.
  - intros i node Hi Hdecl.
    destruct (Forall2_nth_error_r _ _ _ _ _ Hall Hi) as (x & Hx & Hv).
    apply visitNodeAndChildren_statement_cases in Hv.
    destruct (isDeclaration x && negb (hasExportKeyword (modifiersOf x))) eqn:E.
    + subst node. discriminate Hdecl.
    + destruct Hv as (Hd & Hm). rewrite Hm. rewrite Hd in Hdecl.
      rewrite Hdecl in E. simpl in E. apply negb_false_iff in E. exact E.
  - intros Hno.
    assert (Hstmts : stmts = map placeholderFor (statements sourceFile)).
    { rewrite (@mapM_map _ _ _ placeholderFor) in Hmap.
      - injection Hmap as <-. reflexivity.
      - apply Forall_forall. intros node Hin.
        apply visitNodeAndChildren_statement_unexported.
        unfold noExports in Hno. rewrite forallb_forall in Hno.
        apply Hno in Hin. apply negb_true_iff in Hin. exact Hin. }
    split; [exact Hstmts|].
    intros node Hin. rewrite Hstmts in Hin. apply in_map_iff in Hin.
    destruct Hin as (x & <- & _). unfold placeholderFor.
    destruct (isDeclaration x) eqn:E; [reflexivity | exact E].
Qed.

(** The theorem at the [BaseDerived] program, whose checker is documented
    per declaration, and at a source file without exports. *)
Lemma export_filter_in_position_witness :
  (documentedPerDeclaration BaseDerived.typeChecker
   /\ exists out,
       dropPrivateApiTransformer BaseDerived.typeChecker BaseDerived.sourceFile
       = Ok out
       /\ nth_error (statements out) 0
          = Some (NotEmittedStatement (ClassDeclaration BaseDerived.Base)))
  /\ (noExports {| fileName := "index.d.ts";
                   statements := [ClassDeclaration BaseDerived.Base] |} = true
      /\ exists out,
          dropPrivateApiTransformer BaseDerived.typeChecker
            {| fileName := "index.d.ts";
               statements := [ClassDeclaration BaseDerived.Base] |} = Ok out
          /\ statements out
             = [NotEmittedStatement (ClassDeclaration BaseDerived.Base)]).
Proof.
  assert (Hdoc : documentedPerDeclaration BaseDerived.typeChecker).
  { apply tableChecker_documented. reflexivity. }
  split.
  - split; [exact Hdoc|].
    destruct (export_filter_in_position BaseDerived.typeChecker
                BaseDerived.sourceFile (or_introl Hdoc))
      as (out & Hout & _ & Hpos & _).
    exists out. split; [exact Hout|].
    apply Hpos; reflexivity.
  - split; [reflexivity|].
    destruct (export_filter_in_position BaseDerived.typeChecker
                {| fileName := "index.d.ts";
                   statements := [ClassDeclaration BaseDerived.Base] |}
                (or_intror eq_refl))
      as (out & Hout & _ & _ & _ & Hno).
    exists out. split; [exact Hout|].
    destruct (Hno eq_refl) as (Hs & _). exact Hs.
Defined.

(* ================================================================== *)
(** ** The reference rewriter *)

Lemma find_filter {A : Type} (f : A -> bool) (l : list A) :
  find f l = match filter f l with x :: _ => Some x | [] => None end.
Proof.
  induction l as [|x r IH]; simpl; [reflexivity|].
  destruct (f x); [reflexivity | exact IH].
Qed.

Lemma existsb_filter_nil {A : Type} (f : A -> bool) (l : list A) :
  existsb f l = false -> filter f l = [].
Proof.
  induction l as [|x r IH]; simpl; [reflexivity|].
  destruct (f x); simpl; [discriminate | exact IH].
Qed.

Lemma isExported_false_sameNamed typeChecker name :
  isExported typeChecker name = false ->
  sameNamedExports typeChecker (escapedText name) = [].
Proof.
  unfold isExported, sameNamedExports. intros H.
  destruct (_ || _); [discriminate H|].
  apply existsb_filter_nil. exact H.
Qed.

(** The nested loops of [extractExportedSymbol] return the first
    candidate in the priority order of the specification. *)
Lemma extractExportedSymbol_substituteSearch typeChecker typeName :
  extractExportedSymbol typeChecker (EntityIdentifier typeName)
  = if isExported typeChecker typeName then None
    else substituteSearch typeChecker typeName.
Proof.
  unfold extractExportedSymbol.
  destruct (isExported typeChecker typeName) eqn:E; [reflexivity|].
  unfold substituteSearch, exportedAncestors, derivedExports.
  rewrite (isExported_false_sameNamed _ _ E). simpl.
  rewrite find_filter.
  change (filter (fun s : Symbol => String.eqb (sym_name s) (escapedText typeName))
                 (getExportsOfModule typeChecker))
    with (sameNamedExports typeChecker (escapedText typeName)).
  rewrite (isExported_false_sameNamed _ _ E).
  rewrite find_filter.
  destruct (filter (extendsLocal (escapedText typeName)) _); [|reflexivity].
  destruct (getSymbolAtLocation typeChecker typeName) as [localSymbol|];
    [|reflexivity].
  rewrite find_filter.
  destruct (filter (isExported typeChecker) _); reflexivity.
Qed.

Lemma isExported_iff typeChecker name :
  isExported typeChecker name = true
  <-> exportedByName typeChecker name \/ libraryOrImportSpecifier typeChecker name.
Proof.
  unfold isExported, exportedByName, libraryOrImportSpecifier. split.
  - destruct (existsb _ (declarationsAt typeChecker name)) eqn:Ets; simpl.
    + intros _. right. apply existsb_exists in Ets.
      destruct Ets as (d & Hd & Hf). exists d. auto.
    + destruct (existsb isImportSpecifier _) eqn:Eim; simpl.
      * intros _. right. apply existsb_exists in Eim.
        destruct Eim as (d & Hd & Hf). exists d. auto.
      * intros H. left. apply existsb_exists in H.
        destruct H as (s & Hs & Hn). exists s. split; [exact Hs|].
        apply String.eqb_eq. exact Hn.
  - intros [(s & Hs & Hn)|(d & Hd & [Hf|Hf])].
    + destruct (_ || _); [reflexivity|].
      apply existsb_exists. exists s. split; [exact Hs|].
      apply String.eqb_eq. exact Hn.
    + replace (existsb _ (declarationsAt typeChecker name)) with true;
        [reflexivity|].
      symmetry. apply existsb_exists. exists d. auto.
    + replace (existsb isImportSpecifier (declarationsAt typeChecker name))
        with true; [rewrite orb_true_r; reflexivity|].
      symmetry. apply existsb_exists. exists d. auto.
Qed.

Lemma visitNodeAndChildren_type_substituteReferences typeChecker t :
  visitNodeAndChildren_type typeChecker t = substituteReferences typeChecker t.
Proof.
  induction t as [typeName typeArguments IH|k|e IH|types IH]
    using TypeNode_nested_ind.
  - destruct typeName as [name|qualifier name].
    + cbn [visitNodeAndChildren_type substituteReferences].
      rewrite extractExportedSymbol_substituteSearch.
      rewrite (map_ext_Forall _ _ IH).
      destruct (isExported typeChecker name); [reflexivity|].
      destruct (substituteSearch typeChecker name); reflexivity.
    + cbn [visitNodeAndChildren_type substituteReferences extractExportedSymbol].
      rewrite (map_ext_Forall _ _ IH). reflexivity.
  - reflexivity.
  - cbn [visitNodeAndChildren_type substituteReferences]. rewrite IH.
    reflexivity.
  - cbn [visitNodeAndChildren_type substituteReferences].
    rewrite (map_ext_Forall _ _ IH). reflexivity.
Qed.

Lemma visitParameter_substituteInParameter typeChecker ps :
  map (visitParameter typeChecker) ps
  = map (substituteInParameter typeChecker) ps.
Proof.
  apply map_ext. intros p. unfold visitParameter, substituteInParameter.
  destruct (param_type p) as [t|]; simpl; [|reflexivity].
  rewrite visitNodeAndChildren_type_substituteReferences. reflexivity.
Qed.

Lemma visitTypeParameter_substituteInTypeParameter typeChecker ps :
  map (visitTypeParameter typeChecker) ps
  = map (substituteInTypeParameter typeChecker) ps.
Proof.
  apply map_ext. intros p. unfold visitTypeParameter, substituteInTypeParameter.
  destruct (tp_constraint p) as [t|]; simpl; [|reflexivity].
  rewrite visitNodeAndChildren_type_substituteReferences. reflexivity.
Qed.

Lemma option_map_substituteReferences typeChecker o :
  option_map (visitNodeAndChildren_type typeChecker) o
  = option_map (substituteReferences typeChecker) o.
Proof.
  destruct o as [t|]; simpl; [|reflexivity].
  rewrite visitNodeAndChildren_type_substituteReferences. reflexivity.
Qed.

(** C2, as the specification states it, fails: in the [AmbientBuffer]
    program every declaration of [Buffer] lies in a file of another
    package, so that the reference resolves to a symbol outside the
    tree, and still the reference in the signature of the exported
    function [send] is rewritten, to [Uint8Array], the exported heritage
    type of the declaration of [Buffer]. *)
Lemma ambient_reference_rewritten :
  declaredOutside AmbientBuffer.sourceFile AmbientBuffer.typeChecker
                  (ident "Buffer") = true
  /\ visit_type AmbientBuffer.typeChecker (reference "Buffer")
     = TypeReferenceNode (EntityIdentifier (createIdentifier "Uint8Array")) []
  /\ visit_type AmbientBuffer.typeChecker (reference "Buffer")
     <> reference "Buffer"
  /\ dropPrivateApiTransformer AmbientBuffer.typeChecker
       AmbientBuffer.sourceFile
     = Ok {| fileName := "index.d.ts";
             statements :=
               [FunctionDeclaration [ExportKeyword] (Some (ident "send")) []
                  [{| param_name := "data";
                      param_type :=
                        Some (TypeReferenceNode
                                (EntityIdentifier
                                   (createIdentifier "Uint8Array")) []) |}]
                  (Some (KeywordTypeNode "void"))] |}.
Proof.
  split; [reflexivity|]. split; [reflexivity|].
  split; [discriminate|reflexivity].
Qed.

(** C2, amended.  A type reference with a simple name is left as it is
    exactly when [isExported] accepts the name, that is when the module
    exports a symbol of this name, or the name has a declaration in a
    file of the TypeScript library or one that is an import specifier;
    a name that resolves outside the tree in another way is not
    exempt.  Otherwise the reference becomes a reference to the first
    substitute in the order: exported symbol of the same name, exported
    class or interface with a heritage type of this name, exported
    heritage type of the declarations of the hidden symbol; the type
    arguments are kept by [visit] and visited by the traversal, and
    without a substitute the reference stays.  When the hidden name has
    exactly one exported class or interface [Q] deriving from it, the
    reference becomes a reference to [Q].  The traversal rewrites a type
    as [substituteReferences] does, and it does so at every place of a
    signature: in an exported function, variable statement or type
    alias, and in a constructor or a member of a class that is not
    hidden, the types of the parameters, the constraints of the type
    parameters and the declared type are rewritten and nothing else
    changes. *)
Theorem reference_substitution_priority (typeChecker : TypeChecker)
    (typeName : Identifier) (typeArguments : list TypeNode) :
  let node := TypeReferenceNode (EntityIdentifier typeName) typeArguments in
  let substituted := substituteReferences typeChecker in
  (isExported typeChecker typeName = true
   <-> exportedByName typeChecker typeName
       \/ libraryOrImportSpecifier typeChecker typeName)
  /\ visit_type typeChecker node
     = (if isExported typeChecker typeName then node
        else match substituteSearch typeChecker typeName with
             | Some publicName => referenceTo publicName typeArguments
             | None => node
             end)
  /\ visitNodeAndChildren_type typeChecker node
     = (let visited := map (visitNodeAndChildren_type typeChecker) typeArguments in
        if isExported typeChecker typeName
        then TypeReferenceNode (EntityIdentifier typeName) visited
        else match substituteSearch typeChecker typeName with
             | Some publicName => referenceTo publicName visited
             | None => TypeReferenceNode (EntityIdentifier typeName) visited
             end)
  /\ (forall Q,
         isExported typeChecker typeName = false ->
         derivedExports typeChecker (escapedText typeName) = [Q] ->
         visit_type typeChecker node = referenceTo Q typeArguments
         /\ visitNodeAndChildren_type typeChecker node
            = referenceTo Q
                (map (visitNodeAndChildren_type typeChecker) typeArguments))
  /\ (forall t, visitNodeAndChildren_type typeChecker t = substituted t)
  /\ (forall modifiers name typeParameters parameters type,
         hasExportKeyword modifiers = true ->
         visitNodeAndChildren_statement typeChecker
           (FunctionDeclaration modifiers name typeParameters parameters type)
         = Ok (FunctionDeclaration modifiers name
                 (map (substituteInTypeParameter typeChecker) typeParameters)
                 (map (substituteInParameter typeChecker) parameters)
                 (option_map substituted type)))
  /\ (forall modifiers declarations,
         hasExportKeyword modifiers = true ->
         visitNodeAndChildren_statement typeChecker
           (VariableStatement modifiers declarations)
         = Ok (VariableStatement modifiers
                 (map (fun v => {| var_name := var_name v;
                                   var_type := option_map substituted (var_type v) |})
                      declarations)))
  /\ (forall modifiers name typeParameters type,
         hasExportKeyword modifiers = true ->
         visitNodeAndChildren_statement typeChecker
           (TypeAliasDeclaration modifiers name typeParameters type)
         = Ok (TypeAliasDeclaration modifiers name
                 (map (substituteInTypeParameter typeChecker) typeParameters)
                 (substituted type)))
  /\ (forall m,
         isPrunableMemberKind (m_kind m) && hasPrivatePrefix (m_name m) = false ->
         visitNodeAndChildren_member typeChecker (Named m)
         = Named {| m_kind := m_kind m;
                    m_modifiers := m_modifiers m;
                    m_name := m_name m;
                    m_typeParameters :=
                      map (substituteInTypeParameter typeChecker)
                          (m_typeParameters m);
                    m_parameters :=
                      map (substituteInParameter typeChecker) (m_parameters m);
                    m_type := option_map substituted (m_type m);
                    m_jsDoc := m_jsDoc m |})
  /\ (forall decorators modifiers parameters body jsDoc,
         existsb (fun t => String.eqb (tagName t) "hideconstructor") jsDoc
         = false ->
         visitNodeAndChildren_member typeChecker
           (ConstructorDeclaration decorators modifiers parameters body jsDoc)
         = ConstructorDeclaration decorators modifiers
             (map (substituteInParameter typeChecker) parameters) body jsDoc).
Proof.
  intros node substituted. split; [apply isExported_iff|].
  assert (Hvisit : visit_type typeChecker node
     = (if isExported typeChecker typeName then node
        else match substituteSearch typeChecker typeName with
             | Some publicName => referenceTo publicName typeArguments
             | None => node
             end)).
  { unfold node, visit_type. rewrite extractExportedSymbol_substituteSearch.
    destruct (isExported typeChecker typeName); [reflexivity|].
    destruct (substituteSearch typeChecker typeName); reflexivity. }
  assert (Hall : visitNodeAndChildren_type typeChecker node
     = (let visited := map (visitNodeAndChildren_type typeChecker) typeArguments in
        if isExported typeChecker typeName
        then TypeReferenceNode (EntityIdentifier typeName) visited
        else match substituteSearch typeChecker typeName with
             | Some publicName => referenceTo publicName visited
             | None => TypeReferenceNode (EntityIdentifier typeName) visited
             end)).
  { unfold node. cbn [visitNodeAndChildren_type].
    rewrite extractExportedSymbol_substituteSearch.
    destruct (isExported typeChecker typeName); [reflexivity|].
    destruct (substituteSearch typeChecker typeName); reflexivity. }
  split; [exact Hvisit|]. split; [exact Hall|].
  split.
  { intros Q Hhidden Hderived.
    assert (Hsearch : substituteSearch typeChecker typeName = Some Q).
    { unfold substituteSearch.
      rewrite (isExported_false_sameNamed _ _ Hhidden), Hderived. reflexivity. }
    rewrite Hvisit, Hall, Hhidden, Hsearch. split; reflexivity. }
  split; [apply visitNodeAndChildren_type_substituteReferences|].
  split.
  { intros modifiers name typeParameters parameters type Hexported.
    rewrite visitNodeAndChildren_statement_eq. unfold visit_statement.
    cbn [isDeclaration modifiersOf andb]. rewrite Hexported.
    cbn [negb bind visitEachChild_statement].
    rewrite visitTypeParameter_substituteInTypeParameter,
      visitParameter_substituteInParameter, option_map_substituteReferences.
    reflexivity. }
  split.
  { intros modifiers declarations Hexported.
    rewrite visitNodeAndChildren_statement_eq. unfold visit_statement.
    cbn [isDeclaration modifiersOf andb]. rewrite Hexported.
    cbn [negb bind visitEachChild_statement]. f_equal. f_equal.
    apply map_ext. intros v. unfold visitVariable.
    rewrite option_map_substituteReferences. reflexivity. }
  split.
  { intros modifiers name typeParameters type Hexported.
    rewrite visitNodeAndChildren_statement_eq. unfold visit_statement.
    cbn [isDeclaration modifiersOf andb]. rewrite Hexported.
    cbn [negb bind visitEachChild_statement].
    rewrite visitTypeParameter_substituteInTypeParameter,
      visitNodeAndChildren_type_substituteReferences.
    reflexivity. }
  split.
  { intros m Hkept. unfold visitNodeAndChildren_member, visit_member.
    rewrite Hkept. cbn [visitEachChild_member].
    rewrite visitTypeParameter_substituteInTypeParameter,
      visitParameter_substituteInParameter, option_map_substituteReferences.
    reflexivity. }
  intros decorators modifiers parameters body jsDoc Htag.
  assert (Hfind : find (fun t => String.eqb (tagName t) "hideconstructor") jsDoc
                  = None).
  { induction jsDoc as [|t r IH]; [reflexivity|].
    cbn [find existsb] in *.
    destruct (String.eqb (tagName t) "hideconstructor");
      [discriminate Htag|exact (IH Htag)]. }
  unfold visitNodeAndChildren_member, visit_member, maybeHideConstructor.
  rewrite Hfind. cbn [visitEachChild_member].
  rewrite visitParameter_substituteInParameter. reflexivity.
Qed.

(** The example of the source: [doFoo(foo: PrivateFoo)] becomes
    [doFoo(foo: PublicFoo)], at the reference and in the signature of
    the function. *)
Lemma reference_substitution_priority_witness :
  isExported PublicFoo.typeChecker (ident "PrivateFoo") = false
  /\ derivedExports PublicFoo.typeChecker "PrivateFoo"
     = [PublicFoo.PublicFooSymbol]
  /\ visit_type PublicFoo.typeChecker (reference "PrivateFoo")
     = TypeReferenceNode (EntityIdentifier (createIdentifier "PublicFoo")) []
  /\ visitNodeAndChildren_statement PublicFoo.typeChecker
       (FunctionDeclaration [ExportKeyword] (Some (ident "doFoo")) []
          [{| param_name := "foo";
              param_type := Some (reference "PrivateFoo") |}] None)
     = Ok (FunctionDeclaration [ExportKeyword] (Some (ident "doFoo")) []
             [{| param_name := "foo";
                 param_type :=
                   Some (TypeReferenceNode
                           (EntityIdentifier (createIdentifier "PublicFoo"))
                           []) |}] None).
Proof.
  split; [reflexivity|]. split; [reflexivity|].
  destruct (reference_substitution_priority PublicFoo.typeChecker
              (ident "PrivateFoo") [])
    as (_ & _ & _ & H & _ & Hfunction & _).
  split.
  - destruct (H PublicFoo.PublicFooSymbol eq_refl eq_refl) as (Hv & _).
    exact Hv.
  - exact (eq_trans
             (Hfunction [ExportKeyword] (Some (ident "doFoo")) []
                [{| param_name := "foo";
                    param_type := Some (reference "PrivateFoo") |}] None
                eq_refl)
             eq_refl).
Defined.

Example doFoo_rewritten :
  dropPrivateApiTransformer PublicFoo.typeChecker PublicFoo.sourceFile
  = Ok {| fileName := "index.d.ts";
          statements :=
            [NotEmittedStatement (ClassDeclaration PublicFoo.PrivateFoo);
             ClassDeclaration (classNamed [ExportKeyword] "PublicFoo" [] []);
             FunctionDeclaration [ExportKeyword] (Some (ident "doFoo")) []
               [{| param_name := "foo";
                   param_type :=
                     Some (TypeReferenceNode
                             (EntityIdentifier (createIdentifier "PublicFoo")) [])
                |}] None] |}.
Proof. reflexivity. Qed.

(* ================================================================== *)
(** ** What a run reports *)

Lemma pruneDts_effects program outputLocation e :
  In e (effects (pruneDts program outputLocation)) ->
  exists content, e = WriteFile outputLocation content.
Proof.
  unfold pruneDts.
  destruct (dropPrivateApiTransformer _ _) as [t|err]; simpl.
  - intros [<-|[]]. exists t. reflexivity.
  - intros [].
Qed.

(** Whatever the input, the console shows the progress lines only. *)
Lemma main_console createProgram input output message :
  In (ConsoleLog message) (effects (main createProgram input output)) ->
  In message progressMessages.
Proof.
  unfold main, progressMessages.
  destruct input as [i|]; [|intros []].
  destruct output as [o|]; [|intros []].
  destruct (truthy (Some i) && truthy (Some o)); [|intros []].
  destruct (thrown (pruneDts (createProgram i) o)); simpl.
  - intros [H|H].
    + injection H as <-. simpl. auto.
    + apply pruneDts_effects in H. destruct H as (c & H). discriminate H.
  - intros [H|H].
    + injection H as <-. simpl. auto.
    + apply in_app_or in H. destruct H as [H|H].
      * apply pruneDts_effects in H. destruct H as (c & H). discriminate H.
      * simpl in H. destruct H as [H|[H|[H|[]]]];
          try discriminate H; injection H as <-; simpl; auto.
Qed.

Lemma main_emits_no_diagnostic createProgram input output :
  ~ emitsDiagnostic (main createProgram input output).
Proof.
  intros (message & Hin & Hnot). apply Hnot.
  eapply main_console. exact Hin.
Qed.

Lemma main_completes createProgram i o :
  documentedPerDeclaration (getTypeChecker (createProgram i)) ->
  thrown (main createProgram (Some i) (Some o)) = None.
Proof.
  intros Hdoc. unfold main.
  destruct (truthy (Some i) && truthy (Some o)); [|reflexivity].
  unfold pruneDts.
  destruct (dropPrivateApiTransformer_total _ Hdoc (getSourceFile (createProgram i)))
    as (out & ->).
  reflexivity.
Qed.

(** C1, as the specification states it, fails: in the [HiddenParameter]
    program the substitute search finds no candidate for [Hidden], the
    written tree still has [f(x: Hidden)], the run completes, and it
    prints the three progress lines and nothing else, so that no
    diagnostic names the reference. *)
Lemma unresolved_reference_not_reported :
  extractExportedSymbol HiddenParameter.typeChecker
    (EntityIdentifier (ident "Hidden")) = None
  /\ effects HiddenParameter.run
     = [ConsoleLog "Removing private exports...";
        WriteFile "pruned.d.ts"
          {| fileName := "index.d.ts";
             statements :=
               [NotEmittedStatement
                  (InterfaceDeclaration HiddenParameter.Hidden);
                HiddenParameter.f] |};
        ConsoleLog "Removing unused imports...";
        LintFiles "pruned.d.ts";
        ConsoleLog "Done."]
  /\ thrown HiddenParameter.run = None
  /\ ~ emitsDiagnostic HiddenParameter.run.
Proof.
  split; [reflexivity|]. split; [reflexivity|]. split; [reflexivity|].
  apply main_emits_no_diagnostic.
Qed.

(** C1, amended.  A type reference for which the substitute search finds
    no candidate is returned by [visit] as it is, and the traversal
    changes nothing in it but what it finds inside its type arguments;
    visiting type nodes cannot throw, and a run over a program whose
    checker is documented per declaration completes.  No run emits a
    diagnostic: the console shows the progress lines only. *)
Theorem unresolved_reference_left_unchanged (typeChecker : TypeChecker)
    (typeName : EntityName) (typeArguments : list TypeNode) :
  extractExportedSymbol typeChecker typeName = None ->
  visit_type typeChecker (TypeReferenceNode typeName typeArguments)
  = TypeReferenceNode typeName typeArguments
  /\ visitNodeAndChildren_type typeChecker
       (TypeReferenceNode typeName typeArguments)
     = TypeReferenceNode typeName
         (map (visitNodeAndChildren_type typeChecker) typeArguments)
  /\ (forall createProgram i o,
         documentedPerDeclaration (getTypeChecker (createProgram i)) ->
         thrown (main createProgram (Some i) (Some o)) = None)
  /\ (forall createProgram input output,
         ~ emitsDiagnostic (main createProgram input output)).
Proof.
  intros Hnone. split; [|split; [|split]].
  - simpl. rewrite Hnone. reflexivity.
  - simpl. rewrite Hnone. reflexivity.
  - intros createProgram i o. apply main_completes.
  - intros createProgram input output. apply main_emits_no_diagnostic.
Qed.

Lemma unresolved_reference_left_unchanged_witness :
  extractExportedSymbol HiddenParameter.typeChecker
    (EntityIdentifier (ident "Hidden")) = None
  /\ visit_type HiddenParameter.typeChecker (reference "Hidden")
     = reference "Hidden"
  /\ thrown (main (fun _ => HiddenParameter.program)
                  (Some "index.d.ts") (Some "pruned.d.ts")) = None.
Proof.
  split; [reflexivity|].
  destruct (unresolved_reference_left_unchanged HiddenParameter.typeChecker
              (EntityIdentifier (ident "Hidden")) [] eq_refl)
    as (Hv & _ & Hrun & _).
  split; [exact Hv|].
  apply (Hrun (fun _ => HiddenParameter.program)).
  apply tableChecker_documented. reflexivity.
Defined.

(* ================================================================== *)
(** ** The documentation of copied members *)

Lemma documentationBlocks_cons parts :
  exists block blocks, documentationBlocks parts = block :: blocks.
Proof.
  induction parts as [|p rest (b & bs & IH)]; simpl.
  - eexists. eexists. reflexivity.
  - destruct (String.eqb (part_kind p) "lineBreak").
    + eexists. eexists. reflexivity.
    + rewrite IH. eexists. eexists. reflexivity.
Qed.

(** The filter with its running [targetIndex] selects a block of the
    documentation. *)
Lemma overloadComments_block overloadCount targetIndex parts :
  overloadComments overloadCount targetIndex parts
  = if Nat.ltb overloadCount targetIndex then []
    else nth (overloadCount - targetIndex) (documentationBlocks parts) [].
Proof.
  revert targetIndex. induction parts as [|p rest IH]; intros k; simpl.
  - destruct (Nat.ltb overloadCount k); [reflexivity|].
    destruct (overloadCount - k) as [|[|n]]; reflexivity.
  - destruct (String.eqb (part_kind p) "lineBreak").
    + rewrite IH.
      destruct (Nat.ltb_spec overloadCount k) as [H1|H1];
        destruct (Nat.ltb_spec overloadCount (S k)) as [H2|H2];
        try (exfalso; lia); try reflexivity.
      * replace (overloadCount - k) with 0 by lia. reflexivity.
      * replace (overloadCount - k) with (S (overloadCount - S k)) by lia.
        reflexivity.
    + destruct (documentationBlocks_cons rest) as (b & bs & Hb).
      destruct (Nat.eqb_spec overloadCount k) as [E|E].
      * subst k. rewrite IH, Hb.
        rewrite Nat.ltb_irrefl, Nat.sub_diag. reflexivity.
      * rewrite IH, Hb.
        destruct (Nat.ltb_spec overloadCount k) as [H1|H1]; [reflexivity|].
        replace (overloadCount - k) with (S (overloadCount - S k)) by lia.
        reflexivity.
Qed.

Lemma overloadCountOf_copiedBefore symbol nodes :
  forallb isCopiedNode nodes = true ->
  overloadCountOf symbol nodes = copiedBefore (sym_name symbol) nodes.
Proof.
  unfold overloadCountOf, copiedBefore.
  induction nodes as [|node rest IH]; simpl; [reflexivity|].
  intros H. apply andb_true_iff in H. destruct H as (Hnode & Hrest).
  specialize (IH Hrest).
  destruct node as [? ? ? ? ?|m|text tags|o]; simpl in *; try discriminate.
  - rewrite Hnode. simpl.
    destruct (m_name m) as [i|t]; simpl.
    + destruct (String.eqb (escapedText i) (sym_name symbol)); simpl;
        rewrite IH; reflexivity.
    + exact IH.
  - exact IH.
Qed.

Lemma extractJSDocComment_JSDoc symbol nodes c :
  extractJSDocComment symbol nodes = Ok (Some c) ->
  exists text tags, c = JSDocComment text tags.
Proof.
  unfold extractJSDocComment.
  destruct (overloadComments _ 0 _); [discriminate|].
  destruct (sym_declarations symbol) as [ds|]; [|discriminate].
  destruct (nth_error ds _); [|discriminate].
  intros H. injection H as <-. eexists. eexists. reflexivity.
Qed.

Lemma addMissingMember_Ok symbols newMembers missingMember r :
  addMissingMember symbols newMembers missingMember = Ok r ->
  r = newMembers ++ [Named missingMember]
  \/ exists text tags,
      r = newMembers ++ [JSDocComment text tags; Named missingMember].
Proof.
  unfold addMissingMember. intros H.
  apply bind_Ok_inv in H. destruct H as ([c|] & Hc & H); injection H as <-.
  - right. destruct (find _ symbols) as [symbol|]; [|discriminate Hc].
    apply extractJSDocComment_JSDoc in Hc. destruct Hc as (text & tags & ->).
    eexists. eexists. reflexivity.
  - left. reflexivity.
Qed.

Lemma namedMembers_app l1 l2 :
  namedMembers (l1 ++ l2) = namedMembers l1 ++ namedMembers l2.
Proof. unfold namedMembers. apply flat_map_app. Qed.

(** The callback run over the missing members: the result holds them in
    their order, with JSDoc nodes in between and nothing else. *)
Lemma foldM_addMissingMember symbols missing acc r :
  foldM (addMissingMember symbols) missing acc = Ok r ->
  Forall (fun m => isClassElement (Named m) = true) missing ->
  forallb isCopiedNode acc = true ->
  forallb isCopiedNode r = true
  /\ namedMembers r = namedMembers acc ++ missing.
Proof.
  revert acc. induction missing as [|x rest IH]; intros acc H Hel Hacc;
    simpl in H.
  - injection H as <-. rewrite app_nil_r. auto.
  - apply bind_Ok_inv in H. destruct H as (acc' & Hstep & H).
    inversion Hel as [|? ? Hx Hrest]; subst.
    apply addMissingMember_Ok in Hstep.
    assert (Hacc' : forallb isCopiedNode acc' = true
                    /\ namedMembers acc' = namedMembers acc ++ [x]).
    { destruct Hstep as [->|(text & tags & ->)];
        rewrite forallb_app, namedMembers_app, Hacc; simpl;
        simpl in Hx; rewrite Hx; auto. }
    destruct Hacc' as (Hc & Hn).
    destruct (IH acc' H Hrest Hc) as (Hc' & Hn').
    split; [exact Hc'|]. rewrite Hn', Hn, <- app_assoc. reflexivity.
Qed.

Lemma createMissingMemberNodes_classElements currentClass symbols :
  Forall (fun m => isClassElement (Named m) = true)
         (createMissingMemberNodes currentClass symbols).
Proof.
  apply Forall_forall. intros m Hin.
  unfold createMissingMemberNodes in Hin. apply in_flat_map in Hin.
  destruct Hin as (symbol & _ & Hin).
  destruct (existsb _ _); [contradiction|].
  apply in_map_iff in Hin. destruct Hin as (d & <- & _).
  simpl. destruct (m_kind d); reflexivity.
Qed.

Lemma convertPropertiesForEnclosingClass_members symbols currentClass r :
  convertPropertiesForEnclosingClass symbols currentClass = Ok r ->
  forallb isCopiedNode r = true
  /\ namedMembers r = createMissingMemberNodes currentClass symbols.
Proof.
  intros H.
  apply (foldM_addMissingMember symbols _ [] r H
           (createMissingMemberNodes_classElements currentClass symbols)
           eq_refl).
Qed.

(** C7, as the specification states it, fails: in the [Overloads] program
    the second overload of [read] has no documentation block, it is
    copied without documentation, and the run prints the progress lines
    and nothing else: no AmbiguousOverloadDoc is reported. *)
Lemma undocumented_overload_not_reported :
  overloadComments 1 0 (sym_documentation Overloads.readSymbol) = []
  /\ convertPropertiesForEnclosingClass [Overloads.readSymbol]
       Overloads.FileReader
     = Ok [JSDocComment "Reads one." [];
           Named (synthesizeMember Overloads.readString);
           Named (synthesizeMember Overloads.readNumber)]
  /\ thrown Overloads.run = None
  /\ ~ emitsDiagnostic Overloads.run.
Proof.
  split; [reflexivity|]. split; [reflexivity|]. split; [reflexivity|].
  apply main_emits_no_diagnostic.
Qed.

(** C7, amended.  The callback of [convertPropertiesForEnclosingClass]
    looks for the first symbol of the supertype whose name is the
    identifier that names the missing member.  When there is none, as for
    every member whose name is not an identifier, the member is copied
    without documentation, whatever the documentation of the supertype.
    When there is one, the index used is the number of members of this
    name copied before, and the block taken is the block of the symbol's
    documentation at this index: an empty block, or a symbol without
    declarations, gives the member alone; otherwise the member is preceded
    by a JSDoc node made of the formatted block and the tags of the
    declaration at the same index (a declaration that must exist).
    Nothing is reported in any case: no run emits a diagnostic. *)
Theorem copied_member_documentation (parentClassSymbols : list Symbol)
    (newMembers : list Member) (missingMember : NamedMember) :
  forallb isCopiedNode newMembers = true ->
  addMissingMember parentClassSymbols newMembers missingMember
  = match find (fun s => memberNameIs (sym_name s) (Named missingMember))
               parentClassSymbols with
    | None => Ok (newMembers ++ [Named missingMember])
    | Some symbol =>
        let index := copiedBefore (sym_name symbol) newMembers in
        let block :=
          nth index (documentationBlocks (sym_documentation symbol)) [] in
        match block, sym_declarations symbol with
        | _ :: _, Some declarations =>
            match nth_error declarations index with
            | Some declaration =>
                Ok (newMembers
                    ++ [JSDocComment
                          (String.append (formatComments block)
                             match getJSDocTags declaration with
                             | [] => ""
                             | _ :: _ => newline
                             end)
                          (getJSDocTags declaration);
                        Named missingMember])
            | None => Throw TypeErrorUndefined
            end
        | _, _ => Ok (newMembers ++ [Named missingMember])
        end
    end
  /\ (forall text,
         m_name missingMember = StringLiteralName text ->
         addMissingMember parentClassSymbols newMembers missingMember
         = Ok (newMembers ++ [Named missingMember]))
  /\ (forall createProgram input output,
         ~ emitsDiagnostic (main createProgram input output)).
Proof.
  intros Hcopied.
  assert (Hmain : addMissingMember parentClassSymbols newMembers missingMember
    = match find (fun s => memberNameIs (sym_name s) (Named missingMember))
                 parentClassSymbols with
      | None => Ok (newMembers ++ [Named missingMember])
      | Some symbol =>
          let index := copiedBefore (sym_name symbol) newMembers in
          let block :=
            nth index (documentationBlocks (sym_documentation symbol)) [] in
          match block, sym_declarations symbol with
          | _ :: _, Some declarations =>
              match nth_error declarations index with
              | Some declaration =>
                  Ok (newMembers
                      ++ [JSDocComment
                            (String.append (formatComments block)
                               match getJSDocTags declaration with
                               | [] => ""
                               | _ :: _ => newline
                               end)
                            (getJSDocTags declaration);
                          Named missingMember])
              | None => Throw TypeErrorUndefined
              end
          | _, _ => Ok (newMembers ++ [Named missingMember])
          end
      end).
  { unfold addMissingMember.
    destruct (find _ parentClassSymbols) as [symbol|]; [|reflexivity].
    unfold extractJSDocComment.
    rewrite overloadComments_block, Nat.sub_0_r.
    rewrite (overloadCountOf_copiedBefore symbol newMembers Hcopied).
    simpl Nat.ltb. cbv zeta.
    destruct (nth (copiedBefore (sym_name symbol) newMembers)
                  (documentationBlocks (sym_documentation symbol)) [])
      as [|c cs]; [reflexivity|].
    destruct (sym_declarations symbol) as [ds|]; [|reflexivity].
    destruct (nth_error ds (copiedBefore (sym_name symbol) newMembers));
      reflexivity. }
  split; [exact Hmain|]. split.
  - intros text Hname. rewrite Hmain.
    assert (Hnone : find (fun s => memberNameIs (sym_name s) (Named missingMember))
                         parentClassSymbols = None).
    { clear Hmain. induction parentClassSymbols as [|s rest IH];
        [reflexivity|].
      cbn [find memberNameIs] in *. rewrite Hname in *. exact IH. }
    rewrite Hnone. reflexivity.
  - intros createProgram input output. apply main_emits_no_diagnostic.
Qed.

(** The two overloads of [read], the first documented and the second
    not, and a member named by the string literal ["read"], which is
    copied without the documentation of the symbol [read]. *)
Lemma copied_member_documentation_witness :
  addMissingMember [Overloads.readSymbol] [] (synthesizeMember Overloads.readString)
  = Ok [JSDocComment "Reads one." []; Named (synthesizeMember Overloads.readString)]
  /\ addMissingMember [Overloads.readSymbol]
       [JSDocComment "Reads one." [];
        Named (synthesizeMember Overloads.readString)]
       (synthesizeMember Overloads.readNumber)
     = Ok [JSDocComment "Reads one." [];
           Named (synthesizeMember Overloads.readString);
           Named (synthesizeMember Overloads.readNumber)]
  /\ addMissingMember [Overloads.readSymbol] []
       {| m_kind := MethodDeclaration; m_modifiers := [];
          m_name := StringLiteralName "read"; m_typeParameters := [];
          m_parameters := []; m_type := None; m_jsDoc := [] |}
     = Ok [Named {| m_kind := MethodDeclaration; m_modifiers := [];
                    m_name := StringLiteralName "read"; m_typeParameters := [];
                    m_parameters := []; m_type := None; m_jsDoc := [] |}].
Proof.
  split; [|split].
  - exact (proj1 (copied_member_documentation [Overloads.readSymbol] []
                    (synthesizeMember Overloads.readString) eq_refl)).
  - exact (proj1 (copied_member_documentation [Overloads.readSymbol]
                    [JSDocComment "Reads one." [];
                     Named (synthesizeMember Overloads.readString)]
                    (synthesizeMember Overloads.readNumber) eq_refl)).
  - exact (proj1 (proj2 (copied_member_documentation [Overloads.readSymbol] []
                    {| m_kind := MethodDeclaration; m_modifiers := [];
                       m_name := StringLiteralName "read";
                       m_typeParameters := []; m_parameters := [];
                       m_type := None; m_jsDoc := [] |} eq_refl))
                 "read" eq_refl).
Defined.

(* ================================================================== *)
(** ** The member filter *)

(** The underscore test replaces property declarations, method
    declarations and get accessors. *)
Lemma prunable_member_replaced typeChecker m :
  isPrunableMemberKind (m_kind m) = true ->
  hasPrivatePrefix (m_name m) = true ->
  visitNodeAndChildren_member typeChecker (Named m) = NotEmittedMember (Named m).
Proof.
  intros Hk Hp. unfold visitNodeAndChildren_member, visit_member.
  rewrite Hk, Hp. reflexivity.
Qed.

(** C5 at the [UnderscoreMembers] program.  The get accessor [_value] is
    replaced by a placeholder; the set accessor [_value] of the same class
    and the property [_internal] of the interface, whose names have the
    hidden prefix as well, are members of the output. *)
Theorem underscore_members_retained :
  dropPrivateApiTransformer UnderscoreMembers.typeChecker
    UnderscoreMembers.sourceFile
  = Ok {| fileName := "index.d.ts";
          statements :=
            [ClassDeclaration
               (classNamed [ExportKeyword] "Box" []
                  [NotEmittedMember (Named UnderscoreMembers.getter);
                   Named UnderscoreMembers.setter]);
             InterfaceDeclaration
               (classNamed [ExportKeyword] "Options" []
                  [Named UnderscoreMembers.internal])] |}
  /\ hasPrivatePrefix (m_name UnderscoreMembers.setter) = true
  /\ hasPrivatePrefix (m_name UnderscoreMembers.internal) = true.
Proof.
  split; [reflexivity|]. split; reflexivity.
Qed.

(* ================================================================== *)
(** ** Trees that are already pruned *)

Lemma map_fixed {A : Type} (f : A -> A) (p : A -> bool) (l : list A) :
  Forall (fun x => p x = true -> f x = x) l ->
  forallb p l = true -> map f l = l.
Proof.
  induction 1 as [|x r Hx _ IH]; simpl; intros H; [reflexivity|].
  apply andb_true_iff in H. destruct H as (H1 & H2).
  rewrite (Hx H1), (IH H2). reflexivity.
Qed.

Lemma map_fixed_all {A : Type} (f : A -> A) (p : A -> bool) (l : list A) :
  (forall x, p x = true -> f x = x) -> forallb p l = true -> map f l = l.
Proof.
  intros H. apply map_fixed. apply Forall_forall. intros x _. apply H.
Qed.

Lemma isExported_no_substitute typeChecker name :
  isExported typeChecker name = true ->
  extractExportedSymbol typeChecker (EntityIdentifier name) = None.
Proof. intros H. simpl. rewrite H. reflexivity. Qed.

Section PrunedFixed.

Variable typeChecker : TypeChecker.
Variable referenceOk : Identifier -> bool.
Variable heritageOk : ExpressionWithTypeArguments -> bool.
Hypothesis referenceOk_settled : forall name,
  referenceOk name = true ->
  extractExportedSymbol typeChecker (EntityIdentifier name) = None.
Hypothesis heritageOk_exported : forall type,
  heritageOk type = true -> isExportedHeritage typeChecker type = true.

Lemma typeIsPublic_fixed t :
  typeIsPublic referenceOk t = true ->
  visitNodeAndChildren_type typeChecker t = t.
Proof.
  induction t as [typeName typeArguments IH|k|e IH|types IH]
    using TypeNode_nested_ind; intros H.
  - cbn [visitNodeAndChildren_type].
    destruct typeName as [i|l r].
    + simpl in H. apply andb_true_iff in H. destruct H as (Hi & Hargs).
      rewrite (referenceOk_settled _ Hi).
      rewrite (map_fixed _ _ _ IH Hargs). reflexivity.
    + simpl in H. simpl. rewrite (map_fixed _ _ _ IH H). reflexivity.
  - reflexivity.
  - simpl in *. rewrite (IH H). reflexivity.
  - simpl in *. rewrite (map_fixed _ _ _ IH H). reflexivity.
Qed.

Lemma optionalTypeIsPublic_fixed o :
  optionalTypeIsPublic referenceOk o = true ->
  option_map (visitNodeAndChildren_type typeChecker) o = o.
Proof.
  destruct o as [t|]; simpl; [|reflexivity].
  intros H. rewrite (typeIsPublic_fixed _ H). reflexivity.
Qed.

Lemma parametersArePublic_fixed ps :
  parametersArePublic referenceOk ps = true ->
  map (visitParameter typeChecker) ps = ps.
Proof.
  apply map_fixed_all. intros [n t] H. unfold visitParameter. simpl in *.
  rewrite (optionalTypeIsPublic_fixed _ H). reflexivity.
Qed.

Lemma typeParametersArePublic_fixed ps :
  typeParametersArePublic referenceOk ps = true ->
  map (visitTypeParameter typeChecker) ps = ps.
Proof.
  apply map_fixed_all. intros [n t] H. unfold visitTypeParameter. simpl in *.
  rewrite (optionalTypeIsPublic_fixed _ H). reflexivity.
Qed.

Lemma find_none_existsb {A : Type} (f : A -> bool) l :
  existsb f l = false -> find f l = None.
Proof.
  induction l as [|x r IH]; simpl; [reflexivity|].
  destruct (f x); simpl; [discriminate | exact IH].
Qed.

Lemma memberIsPruned_fixed m :
  memberIsPruned referenceOk m = true ->
  visitNodeAndChildren_member typeChecker m = m.
Proof.
  destruct m as [decorators modifiers parameters body jsDoc|d|text tags|o];
    simpl; intros H; try reflexivity.
  - apply andb_true_iff in H. destruct H as (Htag & Hps).
    apply negb_true_iff in Htag.
    unfold visitNodeAndChildren_member, visit_member, maybeHideConstructor.
    change (fun t : JSDocTag => String.eqb (tagName t) "hideconstructor")
      with isHideConstructorTag.
    rewrite (find_none_existsb _ _ Htag). simpl.
    rewrite (parametersArePublic_fixed _ Hps). reflexivity.
  - repeat (apply andb_true_iff in H; destruct H as (H & ?)).
    apply negb_true_iff in H.
    unfold visitNodeAndChildren_member, visit_member.
    rewrite H, andb_false_r. simpl.
    rewrite typeParametersArePublic_fixed, parametersArePublic_fixed,
      optionalTypeIsPublic_fixed by assumption.
    destruct d; reflexivity.
Qed.

Lemma heritageTypes_fixed types :
  forallb (fun t => heritageOk t
                    && forallb (typeIsPublic referenceOk) (h_typeArguments t))
          types = true ->
  map (visitHeritageType typeChecker) types = types
  /\ forall node, pruneHeritageTypes typeChecker node types = Ok (types, []).
Proof.
  induction types as [|t rest IH]; simpl; intros H; [auto|].
  apply andb_true_iff in H. destruct H as (Ht & Hrest).
  apply andb_true_iff in Ht. destruct Ht as (Hexp & Hargs).
  destruct (IH Hrest) as (IH1 & IH2). split.
  - rewrite IH1. unfold visitHeritageType.
    rewrite (map_fixed_all _ _ _ typeIsPublic_fixed Hargs).
    destruct t; reflexivity.
  - intros node. rewrite (heritageOk_exported _ Hexp), IH2. reflexivity.
Qed.

Lemma heritageClauses_fixed clauses :
  forallb (heritageClauseIsPublic referenceOk heritageOk) clauses = true ->
  map (visitHeritageClause typeChecker) clauses = clauses
  /\ forall node, pruneHeritageClauses typeChecker node clauses = Ok (clauses, []).
Proof.
  induction clauses as [|c rest IH]; simpl; intros H; [auto|].
  apply andb_true_iff in H. destruct H as (Hc & Hrest).
  destruct (IH Hrest) as (IH1 & IH2).
  unfold heritageClauseIsPublic in Hc.
  destruct c as [tok [|t types]]; simpl in Hc; [discriminate|].
  destruct (heritageTypes_fixed (t :: types) Hc) as (Ht1 & Ht2). split.
  - rewrite IH1. unfold visitHeritageClause. cbn [h_types token].
    rewrite Ht1. reflexivity.
  - intros node. cbn [pruneHeritageClauses h_types token].
    rewrite Ht2, IH2. reflexivity.
Qed.

Lemma classLikeIsPruned_fixed c :
  classLikeIsPruned referenceOk heritageOk c = true ->
  pruneHeritageClauses typeChecker c (cl_heritageClauses c)
  = Ok (cl_heritageClauses c, [])
  /\ visitEachChild_classLike typeChecker
       (updateClassLike c (cl_heritageClauses c) []) = c.
Proof.
  unfold classLikeIsPruned. intros H.
  apply andb_true_iff in H. destruct H as (H & Hmembers).
  apply andb_true_iff in H. destruct H as (Htps & Hclauses).
  destruct (heritageClauses_fixed _ Hclauses) as (Hc1 & Hc2).
  split; [apply Hc2|].
  unfold visitEachChild_classLike, updateClassLike. simpl.
  rewrite app_nil_r, Hc1, (typeParametersArePublic_fixed _ Htps),
    (map_fixed_all _ _ _ memberIsPruned_fixed Hmembers).
  destruct c; reflexivity.
Qed.

Lemma alreadyPruned_fixed top node :
  alreadyPruned referenceOk heritageOk true top node = true ->
  visitNodeAndChildren_statement typeChecker node = Ok node.
Proof.
  revert top.
  induction node as [modifiers name body IH|node Hnode]
    using Statement_nested_ind; intros top H.
  - simpl in H. rewrite orb_true_r in H. simpl in H.
    apply andb_true_iff in H. destruct H as (Hexp & Hbody).
    simpl. rewrite Hexp, visitStatements_mapM.
    rewrite mapM_fixed; [reflexivity|].
    rewrite forallb_forall in Hbody. rewrite Forall_forall in IH.
    apply Forall_forall. intros x Hx. apply (IH x Hx false). apply Hbody, Hx.
  - rewrite visitNodeAndChildren_statement_eq. unfold visit_statement.
    destruct node as [c|c|ms n tps ps t|ms ds|ms n tps t|ms n body|ms n es|t|t|o];
      simpl in H; rewrite ?orb_true_r in H; simpl in H;
      try reflexivity;
      try (exfalso; eapply Hnode; reflexivity);
      repeat (apply andb_true_iff in H; destruct H as (H & ?));
      simpl; try rewrite H; simpl.
    + destruct (classLikeIsPruned_fixed c) as (Hp & Hv); [assumption|].
      rewrite Hp. simpl. rewrite Hv. reflexivity.
    + destruct (classLikeIsPruned_fixed c) as (Hp & Hv); [assumption|].
      rewrite Hp. simpl. rewrite Hv. reflexivity.
    + rewrite typeParametersArePublic_fixed, parametersArePublic_fixed,
        optionalTypeIsPublic_fixed by assumption. reflexivity.
    + rewrite (map_fixed_all (visitVariable typeChecker)
                 (fun v => optionalTypeIsPublic referenceOk (var_type v)));
        [reflexivity| |assumption].
      intros [n t] Hv. unfold visitVariable. simpl in *.
      rewrite (optionalTypeIsPublic_fixed _ Hv). reflexivity.
    + rewrite typeParametersArePublic_fixed, typeIsPublic_fixed by assumption.
      reflexivity.
    + reflexivity.
Qed.

End PrunedFixed.

Lemma referenceIsSettled_no_substitute typeChecker name :
  referenceIsSettled typeChecker name = true ->
  extractExportedSymbol typeChecker (EntityIdentifier name) = None.
Proof.
  intros H. rewrite extractExportedSymbol_substituteSearch.
  unfold referenceIsSettled in H.
  destruct (isExported typeChecker name) eqn:E; [reflexivity|].
  simpl in H. apply andb_true_iff in H. destruct H as (Hd & Ha).
  unfold substituteSearch.
  rewrite (isExported_false_sameNamed _ _ E).
  destruct (derivedExports typeChecker (escapedText name));
    [|discriminate Hd].
  destruct (exportedAncestors typeChecker name); [|discriminate Ha].
  reflexivity.
Qed.

(** C8, as the specification states it, fails, in three ways.  Each of
    the three programs meets the conditions the claim lists: the
    top-level declarations are exported, there is no hidden member and
    no hide tag, and no heritage type and no reference names a
    non-exported type of the tree.  In [NestedDeclaration] the interface
    inside the exported namespace, which has no [export] modifier of its
    own, is replaced by a placeholder.  In [AmbientBuffer] the reference
    to [Buffer], a type another package declares, is rewritten to
    [Uint8Array].  In [AmbientHeritage] the heritage clause that names
    [Buffer] is dropped. *)
Lemma pruned_as_listed_still_changes :
  (forallb (prunedAsListed NestedDeclaration.sourceFile
                           NestedDeclaration.typeChecker)
           (statements NestedDeclaration.sourceFile) = true
   /\ dropPrivateApiTransformer NestedDeclaration.typeChecker
        NestedDeclaration.sourceFile
      = Ok {| fileName := "index.d.ts";
              statements :=
                [ModuleDeclaration [ExportKeyword] "util"
                   [NotEmittedStatement
                      (InterfaceDeclaration NestedDeclaration.Helper)]] |}
   /\ dropPrivateApiTransformer NestedDeclaration.typeChecker
        NestedDeclaration.sourceFile
      <> Ok NestedDeclaration.sourceFile)
  /\ (forallb (prunedAsListed AmbientBuffer.sourceFile
                              AmbientBuffer.typeChecker)
              (statements AmbientBuffer.sourceFile) = true
      /\ declaredOutside AmbientBuffer.sourceFile AmbientBuffer.typeChecker
                         (ident "Buffer") = true
      /\ dropPrivateApiTransformer AmbientBuffer.typeChecker
           AmbientBuffer.sourceFile
         = Ok {| fileName := "index.d.ts";
                 statements :=
                   [FunctionDeclaration [ExportKeyword] (Some (ident "send")) []
                      [{| param_name := "data";
                          param_type :=
                            Some (TypeReferenceNode
                                    (EntityIdentifier
                                       (createIdentifier "Uint8Array")) []) |}]
                      (Some (KeywordTypeNode "void"))] |}
      /\ dropPrivateApiTransformer AmbientBuffer.typeChecker
           AmbientBuffer.sourceFile
         <> Ok AmbientBuffer.sourceFile)
  /\ (forallb (prunedAsListed AmbientHeritage.sourceFile
                              AmbientHeritage.typeChecker)
              (statements AmbientHeritage.sourceFile) = true
      /\ declaredOutside AmbientHeritage.sourceFile
                         AmbientHeritage.typeChecker (ident "Buffer") = true
      /\ dropPrivateApiTransformer AmbientHeritage.typeChecker
           AmbientHeritage.sourceFile
         = Ok {| fileName := "index.d.ts";
                 statements :=
                   [ClassDeclaration
                      (classNamed [ExportKeyword] "Packet" [] [])] |}
      /\ dropPrivateApiTransformer AmbientHeritage.typeChecker
           AmbientHeritage.sourceFile
         <> Ok AmbientHeritage.sourceFile).
Proof.
  repeat split; try reflexivity; discriminate.
Qed.

(** C8, amended.  When every declaration of the tree, at top level and
    inside namespaces, has the [export] modifier, no member has a name
    with the hidden prefix, no constructor has the [hideconstructor] tag,
    every heritage clause names at least one type and each of its types
    is an identifier that [isExported] accepts, and every reference with
    a simple name is settled, that is, [isExported] accepts the name or
    the name has no substitute candidate (no exported class or interface
    derives from it and its own declarations have no exported heritage
    type, as for a type parameter), the transformer returns the source
    file it was given. *)
Theorem pruning_already_pruned_tree (typeChecker : TypeChecker)
    (sourceFile : SourceFile) :
  forallb (prunedThroughout typeChecker) (statements sourceFile) = true ->
  dropPrivateApiTransformer typeChecker sourceFile = Ok sourceFile.
Proof.
  intros H. unfold dropPrivateApiTransformer.
  rewrite mapM_fixed.
  - destruct sourceFile; reflexivity.
  - rewrite forallb_forall in H. apply Forall_forall. intros node Hin.
    apply (alreadyPruned_fixed typeChecker (referenceIsSettled typeChecker)
             (isExportedHeritage typeChecker)
             (referenceIsSettled_no_substitute typeChecker)
             (fun type H => H) true).
    apply H, Hin.
Qed.

Lemma pruning_already_pruned_tree_witness :
  (forallb (prunedThroughout GenericBox.typeChecker)
           (statements GenericBox.sourceFile) = true
   /\ isExported GenericBox.typeChecker (ident "T") = false
   /\ dropPrivateApiTransformer GenericBox.typeChecker GenericBox.sourceFile
      = Ok GenericBox.sourceFile)
  /\ (forallb (prunedThroughout Pruned.typeChecker)
              (statements Pruned.sourceFile) = true
      /\ dropPrivateApiTransformer Pruned.typeChecker Pruned.sourceFile
         = Ok Pruned.sourceFile).
Proof.
  split.
  - split; [reflexivity|]. split; [reflexivity|].
    apply (pruning_already_pruned_tree GenericBox.typeChecker
             GenericBox.sourceFile).
    reflexivity.
  - split; [reflexivity|].
    apply (pruning_already_pruned_tree Pruned.typeChecker Pruned.sourceFile).
    reflexivity.
Defined.

(* ================================================================== *)
(** ** The heritage resolver *)

Lemma mapM_app {A B : Type} (f : A -> result B) l1 l2 r1 r2 :
  mapM f l1 = Ok r1 -> mapM f l2 = Ok r2 -> mapM f (l1 ++ l2) = Ok (r1 ++ r2).
Proof.
  revert r1. induction l1 as [|x r IH]; simpl; intros r1 H1 H2.
  - injection H1 as <-. exact H2.
  - apply bind_Ok_inv in H1. destruct H1 as (y & Hy & H1).
    apply bind_Ok_inv in H1. destruct H1 as (ys & Hys & H1).
    injection H1 as <-. rewrite Hy. simpl. rewrite (IH ys Hys H2). reflexivity.
Qed.

Section HeritageFacts.

Variable typeChecker : TypeChecker.
Variable node : ClassLike.

Local Abbreviation copyFrom := (copiedFrom typeChecker node).

Lemma pruneHeritageTypes_Ok types r :
  pruneHeritageTypes typeChecker node types = Ok r ->
  fst r = filter (isExportedHeritage typeChecker) types
  /\ exists lists,
      mapM copyFrom
           (filter (fun t => negb (isExportedHeritage typeChecker t)) types)
      = Ok lists
      /\ snd r = concat lists.
Proof.
  revert r. induction types as [|type rest IH]; simpl; intros r H.
  - injection H as <-. split; [reflexivity|]. exists []. auto.
  - destruct (isExportedHeritage typeChecker type); simpl.
    + apply bind_Ok_inv in H. destruct H as (r' & Hr' & H).
      injection H as <-. destruct (IH r' Hr') as (H1 & lists & H2 & H3).
      simpl. rewrite H1. split; [reflexivity|]. exists lists. auto.
    + apply bind_Ok_inv in H. destruct H as (copied & Hc & H).
      apply bind_Ok_inv in H. destruct H as (r' & Hr' & H).
      injection H as <-. destruct (IH r' Hr') as (H1 & lists & H2 & H3).
      simpl. split; [exact H1|]. exists (copied :: lists).
      unfold copiedFrom at 1. rewrite Hc. simpl. rewrite H2, H3. auto.
Qed.

Lemma pruneHeritageClauses_Ok clauses r :
  pruneHeritageClauses typeChecker node clauses = Ok r ->
  fst r = keptHeritageClauses typeChecker clauses
  /\ exists lists,
      mapM copyFrom (hiddenHeritageTypes typeChecker clauses) = Ok lists
      /\ snd r = concat lists.
Proof.
  revert r. induction clauses as [|c rest IH]; simpl; intros r H.
  - injection H as <-. split; [reflexivity|]. exists []. auto.
  - apply bind_Ok_inv in H. destruct H as (p & Hp & H).
    apply bind_Ok_inv in H. destruct H as (r' & Hr' & H).
    injection H as <-. simpl.
    destruct (pruneHeritageTypes_Ok _ _ Hp) as (P1 & l1 & P2 & P3).
    destruct (IH r' Hr') as (R1 & l2 & R2 & R3).
    split.
    + rewrite R1, P1.
      destruct (filter (isExportedHeritage typeChecker) (h_types c));
        reflexivity.
    + exists (l1 ++ l2). split.
      * apply mapM_app; assumption.
      * rewrite concat_app, P3, R3. reflexivity.
Qed.

Lemma copied_lists types lists :
  mapM copyFrom types = Ok lists ->
  forallb isCopiedNode (concat lists) = true
  /\ namedMembers (concat lists)
     = flat_map (fun type =>
                   createMissingMemberNodes node
                     (getPropertiesAtLocation typeChecker type)) types.
Proof.
  revert lists. induction types as [|t rest IH]; simpl; intros lists H.
  - injection H as <-. auto.
  - apply bind_Ok_inv in H. destruct H as (l & Hl & H).
    apply bind_Ok_inv in H. destruct H as (ls & Hls & H).
    injection H as <-. simpl.
    unfold copiedFrom in Hl.
    apply convertPropertiesForEnclosingClass_members in Hl.
    destruct Hl as (Hl1 & Hl2). destruct (IH ls Hls) as (IH1 & IH2).
    rewrite forallb_app, namedMembers_app, Hl1, IH1, Hl2, IH2. auto.
Qed.

Lemma keptHeritageClauses_exported clauses :
  Forall (fun c => h_types c <> []
                   /\ Forall (fun t => isExportedHeritage typeChecker t = true)
                             (h_types c))
         (keptHeritageClauses typeChecker clauses).
Proof.
  apply Forall_forall. intros c Hin.
  unfold keptHeritageClauses in Hin. apply in_flat_map in Hin.
  destruct Hin as (c0 & _ & Hin).
  destruct (filter (isExportedHeritage typeChecker) (h_types c0))
    as [|t ts] eqn:E; [contradiction|].
  destruct Hin as [<-|[]]. simpl. split; [discriminate|].
  rewrite <- E. apply Forall_forall. intros x Hx.
  apply filter_In in Hx. apply Hx.
Qed.

Lemma keptHeritageClauses_order clauses :
  flat_map h_types (keptHeritageClauses typeChecker clauses)
  = filter (isExportedHeritage typeChecker) (flat_map h_types clauses).
Proof.
  induction clauses as [|c rest IH]; simpl; [reflexivity|].
  rewrite filter_app, <- IH.
  destruct (filter (isExportedHeritage typeChecker) (h_types c));
    reflexivity.
Qed.

End HeritageFacts.

Lemma namedMembers_In m nodes :
  In m (namedMembers nodes) <-> In (Named m) nodes.
Proof.
  unfold namedMembers. rewrite in_flat_map. split.
  - intros (x & Hx & Hm). destruct x; simpl in Hm; try contradiction.
    destruct Hm as [->|[]]. exact Hx.
  - intros H. exists (Named m). split; [exact H | left; reflexivity].
Qed.

Lemma visitNodeAndChildren_member_named typeChecker m :
  visitNodeAndChildren_member typeChecker (Named m)
  = if isPrunableMemberKind (m_kind m) && hasPrivatePrefix (m_name m)
    then NotEmittedMember (Named m)
    else Named (withVisitedSignature typeChecker m).
Proof.
  unfold visitNodeAndChildren_member, visit_member.
  destruct (isPrunableMemberKind (m_kind m) && hasPrivatePrefix (m_name m));
    reflexivity.
Qed.

(** C3, as the specification states it, fails: in the [BaseDerived]
    program [_secret] is a member of the hidden [Base] that [Derived] does
    not declare, and the output's [Derived] has no member of this name:
    the copy is replaced by a placeholder. *)
Lemma hidden_member_not_on_subtype :
  isExportedHeritage BaseDerived.typeChecker
    {| expression := IdentifierExpression (ident "Base");
       h_typeArguments := [] |} = false
  /\ In BaseDerived.secretSymbol
        (getPropertiesAtLocation BaseDerived.typeChecker
           {| expression := IdentifierExpression (ident "Base");
              h_typeArguments := [] |})
  /\ hasMemberNamed "_secret" (cl_members BaseDerived.Derived) = false
  /\ dropPrivateApiTransformer BaseDerived.typeChecker BaseDerived.sourceFile
     = Ok {| fileName := "index.d.ts";
             statements :=
               [NotEmittedStatement (ClassDeclaration BaseDerived.Base);
                ClassDeclaration
                  (classNamed [ExportKeyword] "Derived" []
                     [NotEmittedMember
                        (Named (synthesizeMember BaseDerived.secret));
                      JSDocComment "Does ok." [];
                      Named (synthesizeMember BaseDerived.ok)])] |}
  /\ hasMemberNamed "_secret"
       [NotEmittedMember (Named (synthesizeMember BaseDerived.secret));
        JSDocComment "Does ok." [];
        Named (synthesizeMember BaseDerived.ok)] = false.
Proof.
  split; [reflexivity|]. split; [left; reflexivity|].
  split; [reflexivity|]. split; reflexivity.
Qed.

(** C3, amended.  For an exported class or interface [B] the traversal
    returns [B] with: the heritage clauses reduced to the types
    [isExported] accepts, in their order, a clause left without any type
    omitted; and, after [B]'s own members, the nodes copied from the
    dropped heritage types in their order, all of them visited like [B]'s
    own members.  The copied nodes are the missing members, each after
    its JSDoc node when it has one: every declaration of a member of a
    dropped heritage type whose name [B] does not declare is among them.
    In the output a copied property, method or get accessor whose name has
    the hidden prefix is a placeholder, and any other copied member stands
    with its name and its signature, the type nodes of the signature
    visited by the reference rewriter. *)
Theorem heritage_resolution (typeChecker : TypeChecker) (B : ClassLike) :
  documentedPerDeclaration typeChecker ->
  hasExportKeyword (cl_modifiers B) = true ->
  exists additionalMembers,
    visitNodeAndChildren_statement typeChecker (ClassDeclaration B)
    = Ok (ClassDeclaration (resolvedClassLike typeChecker B additionalMembers))
    /\ visitNodeAndChildren_statement typeChecker (InterfaceDeclaration B)
       = Ok (InterfaceDeclaration
               (resolvedClassLike typeChecker B additionalMembers))
    /\ forallb isCopiedNode additionalMembers = true
    /\ namedMembers additionalMembers = copiedMembers typeChecker B
    /\ Forall (fun c =>
                 h_types c <> []
                 /\ Forall (fun t => isExportedHeritage typeChecker t = true)
                           (h_types c))
              (keptHeritageClauses typeChecker (cl_heritageClauses B))
    /\ flat_map h_types
         (keptHeritageClauses typeChecker (cl_heritageClauses B))
       = filter (isExportedHeritage typeChecker)
                (flat_map h_types (cl_heritageClauses B))
    /\ (forall A symbol d,
           In A (hiddenHeritageTypes typeChecker (cl_heritageClauses B)) ->
           In symbol (getPropertiesAtLocation typeChecker A) ->
           existsb (String.eqb (sym_name symbol)) (declaredMemberNames B)
           = false ->
           In d (memberDeclarations symbol) ->
           In (Named (synthesizeMember d)) additionalMembers
           /\ In (visitNodeAndChildren_member typeChecker
                    (Named (synthesizeMember d)))
                 (cl_members
                    (resolvedClassLike typeChecker B additionalMembers)))
    /\ (forall m,
           visitNodeAndChildren_member typeChecker (Named m)
           = if isPrunableMemberKind (m_kind m) && hasPrivatePrefix (m_name m)
             then NotEmittedMember (Named m)
             else Named (withVisitedSignature typeChecker m)).
Proof.
  intros Hdoc Hexp.
  destruct (pruneHeritageClauses_total typeChecker Hdoc B (cl_heritageClauses B))
    as (r & Hr).
  destruct (pruneHeritageClauses_Ok _ _ _ _ Hr) as (Hkept & lists & Hcopy & Hsnd).
  destruct (copied_lists _ _ _ _ Hcopy) as (Hnodes & Hnamed).
  exists (snd r).
  assert (Hshape : visitEachChild_classLike typeChecker
                     (updateClassLike B (fst r) (snd r))
                   = resolvedClassLike typeChecker B (snd r)).
  { unfold visitEachChild_classLike, updateClassLike, resolvedClassLike.
    simpl. rewrite Hkept, map_app. reflexivity. }
  split; [|split; [|split; [|split; [|split; [|split; [|split]]]]]].
  - rewrite visitNodeAndChildren_statement_eq. unfold visit_statement.
    simpl. rewrite Hexp. simpl. rewrite Hr. simpl. rewrite Hshape. reflexivity.
  - rewrite visitNodeAndChildren_statement_eq. unfold visit_statement.
    simpl. rewrite Hexp. simpl. rewrite Hr. simpl. rewrite Hshape. reflexivity.
  - rewrite Hsnd. exact Hnodes.
  - rewrite Hsnd. exact Hnamed.
  - apply keptHeritageClauses_exported.
  - apply keptHeritageClauses_order.
  - intros A symbol d HA Hsym Hmissing Hd.
    assert (Hin : In (Named (synthesizeMember d)) (snd r)).
    { apply namedMembers_In. rewrite Hsnd, Hnamed.
      apply in_flat_map. exists A. split; [exact HA|].
      unfold createMissingMemberNodes. apply in_flat_map.
      exists symbol. split; [exact Hsym|]. rewrite Hmissing.
      apply in_map. exact Hd. }
    split; [exact Hin|]. simpl. apply in_or_app. right.
    apply in_map. exact Hin.
  - apply visitNodeAndChildren_member_named.
Qed.

Lemma heritage_resolution_witness :
  documentedPerDeclaration BaseDerived.typeChecker
  /\ hasExportKeyword (cl_modifiers BaseDerived.Derived) = true
  /\ exists additionalMembers,
      visitNodeAndChildren_statement BaseDerived.typeChecker
        (ClassDeclaration BaseDerived.Derived)
      = Ok (ClassDeclaration
              (resolvedClassLike BaseDerived.typeChecker BaseDerived.Derived
                 additionalMembers))
      /\ In (Named (synthesizeMember BaseDerived.ok)) additionalMembers.
Proof.
  assert (Hdoc : documentedPerDeclaration BaseDerived.typeChecker).
  { apply tableChecker_documented. reflexivity. }
  split; [exact Hdoc|]. split; [reflexivity|].
  destruct (heritage_resolution BaseDerived.typeChecker BaseDerived.Derived
              Hdoc eq_refl)
    as (additionalMembers & Hclass & _ & _ & _ & _ & _ & Hcopied & _).
  exists additionalMembers. split; [exact Hclass|].
  apply (Hcopied {| expression := IdentifierExpression (ident "Base");
                    h_typeArguments := [] |}
                 BaseDerived.okSymbol BaseDerived.ok).
  - left. reflexivity.
  - right. left. reflexivity.
  - reflexivity.
  - left. reflexivity.
Defined.

(* ================================================================== *)
(** * Further properties *)

(** ** Where a substitute comes from *)

(** X1. A substitute is found in one of two ways only.  Either it is an
    exported symbol with a class or interface declaration that has a
    heritage identifier of the hidden name, and then its own name is not
    the hidden name: the loop over the exports that looks for a symbol of
    the same name never returns, since [isExported] has already answered
    for such a name.  Or the hidden name resolves to a symbol whose
    declarations have a heritage identifier that [isExported] accepts,
    and the substitute is what the checker resolves that identifier to. *)
Theorem substitute_provenance (typeChecker : TypeChecker)
    (typeName : Identifier) (publicName : Symbol) :
  extractExportedSymbol typeChecker (EntityIdentifier typeName)
  = Some publicName ->
  isExported typeChecker typeName = false
  /\ find (fun symbol => String.eqb (sym_name symbol) (escapedText typeName))
          (getExportsOfModule typeChecker) = None
  /\ ((In publicName (getExportsOfModule typeChecker)
       /\ extendsLocal (escapedText typeName) publicName = true
       /\ sym_name publicName <> escapedText typeName)
      \/ (derivedExports typeChecker (escapedText typeName) = []
          /\ exists localSymbol type,
              getSymbolAtLocation typeChecker typeName = Some localSymbol
              /\ In type (heritageIdentifiersOf localSymbol)
              /\ isExported typeChecker type = true
              /\ getSymbolAtLocation typeChecker type = Some publicName)).
Proof.
  intros H. unfold extractExportedSymbol in H.
  destruct (isExported typeChecker typeName) eqn:E; [discriminate H|].
  split; [reflexivity|].
  assert (Hsame : find (fun symbol =>
                          String.eqb (sym_name symbol) (escapedText typeName))
                       (getExportsOfModule typeChecker) = None).
  { rewrite find_filter.
    change (filter _ (getExportsOfModule typeChecker))
      with (sameNamedExports typeChecker (escapedText typeName)).
    rewrite (isExported_false_sameNamed _ _ E). reflexivity. }
  split; [exact Hsame|]. rewrite Hsame in H.
  destruct (find (extendsLocal (escapedText typeName))
                 (getExportsOfModule typeChecker)) as [s|] eqn:Hd.
  - injection H as <-. left. apply find_some in Hd. destruct Hd as (Hin & Hext).
    split; [exact Hin|]. split; [exact Hext|].
    intros Hname. eapply find_none in Hsame; [|exact Hin].
    apply String.eqb_neq in Hsame. contradiction.
  - right. split.
    { unfold derivedExports. rewrite find_filter in Hd.
      destruct (filter _ _); [reflexivity | discriminate Hd]. }
    destruct (getSymbolAtLocation typeChecker typeName) as [localSymbol|];
      [|discriminate H].
    destruct (find (isExported typeChecker) (heritageIdentifiersOf localSymbol))
      as [type|] eqn:Ht; [|discriminate H].
    apply find_some in Ht. destruct Ht as (Hin & Hexp).
    exists localSymbol, type. auto.
Qed.

Lemma substitute_provenance_witness :
  extractExportedSymbol PublicFoo.typeChecker
    (EntityIdentifier (ident "PrivateFoo")) = Some PublicFoo.PublicFooSymbol
  /\ sym_name PublicFoo.PublicFooSymbol <> "PrivateFoo".
Proof.
  split; [reflexivity|].
  destruct (substitute_provenance PublicFoo.typeChecker (ident "PrivateFoo")
              PublicFoo.PublicFooSymbol eq_refl)
    as (_ & _ & [(_ & _ & Hname)|(Hnone & _)]).
  - exact Hname.
  - discriminate Hnone.
Defined.

(** ** References that are not rewritten twice *)

Lemma substitute_exported_or_ancestor typeChecker typeName publicName :
  extractExportedSymbol typeChecker (EntityIdentifier typeName)
  = Some publicName ->
  In publicName (getExportsOfModule typeChecker)
  \/ derivedExports typeChecker (escapedText typeName) = [].
Proof.
  intros H. rewrite extractExportedSymbol_substituteSearch in H.
  destruct (isExported typeChecker typeName) eqn:E; [discriminate H|].
  unfold substituteSearch in H.
  rewrite (isExported_false_sameNamed _ _ E) in H. simpl in H.
  destruct (derivedExports typeChecker (escapedText typeName)) as [|s rest] eqn:Hd.
  - right. reflexivity.
  - left. injection H as <-.
    assert (Hin : In s (derivedExports typeChecker (escapedText typeName))).
    { rewrite Hd. left. reflexivity. }
    unfold derivedExports in Hin. apply filter_In in Hin. apply Hin.
Qed.

Lemma isExported_export_name typeChecker symbol position :
  In symbol (getExportsOfModule typeChecker) ->
  isExported typeChecker {| escapedText := sym_name symbol; pos := position |}
  = true.
Proof.
  intros Hin. apply isExported_iff. left. exists symbol. auto.
Qed.

(** X2. An identifier with the name of an exported symbol is accepted by
    [isExported] wherever it stands, so a reference to an exported symbol
    is returned by [visit] as it is.  Hence a reference that [visit] has
    rewritten to an exported class or interface deriving from the hidden
    name is not rewritten again: on a reference whose hidden name some
    exported symbol derives from, [visit] twice is [visit] once. *)
Theorem rewritten_reference_is_stable (typeChecker : TypeChecker)
    (typeName : Identifier) (typeArguments : list TypeNode) :
  derivedExports typeChecker (escapedText typeName) <> [] ->
  let node := TypeReferenceNode (EntityIdentifier typeName) typeArguments in
  (forall publicName arguments,
      In publicName (getExportsOfModule typeChecker) ->
      visit_type typeChecker (referenceTo publicName arguments)
      = referenceTo publicName arguments)
  /\ visit_type typeChecker (visit_type typeChecker node)
     = visit_type typeChecker node.
Proof.
  intros Hderived node.
  assert (Hstable : forall publicName arguments,
             In publicName (getExportsOfModule typeChecker) ->
             visit_type typeChecker (referenceTo publicName arguments)
             = referenceTo publicName arguments).
  { intros publicName arguments Hin. unfold referenceTo, visit_type.
    rewrite isExported_no_substitute; [reflexivity|].
    apply isExported_export_name. exact Hin. }
  split; [exact Hstable|].
  assert (Hv : visit_type typeChecker node
               = match extractExportedSymbol typeChecker
                         (EntityIdentifier typeName) with
                 | Some publicName => referenceTo publicName typeArguments
                 | None => node
                 end) by reflexivity.
  rewrite Hv.
  destruct (extractExportedSymbol typeChecker (EntityIdentifier typeName))
    as [publicName|] eqn:E.
  - apply substitute_exported_or_ancestor in E.
    destruct E as [Hin|Hnone]; [|contradiction].
    apply (Hstable publicName typeArguments Hin).
  - exact Hv.
Qed.

Lemma rewritten_reference_is_stable_witness :
  derivedExports PublicFoo.typeChecker "PrivateFoo" <> []
  /\ visit_type PublicFoo.typeChecker
       (visit_type PublicFoo.typeChecker (reference "PrivateFoo"))
     = TypeReferenceNode (EntityIdentifier (createIdentifier "PublicFoo")) [].
Proof.
  assert (H : derivedExports PublicFoo.typeChecker "PrivateFoo" <> [])
    by discriminate.
  split; [exact H|].
  destruct (rewritten_reference_is_stable PublicFoo.typeChecker
              (ident "PrivateFoo") [] H) as (_ & Htwice).
  exact (eq_trans Htwice eq_refl).
Defined.

(** ** The structure of type nodes *)

(** X3. The traversal of a type node changes type names and nothing
    else: with the names erased, the visited node is the node.  References
    keep the number and the structure of their type arguments, arrays stay
    arrays, unions keep their members in order, keywords stay. *)
Theorem type_traversal_keeps_structure (typeChecker : TypeChecker)
    (node : TypeNode) :
  eraseTypeNames (visitNodeAndChildren_type typeChecker node)
  = eraseTypeNames node.
Proof.
  induction node as [typeName typeArguments IH|k|e IH|types IH]
    using TypeNode_nested_ind.
  - cbn [visitNodeAndChildren_type].
    assert (Hargs : map eraseTypeNames
                      (map (visitNodeAndChildren_type typeChecker) typeArguments)
                    = map eraseTypeNames typeArguments).
    { rewrite map_map. apply map_ext_Forall. exact IH. }
    destruct (extractExportedSymbol typeChecker typeName); simpl;
      rewrite Hargs; reflexivity.
  - reflexivity.
  - simpl. rewrite IH. reflexivity.
  - simpl. rewrite map_map. f_equal. apply map_ext_Forall. exact IH.
Qed.

(** ** Visiting a member twice *)

(** X7. [maybeHideConstructor] and [visit] at a member are idempotent: the
    constructor that replaces a hidden one has no JSDoc and so no tag, a
    placeholder is not a member of a kind [visit] tests, and a member that
    was kept is kept again. *)
Theorem visit_member_idempotent (node : Member) :
  maybeHideConstructor (maybeHideConstructor node) = maybeHideConstructor node
  /\ visit_member (visit_member node) = visit_member node.
Proof.
  destruct node as [decorators modifiers parameters body jsDoc|m|text tags|o].
  - unfold visit_member.
    assert (H : maybeHideConstructor
                  (maybeHideConstructor
                     (ConstructorDeclaration decorators modifiers parameters
                        body jsDoc))
                = maybeHideConstructor
                    (ConstructorDeclaration decorators modifiers parameters
                       body jsDoc)).
    { simpl. destruct (find _ jsDoc) as [tag|] eqn:E.
      - reflexivity.
      - simpl. rewrite E. reflexivity. }
    split; [exact H|].
    simpl. simpl in H. destruct (find _ jsDoc) as [tag|]; exact H.
  - split; [reflexivity|]. unfold visit_member.
    destruct (isPrunableMemberKind (m_kind m) && hasPrivatePrefix (m_name m))
      eqn:E; [reflexivity|]. rewrite E. reflexivity.
  - split; reflexivity.
  - split; reflexivity.
Qed.

(** ** What a run does to the outside world *)



(** ** Pruning heritage twice *)

Lemma pruneHeritageTypes_exported typeChecker node types :
  forallb (isExportedHeritage typeChecker) types = true ->
  pruneHeritageTypes typeChecker node types = Ok (types, []).
Proof.
  induction types as [|t rest IH]; simpl; intros H; [reflexivity|].
  apply andb_true_iff in H. destruct H as (Ht & Hrest).
  rewrite Ht, (IH Hrest). reflexivity.
Qed.

Lemma pruneHeritageClauses_kept typeChecker node clauses :
  pruneHeritageClauses typeChecker node
    (keptHeritageClauses typeChecker clauses)
  = Ok (keptHeritageClauses typeChecker clauses, []).
Proof.
  induction clauses as [|c rest IH]; [reflexivity|].
  cbn [keptHeritageClauses flat_map].
  fold (keptHeritageClauses typeChecker rest).
  destruct (filter (isExportedHeritage typeChecker) (h_types c))
    as [|t ts] eqn:E; [exact IH|].
  cbn [app pruneHeritageClauses h_types token].
  rewrite pruneHeritageTypes_exported.
  - cbn [bind]. rewrite IH. reflexivity.
  - rewrite <- E. apply forallb_forall. intros x Hx.
    apply filter_In in Hx. apply Hx.
Qed.

(** X4. [prunePrivateImports] applied to what it returned returns it
    again: the clauses it kept hold exported types only, so the second
    pass drops no heritage type, asks the checker for no member and adds
    none. *)
Theorem prunePrivateImports_idempotent (typeChecker : TypeChecker)
    (node pruned : Statement) :
  prunePrivateImports typeChecker node = Ok pruned ->
  prunePrivateImports typeChecker pruned = Ok pruned.
Proof.
  intros H.
  destruct node as [c|c|? ? ? ? ?|? ?|? ? ? ?|? ? ?|? ? ?|?|?|?];
    try discriminate H; simpl in H;
    apply bind_Ok_inv in H; destruct H as (r & Hr & H); injection H as <-;
    destruct (pruneHeritageClauses_Ok _ _ _ _ Hr) as (Hkept & _);
    simpl; rewrite Hkept, pruneHeritageClauses_kept; simpl;
    unfold updateClassLike; simpl; rewrite app_nil_r; reflexivity.
Qed.

Lemma prunePrivateImports_idempotent_witness :
  prunePrivateImports BaseDerived.typeChecker
    (ClassDeclaration BaseDerived.Derived)
  = Ok (ClassDeclaration
          (classNamed [ExportKeyword] "Derived" []
             [Named (synthesizeMember BaseDerived.secret);
              JSDocComment "Does ok." [];
              Named (synthesizeMember BaseDerived.ok)]))
  /\ prunePrivateImports BaseDerived.typeChecker
       (ClassDeclaration
          (classNamed [ExportKeyword] "Derived" []
             [Named (synthesizeMember BaseDerived.secret);
              JSDocComment "Does ok." [];
              Named (synthesizeMember BaseDerived.ok)]))
     = Ok (ClassDeclaration
             (classNamed [ExportKeyword] "Derived" []
                [Named (synthesizeMember BaseDerived.secret);
                 JSDocComment "Does ok." [];
                 Named (synthesizeMember BaseDerived.ok)])).
Proof.
  split; [reflexivity|].
  apply (prunePrivateImports_idempotent BaseDerived.typeChecker
           (ClassDeclaration BaseDerived.Derived)).
  reflexivity.
Defined.

(** ** The list of copied nodes *)

Lemma docsPrecedeMembers_app l1 l2 :
  docsPrecedeMembers l1 = true -> docsPrecedeMembers l2 = true ->
  docsPrecedeMembers (l1 ++ l2) = true.
Proof.
  intros H1 H2.
  assert (Hn : forall n l, List.length l <= n ->
                 docsPrecedeMembers l = true ->
                 docsPrecedeMembers (l ++ l2) = true).
  { induction n as [|n IH]; intros l Hlen Hl.
    - destruct l; [exact H2 | simpl in Hlen; lia].
    - destruct l as [|x rest]; [exact H2|].
      destruct x as [? ? ? ? ?|m|text tags|o]; simpl in Hl; try discriminate.
      + simpl. apply IH; [simpl in Hlen; lia | exact Hl].
      + destruct rest as [|y rest']; [discriminate|].
        destruct y as [? ? ? ? ?|m|text' tags'|o]; try discriminate.
        simpl. apply IH; [simpl in Hlen; lia | exact Hl]. }
  apply (Hn (List.length l1) l1 (le_n _) H1).
Qed.

Lemma foldM_docsPrecedeMembers symbols missing acc r :
  foldM (addMissingMember symbols) missing acc = Ok r ->
  docsPrecedeMembers acc = true ->
  docsPrecedeMembers r = true
  /\ List.length r <= List.length acc + 2 * List.length missing.
Proof.
  revert acc. induction missing as [|x rest IH]; intros acc H Hacc; simpl in H.
  - injection H as <-. split; [exact Hacc | lia].
  - apply bind_Ok_inv in H. destruct H as (acc' & Hstep & H).
    apply addMissingMember_Ok in Hstep.
    assert (Hacc' : docsPrecedeMembers acc' = true
                    /\ List.length acc' <= List.length acc + 2).
    { destruct Hstep as [->|(text & tags & ->)]; rewrite length_app; simpl;
        (split; [apply docsPrecedeMembers_app; [exact Hacc | reflexivity] | lia]). }
    destruct Hacc' as (Hd & Hl). destruct (IH acc' H Hd) as (Hd' & Hl').
    split; [exact Hd'|]. simpl. lia.
Qed.

(** X5. In the list [convertPropertiesForEnclosingClass] returns, every
    JSDoc node is directly followed by a member: no comment is left
    dangling at the end or stacked on another comment, and the list holds
    nothing but JSDoc nodes and members.  The members are the missing
    members in their order, and there are at most as many JSDoc nodes as
    members. *)
Theorem copied_documentation_is_attached (parentClassSymbols : list Symbol)
    (currentClass : ClassLike) (newMembers : list Member) :
  convertPropertiesForEnclosingClass parentClassSymbols currentClass
  = Ok newMembers ->
  docsPrecedeMembers newMembers = true
  /\ namedMembers newMembers
     = createMissingMemberNodes currentClass parentClassSymbols
  /\ List.length (filter isJSDocComment newMembers)
     <= List.length (namedMembers newMembers).
Proof.
  intros H.
  destruct (foldM_docsPrecedeMembers parentClassSymbols _ [] newMembers H
              eq_refl) as (Hdocs & _).
  destruct (convertPropertiesForEnclosingClass_members _ _ _ H) as (_ & Hnamed).
  split; [exact Hdocs|]. split; [exact Hnamed|].
  clear H Hnamed.
  assert (Hn : forall n l, List.length l <= n ->
                 docsPrecedeMembers l = true ->
                 List.length (filter isJSDocComment l)
                 <= List.length (namedMembers l)).
  { induction n as [|n IH]; intros l Hlen Hl.
    - destruct l; [simpl; lia | simpl in Hlen; lia].
    - destruct l as [|x rest]; [simpl; lia|].
      destruct x as [? ? ? ? ?|m|text tags|o]; simpl in Hl; try discriminate.
      + simpl. specialize (IH rest). simpl in Hlen.
        assert (List.length rest <= n) by lia. specialize (IH H Hl). lia.
      + destruct rest as [|y rest']; [discriminate|].
        destruct y as [? ? ? ? ?|m|text' tags'|o]; try discriminate.
        simpl. specialize (IH rest'). simpl in Hlen.
        assert (List.length rest' <= n) by lia. specialize (IH H Hl). lia. }
  apply (Hn (List.length newMembers) newMembers (le_n _) Hdocs).
Qed.

Lemma copied_documentation_is_attached_witness :
  convertPropertiesForEnclosingClass [Overloads.readSymbol] Overloads.FileReader
  = Ok [JSDocComment "Reads one." [];
        Named (synthesizeMember Overloads.readString);
        Named (synthesizeMember Overloads.readNumber)]
  /\ docsPrecedeMembers
       [JSDocComment "Reads one." [];
        Named (synthesizeMember Overloads.readString);
        Named (synthesizeMember Overloads.readNumber)] = true.
Proof.
  split; [reflexivity|].
  apply (copied_documentation_is_attached [Overloads.readSymbol]
           Overloads.FileReader).
  reflexivity.
Defined.

(** ** The blocks of a documentation comment *)

Lemma documentationBlocks_concat parts :
  concat (documentationBlocks parts)
  = filter (fun p => negb (isLineBreak p)) parts.
Proof.
  induction parts as [|p rest IH]; simpl; [reflexivity|].
  unfold isLineBreak at 1.
  destruct (String.eqb (part_kind p) "lineBreak"); simpl; [exact IH|].
  destruct (documentationBlocks rest) as [|b bs]; simpl in *.
  - rewrite <- IH. reflexivity.
  - rewrite <- IH. reflexivity.
Qed.

Lemma documentationBlocks_length parts :
  List.length (documentationBlocks parts) = S (lineBreaks parts).
Proof.
  unfold lineBreaks. induction parts as [|p rest IH]; simpl; [reflexivity|].
  destruct (String.eqb (part_kind p) "lineBreak"); simpl.
  - rewrite IH. reflexivity.
  - destruct (documentationBlocks rest) as [|b bs]; simpl in *; [discriminate IH|].
    exact IH.
Qed.

Lemma map_nth_seq {A : Type} (l : list A) (d : A) :
  map (fun n => nth n l d) (seq 0 (List.length l)) = l.
Proof.
  induction l as [|x r IH]; simpl; [reflexivity|].
  f_equal. rewrite <- seq_shift, map_map. exact IH.
Qed.

(** X12. The filter of [extractJSDocComment] cuts the documentation of a
    symbol at its line breaks: taken over the overload indices from zero
    to the number of line breaks, the selected parts are, in order, all
    the parts that are not line breaks, so that no part is attributed to
    two overloads and none is lost; an index beyond the number of line
    breaks selects nothing. *)
Theorem overload_comments_partition (parts : list SymbolDisplayPart) :
  concat (map (fun overloadCount => overloadComments overloadCount 0 parts)
              (seq 0 (S (lineBreaks parts))))
  = filter (fun p => negb (isLineBreak p)) parts
  /\ (forall overloadCount,
         lineBreaks parts < overloadCount ->
         overloadComments overloadCount 0 parts = []).
Proof.
  split.
  - rewrite <- documentationBlocks_concat, <- documentationBlocks_length.
    f_equal.
    rewrite <- (map_nth_seq (documentationBlocks parts) []) at 2.
    apply map_ext. intros n. rewrite overloadComments_block, Nat.sub_0_r.
    reflexivity.
  - intros n Hn. rewrite overloadComments_block, Nat.sub_0_r. simpl.
    apply nth_overflow. rewrite documentationBlocks_length. lia.
Qed.

Lemma overload_comments_partition_witness :
  lineBreaks (sym_documentation OutOfRange.readSymbol) < 2
  /\ overloadComments 2 0 (sym_documentation OutOfRange.readSymbol) = [].
Proof.
  split; [vm_compute; lia|].
  apply (proj2 (overload_comments_partition
                  (sym_documentation OutOfRange.readSymbol))).
  vm_compute. lia.
Defined.

(** ** Comments copied verbatim *)

Lemma replace_absent pat rep s :
  occursIn pat s = false -> replace pat rep s = s.
Proof.
  induction s as [|c s' IH]; simpl; intros H.
  - apply orb_false_iff in H. destruct H as (H & _). rewrite H. reflexivity.
  - apply orb_false_iff in H. destruct H as (H1 & H2).
    rewrite H1, (IH H2). reflexivity.
Qed.

(** X13. The three replacements of [extractJSDocComment] leave a comment
    alone that has no asterisk and no space next to a line break: the
    text of the JSDoc node is then the parts joined as they are, link
    texts trimmed. *)
Theorem comment_copied_verbatim (comments : list SymbolDisplayPart) :
  occursIn "*" (joinedComments comments) = false ->
  occursIn (String.append " " newline) (joinedComments comments) = false ->
  occursIn (String.append newline " ") (joinedComments comments) = false ->
  formatComments comments = joinedComments comments.
Proof.
  intros Hstar Hbefore Hafter. unfold formatComments.
  fold (joinedComments comments).
  rewrite (replace_absent _ _ _ Hstar), (replace_absent _ _ _ Hbefore),
    (replace_absent _ _ _ Hafter).
  reflexivity.
Qed.

(** A link text between a no-break space (U+00A0) and a paragraph
    separator (U+2029) is trimmed of both. *)
Lemma comment_copied_verbatim_witness :
  formatComments [{| part_kind := "text"; part_text := "See " |};
                  {| part_kind := "linkText"; part_text := " runTransaction " |};
                  {| part_kind := "text"; part_text := " and " |};
                  {| part_kind := "linkText";
                     part_text :=
                       String.append (ofBytes [194; 160])
                         (String.append "getAll" (ofBytes [226; 128; 169])) |};
                  {| part_kind := "text"; part_text := "." |}]
  = "See runTransaction and getAll.".
Proof.
  apply (comment_copied_verbatim
           [{| part_kind := "text"; part_text := "See " |};
            {| part_kind := "linkText"; part_text := " runTransaction " |};
            {| part_kind := "text"; part_text := " and " |};
            {| part_kind := "linkText";
               part_text :=
                 String.append (ofBytes [194; 160])
                   (String.append "getAll" (ofBytes [226; 128; 169])) |};
            {| part_kind := "text"; part_text := "." |}]);
    reflexivity.
Defined.

(** ** Invariants of the whole output *)

Lemma traversal_not_module typeChecker node out :
  (forall modifiers name body, node <> ModuleDeclaration modifiers name body) ->
  visitNodeAndChildren_statement typeChecker node = Ok out ->
  forall modifiers name body, out <> ModuleDeclaration modifiers name body.
Proof.
  intros Hnode H. rewrite visitNodeAndChildren_statement_eq in H.
  apply bind_Ok_inv in H. destruct H as (visited & Hv & H).
  pose proof (@visit_statement_not_module typeChecker _ _ Hnode Hv) as Hnm.
  destruct visited; simpl in H; try (injection H as <-; discriminate).
  exfalso. eapply Hnm. reflexivity.
Qed.

Lemma Forall2_Forall_forallb {A B : Type} (R : A -> B -> Prop)
    (q : B -> bool) l l' :
  Forall2 R l l' ->
  Forall (fun x => forall y, R x y -> q y = true) l ->
  forallb q l' = true.
Proof.
  induction 1 as [|x y l l' Hxy _ IH]; intros Hall; [reflexivity|].
  inversion Hall as [|? ? Hx Hrest]; subst. simpl.
  rewrite (Hx y Hxy), (IH Hrest). reflexivity.
Qed.

(** A property of statements that the traversal establishes at every
    statement it returns holds through the whole output. *)
Lemma everyStatement_output typeChecker (p : Statement -> bool) :
  (forall node out,
      visitNodeAndChildren_statement typeChecker node = Ok out -> p out = true) ->
  forall node out,
    visitNodeAndChildren_statement typeChecker node = Ok out ->
    everyStatement p out = true.
Proof.
  intros Hp node.
  induction node as [modifiers name body IH|node Hnode]
    using Statement_nested_ind; intros out H.
  - pose proof (Hp _ _ H) as Hout. simpl in H.
    rewrite visitStatements_mapM in H.
    destruct (hasExportKeyword modifiers).
    + apply bind_Ok_inv in H. destruct H as (body' & Hbody & H).
      injection H as <-. simpl. simpl in Hout. rewrite Hout. simpl.
      apply mapM_Forall2 in Hbody.
      apply (Forall2_Forall_forallb _ _ _ _ Hbody). exact IH.
    + injection H as <-. simpl. rewrite andb_true_r. exact Hout.
  - pose proof (Hp _ _ H) as Hout.
    pose proof (traversal_not_module _ _ _ Hnode H) as Hnm.
    destruct out; simpl; rewrite ?andb_true_r; try exact Hout.
    exfalso. eapply Hnm. reflexivity.
Qed.

Lemma everyStatement_transformer typeChecker (p : Statement -> bool) :
  (forall node out,
      visitNodeAndChildren_statement typeChecker node = Ok out -> p out = true) ->
  forall sourceFile out,
    dropPrivateApiTransformer typeChecker sourceFile = Ok out ->
    forallb (everyStatement p) (statements out) = true.
Proof.
  intros Hp sourceFile out H. unfold dropPrivateApiTransformer in H.
  apply bind_Ok_inv in H. destruct H as (stmts & Hmap & H).
  injection H as <-. simpl. apply mapM_Forall2 in Hmap.
  apply (Forall2_Forall_forallb _ _ _ _ Hmap).
  apply Forall_forall. intros node _ out' Hout'.
  apply (everyStatement_output typeChecker p Hp node out' Hout').
Qed.

(** The class or interface the traversal returns. *)
Lemma traversal_classLike typeChecker node out :
  visitNodeAndChildren_statement typeChecker node = Ok out ->
  isClassOrInterface out = true ->
  exists c r,
    (node = ClassDeclaration c \/ node = InterfaceDeclaration c)
    /\ pruneHeritageClauses typeChecker c (cl_heritageClauses c) = Ok r
    /\ (out = ClassDeclaration
                (visitEachChild_classLike typeChecker
                   (updateClassLike c (fst r) (snd r)))
        \/ out = InterfaceDeclaration
                   (visitEachChild_classLike typeChecker
                      (updateClassLike c (fst r) (snd r)))).
Proof.
  intros H Hout. rewrite visitNodeAndChildren_statement_eq in H.
  unfold visit_statement in H.
  destruct (isDeclaration node && negb (hasExportKeyword (modifiersOf node))).
  - simpl in H. injection H as <-. discriminate Hout.
  - destruct node as [c|c|? ? ? ? ?|? ?|? ? ? ?|? ? ?|? ? ?|?|?|?]; simpl in H.
    + destruct (pruneHeritageClauses typeChecker c (cl_heritageClauses c))
        as [r|e] eqn:Hr; simpl in H; [|discriminate H].
      injection H as <-. exists c, r. auto.
    + destruct (pruneHeritageClauses typeChecker c (cl_heritageClauses c))
        as [r|e] eqn:Hr; simpl in H; [|discriminate H].
      injection H as <-. exists c, r. auto.
    + injection H as <-. discriminate Hout.
    + injection H as <-. discriminate Hout.
    + injection H as <-. discriminate Hout.
    + destruct (mapM _ _); simpl in H; [|discriminate H].
      injection H as <-. discriminate Hout.
    + injection H as <-. discriminate Hout.
    + injection H as <-. discriminate Hout.
    + injection H as <-. discriminate Hout.
    + injection H as <-. discriminate Hout.
Qed.

(** X9. In the tree the transformer returns, every class, interface,
    function, variable statement, type alias, namespace and enum has the
    [export] modifier, at top level and at every depth inside namespaces:
    the export test is applied to each node the traversal reaches, and a
    declaration without the modifier is a placeholder wherever it
    stands. *)
Theorem output_declarations_exported (typeChecker : TypeChecker)
    (sourceFile out : SourceFile) :
  dropPrivateApiTransformer typeChecker sourceFile = Ok out ->
  forallb (everyStatement declarationIsExported) (statements out) = true.
Proof.
  apply everyStatement_transformer. intros node out' H.
  apply visitNodeAndChildren_statement_cases in H.
  unfold declarationIsExported.
  destruct (isDeclaration node && negb (hasExportKeyword (modifiersOf node)))
    eqn:E.
  - subst out'. reflexivity.
  - destruct H as (Hd & Hm). rewrite Hd, Hm.
    destruct (isDeclaration node); simpl in *; [|reflexivity].
    apply negb_false_iff in E. exact E.
Qed.

Lemma output_declarations_exported_witness :
  dropPrivateApiTransformer NestedDeclaration.typeChecker
    NestedDeclaration.sourceFile
  = Ok {| fileName := "index.d.ts";
          statements :=
            [ModuleDeclaration [ExportKeyword] "util"
               [NotEmittedStatement
                  (InterfaceDeclaration NestedDeclaration.Helper)]] |}
  /\ forallb (everyStatement declarationIsExported)
       [ModuleDeclaration [ExportKeyword] "util"
          [NotEmittedStatement
             (InterfaceDeclaration NestedDeclaration.Helper)]] = true.
Proof.
  split; [reflexivity|].
  apply (output_declarations_exported NestedDeclaration.typeChecker
           NestedDeclaration.sourceFile
           {| fileName := "index.d.ts";
              statements :=
                [ModuleDeclaration [ExportKeyword] "util"
                   [NotEmittedStatement
                      (InterfaceDeclaration NestedDeclaration.Helper)]] |}).
  reflexivity.
Defined.




Lemma isExportedHeritage_visited typeChecker t :
  isExportedHeritage typeChecker (visitHeritageType typeChecker t)
  = isExportedHeritage typeChecker t.
Proof. reflexivity. Qed.

(** X11. In every class and interface of the tree the transformer
    returns, at any depth, every heritage clause names at least one type
    and every heritage type is an identifier that [isExported] accepts:
    no clause is left empty and no heritage type that was found hidden is
    left behind. *)
Theorem output_heritage_exported (typeChecker : TypeChecker)
    (sourceFile out : SourceFile) :
  dropPrivateApiTransformer typeChecker sourceFile = Ok out ->
  forallb (everyStatement (heritageIsExported typeChecker)) (statements out)
  = true.
Proof.
  apply everyStatement_transformer. intros node out' H.
  destruct (isClassOrInterface out') eqn:Hc.
  - destruct (traversal_classLike _ _ _ H Hc) as (c & r & _ & Hr & Hout).
    destruct (pruneHeritageClauses_Ok _ _ _ _ Hr) as (Hkept & _).
    assert (Hgoal : forallb
              (fun clause =>
                 match h_types clause with
                 | [] => false
                 | types => forallb (isExportedHeritage typeChecker) types
                 end)
              (map (visitHeritageClause typeChecker) (fst r)) = true).
    { rewrite Hkept. apply forallb_forall. intros clause Hin.
      apply in_map_iff in Hin. destruct Hin as (c0 & <- & Hin).
      pose proof (keptHeritageClauses_exported typeChecker
                    (cl_heritageClauses c)) as Hall.
      rewrite Forall_forall in Hall. destruct (Hall c0 Hin) as (Hne & Hexp).
      unfold visitHeritageClause. cbn [h_types].
      destruct (h_types c0) as [|t ts]; [contradiction|].
      cbn [map]. rewrite <- map_cons. apply forallb_forall. intros x Hx.
      apply in_map_iff in Hx. destruct Hx as (x0 & <- & Hx0).
      rewrite isExportedHeritage_visited.
      rewrite Forall_forall in Hexp. apply Hexp. exact Hx0. }
    destruct Hout as [-> | ->]; exact Hgoal.
  - destruct out'; try reflexivity; discriminate Hc.
Qed.

Lemma output_heritage_exported_witness :
  dropPrivateApiTransformer PublicFoo.typeChecker PublicFoo.sourceFile
  = Ok {| fileName := "index.d.ts";
          statements :=
            [NotEmittedStatement (ClassDeclaration PublicFoo.PrivateFoo);
             ClassDeclaration (classNamed [ExportKeyword] "PublicFoo" [] []);
             FunctionDeclaration [ExportKeyword] (Some (ident "doFoo")) []
               [{| param_name := "foo";
                   param_type :=
                     Some (TypeReferenceNode
                             (EntityIdentifier (createIdentifier "PublicFoo")) [])
                |}] None] |}
  /\ forallb (everyStatement (heritageIsExported PublicFoo.typeChecker))
       [NotEmittedStatement (ClassDeclaration PublicFoo.PrivateFoo);
        ClassDeclaration (classNamed [ExportKeyword] "PublicFoo" [] []);
        FunctionDeclaration [ExportKeyword] (Some (ident "doFoo")) []
          [{| param_name := "foo";
              param_type :=
                Some (TypeReferenceNode
                        (EntityIdentifier (createIdentifier "PublicFoo")) [])
           |}] None] = true.
Proof.
  split; [reflexivity|].
  apply (output_heritage_exported PublicFoo.typeChecker PublicFoo.sourceFile
           _ doFoo_rewritten).
Defined.

(** ** Why a run throws *)

Lemma extractJSDocComment_Throw symbol alreadyAddedMembers e :
  extractJSDocComment symbol alreadyAddedMembers = Throw e ->
  e = TypeErrorUndefined /\ coversDocumentation symbol = false.
Proof.
  intros H. split.
  - unfold extractJSDocComment in H.
    destruct (overloadComments _ 0 (sym_documentation symbol)); [discriminate H|].
    destruct (sym_declarations symbol) as [ds|]; [|discriminate H].
    destruct (nth_error ds _); [discriminate H|].
    injection H as <-. reflexivity.
  - destruct (coversDocumentation symbol) eqn:E; [|reflexivity].
    destruct (extractJSDocComment_total symbol alreadyAddedMembers E) as (r & Hr).
    rewrite Hr in H. discriminate H.
Qed.

Lemma foldM_Throw {A B : Type} (f : A -> B -> result A) l a e :
  foldM f l a = Throw e -> exists a' x, In x l /\ f a' x = Throw e.
Proof.
  revert a. induction l as [|x r IH]; intros a H; simpl in H; [discriminate H|].
  destruct (f a x) as [a'|e'] eqn:E; simpl in H.
  - destruct (IH a' H) as (a'' & y & Hy & Hf). exists a'', y. split; auto.
    right. exact Hy.
  - injection H as <-. exists a, x. split; [left; reflexivity | exact E].
Qed.

Lemma mapM_Throw {A B : Type} (f : A -> result B) l e :
  mapM f l = Throw e -> exists x, In x l /\ f x = Throw e.
Proof.
  induction l as [|x r IH]; intros H; simpl in H; [discriminate H|].
  destruct (f x) as [y|e'] eqn:E; simpl in H.
  - destruct (mapM f r) as [ys|e'']; simpl in H; [discriminate H|].
    injection H as <-. destruct (IH eq_refl) as (z & Hz & Hf).
    exists z. split; [right; exact Hz | exact Hf].
  - injection H as <-. exists x. split; [left; reflexivity | exact E].
Qed.

Lemma convertPropertiesForEnclosingClass_Throw symbols currentClass e :
  convertPropertiesForEnclosingClass symbols currentClass = Throw e ->
  e = TypeErrorUndefined
  /\ exists symbol, In symbol symbols /\ coversDocumentation symbol = false.
Proof.
  intros H. apply foldM_Throw in H.
  destruct H as (newMembers & missingMember & _ & H).
  unfold addMissingMember in H.
  destruct (find _ symbols) as [symbol|] eqn:Hfind; simpl in H.
  - destruct (extractJSDocComment symbol newMembers) as [[c|]|e'] eqn:Hx;
      simpl in H; try discriminate H.
    injection H as <-. apply extractJSDocComment_Throw in Hx.
    destruct Hx as (He & Hc). split; [exact He|].
    apply find_some in Hfind. exists symbol. split; [apply Hfind | exact Hc].
  - discriminate H.
Qed.

Lemma pruneHeritageTypes_Throw typeChecker node types e :
  pruneHeritageTypes typeChecker node types = Throw e ->
  e = TypeErrorUndefined /\ overDocumentedHeritage typeChecker.
Proof.
  induction types as [|type rest IH]; simpl; intros H; [discriminate H|].
  destruct (isExportedHeritage typeChecker type) eqn:Hexp.
  - destruct (pruneHeritageTypes typeChecker node rest); simpl in H;
      [discriminate H|]. injection H as <-. apply IH. reflexivity.
  - destruct (convertPropertiesForEnclosingClass _ node) as [ms|e'] eqn:Hc;
      simpl in H.
    + destruct (pruneHeritageTypes typeChecker node rest); simpl in H;
        [discriminate H|]. injection H as <-. apply IH. reflexivity.
    + injection H as <-. apply convertPropertiesForEnclosingClass_Throw in Hc.
      destruct Hc as (He & symbol & Hin & Hcov). split; [exact He|].
      exists type, symbol. auto.
Qed.

Lemma pruneHeritageClauses_Throw typeChecker node clauses e :
  pruneHeritageClauses typeChecker node clauses = Throw e ->
  e = TypeErrorUndefined /\ overDocumentedHeritage typeChecker.
Proof.
  induction clauses as [|c rest IH]; simpl; intros H; [discriminate H|].
  destruct (pruneHeritageTypes typeChecker node (h_types c)) as [p|e'] eqn:Hp;
    simpl in H.
  - destruct (pruneHeritageClauses typeChecker node rest); simpl in H;
      [discriminate H|]. injection H as <-. apply IH. reflexivity.
  - injection H as <-. apply (pruneHeritageTypes_Throw _ _ _ _ Hp).
Qed.

Lemma visitNodeAndChildren_statement_Throw typeChecker node e :
  visitNodeAndChildren_statement typeChecker node = Throw e ->
  e = TypeErrorUndefined /\ overDocumentedHeritage typeChecker.
Proof.
  induction node as [modifiers name body IH|node Hnode]
    using Statement_nested_ind; intros H.
  - simpl in H. rewrite visitStatements_mapM in H.
    destruct (hasExportKeyword modifiers); [|discriminate H].
    destruct (mapM _ body) as [body'|e'] eqn:Hm; simpl in H; [discriminate H|].
    injection H as <-. apply mapM_Throw in Hm. destruct Hm as (x & Hx & Hf).
    rewrite Forall_forall in IH. apply (IH x Hx Hf).
  - rewrite visitNodeAndChildren_statement_eq in H. unfold visit_statement in H.
    destruct (isDeclaration node && negb (hasExportKeyword (modifiersOf node)));
      [discriminate H|].
    destruct node as [c|c|? ? ? ? ?|? ?|? ? ? ?|? ? ?|? ? ?|?|?|?];
      simpl in H; try discriminate H;
      try (exfalso; eapply Hnode; reflexivity);
      destruct (pruneHeritageClauses typeChecker c (cl_heritageClauses c))
        as [r|e'] eqn:Hr; simpl in H; try discriminate H;
      injection H as <-; apply (pruneHeritageClauses_Throw _ _ _ _ Hr).
Qed.

(** X14. The only way the transformer throws is the out-of-range read of
    [symbol.declarations] in [extractJSDocComment]: the error is the
    TypeError, never the "only classes or interfaces" error, and it needs
    a heritage type that is dropped and has, among its members, a symbol
    whose documentation has more blocks than the symbol has
    declarations.  A run of [pruneDts] throws for the same reason only,
    and then writes nothing. *)
Theorem pruning_failure_cause (typeChecker : TypeChecker)
    (sourceFile : SourceFile) (outputLocation : string) (e : Error) :
  dropPrivateApiTransformer typeChecker sourceFile = Throw e ->
  e = TypeErrorUndefined
  /\ (exists type symbol,
         isExportedHeritage typeChecker type = false
         /\ In symbol (getPropertiesAtLocation typeChecker type)
         /\ coversDocumentation symbol = false)
  /\ pruneDts {| getSourceFile := sourceFile; getTypeChecker := typeChecker |}
              outputLocation
     = {| effects := []; thrown := Some TypeErrorUndefined |}.
Proof.
  intros H.
  assert (Hcause : e = TypeErrorUndefined /\ overDocumentedHeritage typeChecker).
  { unfold dropPrivateApiTransformer in H.
    destruct (mapM _ (statements sourceFile)) as [stmts|e'] eqn:Hm; simpl in H;
      [discriminate H|].
    injection H as <-. apply mapM_Throw in Hm. destruct Hm as (x & _ & Hf).
    apply (visitNodeAndChildren_statement_Throw _ _ _ Hf). }
  destruct Hcause as (-> & Hover). split; [reflexivity|]. split; [exact Hover|].
  unfold pruneDts. simpl. rewrite H. reflexivity.
Qed.

Lemma pruning_failure_cause_witness :
  dropPrivateApiTransformer OutOfRange.typeChecker OutOfRange.sourceFile
  = Throw TypeErrorUndefined
  /\ pruneDts OutOfRange.program "pruned.d.ts"
     = {| effects := []; thrown := Some TypeErrorUndefined |}.
Proof.
  split; [reflexivity|].
  destruct (pruning_failure_cause OutOfRange.typeChecker OutOfRange.sourceFile
              "pruned.d.ts" TypeErrorUndefined eq_refl) as (_ & _ & H).
  exact H.
Defined.

(** ** Pruning twice *)

Lemma map_idempotent {A : Type} (f : A -> A) (l : list A) :
  Forall (fun x => f (f x) = f x) l -> map f (map f l) = map f l.
Proof.
  induction 1 as [|x r Hx _ IH]; simpl; [reflexivity|].
  rewrite Hx, IH. reflexivity.
Qed.

Lemma map_idempotent_all {A : Type} (f : A -> A) (l : list A) :
  (forall x, f (f x) = f x) -> map f (map f l) = map f l.
Proof.
  intros H. apply map_idempotent. apply Forall_forall. intros x _. apply H.
Qed.

Section PruningTwice.

Variable typeChecker : TypeChecker.
Hypothesis accepted : substitutesAccepted typeChecker.

Lemma visitNodeAndChildren_type_idempotent t :
  visitNodeAndChildren_type typeChecker (visitNodeAndChildren_type typeChecker t)
  = visitNodeAndChildren_type typeChecker t.
Proof.
  induction t as [typeName typeArguments IH|k|e IH|types IH]
    using TypeNode_nested_ind.
  - cbn [visitNodeAndChildren_type].
    destruct (extractExportedSymbol typeChecker typeName) as [s|] eqn:E.
    + destruct typeName as [i|l r]; [|discriminate E].
      cbn [visitNodeAndChildren_type].
      rewrite (isExported_no_substitute _ _ (accepted i s E)).
      rewrite (map_idempotent _ _ IH). reflexivity.
    + cbn [visitNodeAndChildren_type]. rewrite E.
      rewrite (map_idempotent _ _ IH). reflexivity.
  - reflexivity.
  - simpl. rewrite IH. reflexivity.
  - simpl. rewrite (map_idempotent _ _ IH). reflexivity.
Qed.

Lemma optional_type_idempotent o :
  option_map (visitNodeAndChildren_type typeChecker)
    (option_map (visitNodeAndChildren_type typeChecker) o)
  = option_map (visitNodeAndChildren_type typeChecker) o.
Proof.
  destruct o as [t|]; simpl; [|reflexivity].
  rewrite visitNodeAndChildren_type_idempotent. reflexivity.
Qed.

Lemma visitParameter_idempotent p :
  visitParameter typeChecker (visitParameter typeChecker p)
  = visitParameter typeChecker p.
Proof.
  unfold visitParameter. simpl. rewrite optional_type_idempotent. reflexivity.
Qed.

Lemma visitTypeParameter_idempotent p :
  visitTypeParameter typeChecker (visitTypeParameter typeChecker p)
  = visitTypeParameter typeChecker p.
Proof.
  unfold visitTypeParameter. simpl. rewrite optional_type_idempotent.
  reflexivity.
Qed.

Lemma visitVariable_idempotent v :
  visitVariable typeChecker (visitVariable typeChecker v)
  = visitVariable typeChecker v.
Proof.
  unfold visitVariable. simpl. rewrite optional_type_idempotent. reflexivity.
Qed.

Lemma visitHeritageClause_idempotent c :
  visitHeritageClause typeChecker (visitHeritageClause typeChecker c)
  = visitHeritageClause typeChecker c.
Proof.
  unfold visitHeritageClause. simpl. f_equal.
  apply map_idempotent_all. intros t. unfold visitHeritageType. simpl.
  f_equal. apply map_idempotent_all.
  apply visitNodeAndChildren_type_idempotent.
Qed.

Lemma visitNodeAndChildren_member_idempotent m :
  visitNodeAndChildren_member typeChecker
    (visitNodeAndChildren_member typeChecker m)
  = visitNodeAndChildren_member typeChecker m.
Proof.
  destruct m as [decorators modifiers parameters body jsDoc|d|text tags|o];
    try reflexivity.
  - unfold visitNodeAndChildren_member, visit_member, maybeHideConstructor.
    destruct (find _ jsDoc) as [tag|] eqn:E; simpl; [reflexivity|].
    rewrite E. simpl.
    rewrite (map_idempotent_all _ _ visitParameter_idempotent). reflexivity.
  - rewrite visitNodeAndChildren_member_named.
    destruct (isPrunableMemberKind (m_kind d) && hasPrivatePrefix (m_name d))
      eqn:E; [reflexivity|].
    rewrite visitNodeAndChildren_member_named. simpl. rewrite E.
    unfold withVisitedSignature. simpl.
    rewrite (map_idempotent_all _ _ visitTypeParameter_idempotent),
      (map_idempotent_all _ _ visitParameter_idempotent),
      optional_type_idempotent.
    reflexivity.
Qed.

Lemma visitEachChild_classLike_idempotent c :
  visitEachChild_classLike typeChecker (visitEachChild_classLike typeChecker c)
  = visitEachChild_classLike typeChecker c.
Proof.
  unfold visitEachChild_classLike. simpl.
  rewrite (map_idempotent_all _ _ visitTypeParameter_idempotent),
    (map_idempotent_all _ _ visitHeritageClause_idempotent),
    (map_idempotent_all _ _ visitNodeAndChildren_member_idempotent).
  reflexivity.
Qed.

Lemma pruneHeritageClauses_visited node clauses :
  pruneHeritageClauses typeChecker node
    (map (visitHeritageClause typeChecker)
         (keptHeritageClauses typeChecker clauses))
  = Ok (map (visitHeritageClause typeChecker)
            (keptHeritageClauses typeChecker clauses), []).
Proof.
  pose proof (keptHeritageClauses_exported typeChecker clauses) as Hall.
  induction (keptHeritageClauses typeChecker clauses) as [|c rest IH];
    [reflexivity|].
  inversion Hall as [|? ? (Hne & Hexp) Hrest]; subst.
  cbn [map pruneHeritageClauses].
  rewrite pruneHeritageTypes_exported.
  - cbn [bind]. rewrite (IH Hrest). cbn [bind fst snd app].
    destruct c as [tok [|t ts]]; [contradiction|]. reflexivity.
  - unfold visitHeritageClause. cbn [h_types].
    apply forallb_forall. intros x Hx. apply in_map_iff in Hx.
    destruct Hx as (x0 & <- & Hx0). rewrite isExportedHeritage_visited.
    rewrite Forall_forall in Hexp. apply Hexp. exact Hx0.
Qed.

Lemma updateClassLike_self c :
  updateClassLike c (cl_heritageClauses c) [] = c.
Proof.
  unfold updateClassLike. rewrite app_nil_r. destruct c; reflexivity.
Qed.

(** The class or interface the traversal returned is returned again. *)
Lemma resolved_classLike_fixed c r :
  pruneHeritageClauses typeChecker c (cl_heritageClauses c) = Ok r ->
  hasExportKeyword (cl_modifiers c) = true ->
  let c' := visitEachChild_classLike typeChecker
              (updateClassLike c (fst r) (snd r)) in
  visitNodeAndChildren_statement typeChecker (ClassDeclaration c')
  = Ok (ClassDeclaration c')
  /\ visitNodeAndChildren_statement typeChecker (InterfaceDeclaration c')
     = Ok (InterfaceDeclaration c').
Proof.
  intros Hr Hexp c'.
  destruct (pruneHeritageClauses_Ok _ _ _ _ Hr) as (Hkept & _).
  assert (Hmods : hasExportKeyword (cl_modifiers c') = true) by exact Hexp.
  assert (Hher : cl_heritageClauses c'
                 = map (visitHeritageClause typeChecker)
                       (keptHeritageClauses typeChecker (cl_heritageClauses c))).
  { unfold c'. simpl. rewrite Hkept. reflexivity. }
  assert (Hfix : visitEachChild_classLike typeChecker c' = c').
  { unfold c'. apply visitEachChild_classLike_idempotent. }
  assert (Hprune : pruneHeritageClauses typeChecker c' (cl_heritageClauses c')
                   = Ok (cl_heritageClauses c', [])).
  { rewrite Hher. apply pruneHeritageClauses_visited. }
  clearbody c'.
  split; rewrite visitNodeAndChildren_statement_eq; unfold visit_statement;
    cbn [isDeclaration modifiersOf]; rewrite Hmods;
    cbn [negb andb prunePrivateImports]; rewrite Hprune;
    cbn [bind fst snd visitEachChild_statement];
    rewrite updateClassLike_self, Hfix; reflexivity.
Qed.

Lemma traversal_twice node out :
  visitNodeAndChildren_statement typeChecker node = Ok out ->
  visitNodeAndChildren_statement typeChecker out = Ok out.
Proof.
  revert out.
  induction node as [modifiers name body IH|node Hnode]
    using Statement_nested_ind; intros out H.
  - simpl in H. rewrite visitStatements_mapM in H.
    destruct (hasExportKeyword modifiers) eqn:Hexp.
    + apply bind_Ok_inv in H. destruct H as (body' & Hbody & H).
      injection H as <-. simpl. rewrite Hexp, visitStatements_mapM.
      rewrite mapM_fixed; [reflexivity|].
      apply mapM_Forall2 in Hbody. clear Hexp.
      induction Hbody as [|x y l l' Hxy _ IHl]; [constructor|].
      inversion IH as [|? ? Hx Hrest]; subst.
      constructor; [apply (Hx y Hxy) | apply (IHl Hrest)].
    + injection H as <-. reflexivity.
  - rewrite visitNodeAndChildren_statement_eq in H.
    unfold visit_statement in H.
    destruct (isDeclaration node && negb (hasExportKeyword (modifiersOf node)))
      eqn:Hcond.
    { simpl in H. injection H as <-. reflexivity. }
    destruct node as [c|c|ms n tps ps t|ms ds|ms n tps t|ms n b|ms n es|t|t|o];
      simpl in Hcond; try apply negb_false_iff in Hcond;
      try (exfalso; eapply Hnode; reflexivity).
    + simpl in H.
      destruct (pruneHeritageClauses typeChecker c (cl_heritageClauses c))
        as [r|e] eqn:Hr; simpl in H; [|discriminate H].
      injection H as <-. apply (resolved_classLike_fixed c r Hr Hcond).
    + simpl in H.
      destruct (pruneHeritageClauses typeChecker c (cl_heritageClauses c))
        as [r|e] eqn:Hr; simpl in H; [|discriminate H].
      injection H as <-. apply (resolved_classLike_fixed c r Hr Hcond).
    + simpl in H. injection H as <-.
      rewrite visitNodeAndChildren_statement_eq. unfold visit_statement.
      simpl. rewrite Hcond. simpl.
      rewrite (map_idempotent_all _ _ visitTypeParameter_idempotent),
        (map_idempotent_all _ _ visitParameter_idempotent),
        optional_type_idempotent. reflexivity.
    + simpl in H. injection H as <-.
      rewrite visitNodeAndChildren_statement_eq. unfold visit_statement.
      simpl. rewrite Hcond. simpl.
      rewrite (map_idempotent_all _ _ visitVariable_idempotent). reflexivity.
    + simpl in H. injection H as <-.
      rewrite visitNodeAndChildren_statement_eq. unfold visit_statement.
      simpl. rewrite Hcond. simpl.
      rewrite (map_idempotent_all _ _ visitTypeParameter_idempotent),
        visitNodeAndChildren_type_idempotent. reflexivity.
    + simpl in H. injection H as <-.
      rewrite visitNodeAndChildren_statement_eq. unfold visit_statement.
      simpl. rewrite Hcond. reflexivity.
    + simpl in H. injection H as <-. reflexivity.
    + simpl in H. injection H as <-. reflexivity.
    + simpl in H. injection H as <-. reflexivity.
Qed.

End PruningTwice.

(** X15. When every substitute the search can find has a name that
    [isExported] accepts, pruning twice is pruning once: the transformer
    applied to the tree it returned, with the same checker, returns that
    tree.  Placeholders stay, the heritage clauses that were kept are kept
    whole and nothing more is copied, hidden constructors and kept members
    are left as they are, and no reference is rewritten again. *)
Theorem pruning_twice (typeChecker : TypeChecker) (sourceFile out : SourceFile) :
  substitutesAccepted typeChecker ->
  dropPrivateApiTransformer typeChecker sourceFile = Ok out ->
  dropPrivateApiTransformer typeChecker out = Ok out.
Proof.
  intros Haccepted H. unfold dropPrivateApiTransformer in *.
  apply bind_Ok_inv in H. destruct H as (stmts & Hmap & H).
  injection H as <-. simpl.
  rewrite mapM_fixed; [reflexivity|].
  apply mapM_Forall2 in Hmap.
  induction Hmap as [|x y l l' Hxy _ IH]; constructor.
  - apply (traversal_twice typeChecker Haccepted x y Hxy).
  - exact IH.
Qed.

Lemma PublicFoo_substitutesAccepted :
  substitutesAccepted PublicFoo.typeChecker.
Proof.
  intros typeName publicName H.
  apply substitute_exported_or_ancestor in H as Hcase.
  destruct Hcase as [Hin|Hnone].
  - apply isExported_export_name. exact Hin.
  - exfalso. rewrite extractExportedSymbol_substituteSearch in H.
    destruct (isExported PublicFoo.typeChecker typeName) eqn:E;
      [discriminate H|].
    unfold substituteSearch in H.
    rewrite (isExported_false_sameNamed _ _ E), Hnone in H.
    unfold exportedAncestors in H. cbn [app] in H.
    destruct (getSymbolAtLocation PublicFoo.typeChecker typeName)
      as [localSymbol|] eqn:Hl; [|discriminate H].
    unfold PublicFoo.typeChecker, tableChecker in Hl.
    cbn [getSymbolAtLocation] in Hl. apply find_some in Hl.
    destruct Hl as ([<-|[<-|[<-|[]]]] & _); vm_compute in H; discriminate H.
Qed.

Lemma pruning_twice_witness :
  substitutesAccepted PublicFoo.typeChecker
  /\ dropPrivateApiTransformer PublicFoo.typeChecker
       {| fileName := "index.d.ts";
          statements :=
            [NotEmittedStatement (ClassDeclaration PublicFoo.PrivateFoo);
             ClassDeclaration (classNamed [ExportKeyword] "PublicFoo" [] []);
             FunctionDeclaration [ExportKeyword] (Some (ident "doFoo")) []
               [{| param_name := "foo";
                   param_type :=
                     Some (TypeReferenceNode
                             (EntityIdentifier (createIdentifier "PublicFoo")) [])
                |}] None] |}
     = Ok {| fileName := "index.d.ts";
             statements :=
               [NotEmittedStatement (ClassDeclaration PublicFoo.PrivateFoo);
                ClassDeclaration (classNamed [ExportKeyword] "PublicFoo" [] []);
                FunctionDeclaration [ExportKeyword] (Some (ident "doFoo")) []
                  [{| param_name := "foo";
                      param_type :=
                        Some (TypeReferenceNode
                                (EntityIdentifier (createIdentifier "PublicFoo"))
                                [])
                   |}] None] |}.
Proof.
  split; [exact PublicFoo_substitutesAccepted|].
  apply (pruning_twice PublicFoo.typeChecker PublicFoo.sourceFile _
           PublicFoo_substitutesAccepted doFoo_rewritten).
Defined.
